(** * p5-components: component state machine, text editing and events

    A shallow embedding of the widget library of [p5-components]
    ([core/EventEmitter.js], [core/P5Component.js], [components/Button.js],
    [components/TextBox.js], [components/Label.js]) and the properties of its
    specification that concern the event registry, the per-component state
    machine, the text box's cursor and editing logic, construction defaults and
    the JSON round trip.  The later sections state what the code itself shows
    of the rest: the other operations of the event registry, the pointer and
    the focus, assignment by key and [fromJSON], the remaining keys of the
    text box, and the text that the text box and the label draw. *)

From Stdlib Require Import ZArith Bool Ascii String List Lia.
From stdpp Require Import base option list gmap strings.
Import ListNotations.

Open Scope Z_scope.

(* ===================================================================== *)
(** * JavaScript numbers and strings *)
(* ===================================================================== *)

(** The numbers that the host hands to the widgets (pointer coordinates, glyph
    widths, geometry) are JavaScript numbers.  The code only adds, subtracts,
    multiplies, halves and compares them and tests them for truthiness, so the
    development is parametric in the number type: every statement holds for
    whatever arithmetic the host implements.  The single law is the one the
    constructors rely on: the literal [0] is falsy and the other integer
    literals are truthy. *)
Class JsNumber (Num : Type) := {
  num_of_Z : Z -> Num;
  num_truthy : Num -> bool;
  num_add : Num -> Num -> Num;
  num_sub : Num -> Num -> Num;
  num_mul : Num -> Num -> Num;
  num_div : Num -> Num -> Num;
  num_gt : Num -> Num -> bool;
  num_truthy_of_Z : forall z, num_truthy (num_of_Z z) = negb (z =? 0)
}.

(** Integral numbers: the instance used to run the model on examples.  Division
    is exact on the even glyph widths the examples use. *)
#[export] Instance Z_JsNumber : JsNumber Z := {|
  num_of_Z := fun z => z;
  num_truthy := fun z => negb (z =? 0);
  num_add := Z.add;
  num_sub := Z.sub;
  num_mul := Z.mul;
  num_div := Z.div;
  num_gt := Z.gtb;
  num_truthy_of_Z := fun z => eq_refl
|}.

(** [a || b] on an option that may be absent ([undefined]). *)
Definition or_default {A} (truthy : A -> bool) (o : option A) (d : A) : A :=
  match o with
  | Some v => if truthy v then v else d
  | None => d
  end.

(** [o !== undefined ? o : d]. *)
Definition defined_or {A} (o : option A) (d : A) : A :=
  match o with
  | Some v => v
  | None => d
  end.

(** [{ key: d, ...options }]: the option given, else the default of the
    subclass. *)
Definition spread {A} (d : A) (o : option A) : option A :=
  match o with
  | Some v => Some v
  | None => Some d
  end.

Definition str_truthy (s : string) : bool := negb (String.length s =? 0)%nat.
Definition int_truthy (z : Z) : bool := negb (z =? 0).
Definition bool_truthy (b : bool) : bool := b.

(** The first [n] characters of a string, and the string without them. *)
Fixpoint str_take (n : nat) (s : string) : string :=
  match n, s with
  | S n', String c s' => String c (str_take n' s')
  | _, _ => EmptyString
  end.

Fixpoint str_drop (n : nat) (s : string) : string :=
  match n, s with
  | S n', String _ s' => str_drop n' s'
  | _, _ => s
  end.

(** [String.prototype.substring(start, end)]: both indices are clamped to
    [0, length] and swapped when out of order; an absent [end] is the length. *)
Definition substring (s : string) (start : Z) (end_ : option Z) : string :=
  let len := Z.of_nat (String.length s) in
  let intEnd := match end_ with Some e => e | None => len end in
  let finalStart := Z.min (Z.max start 0) len in
  let finalEnd := Z.min (Z.max intEnd 0) len in
  let from := Z.min finalStart finalEnd in
  let to := Z.max finalStart finalEnd in
  str_take (Z.to_nat (to - from)) (str_drop (Z.to_nat from) s).

#[global] Arguments substring : simpl never.

(** [String.prototype.charAt(i)]: the empty string outside the string. *)
Definition charAt (s : string) (i : Z) : string :=
  if (i <? 0) then EmptyString
  else match String.get (Z.to_nat i) s with
       | Some c => String c EmptyString
       | None => EmptyString
       end.

(** [key.charCodeAt(0)] of a non-empty string. *)
Definition charCodeAt0 (s : string) : Z :=
  match s with
  | String c _ => Z.of_nat (nat_of_ascii c)
  | EmptyString => 0
  end.

(** The members that every plain object inherits from [Object.prototype],
    each with what [.length] reads on it: the number of parameters of a
    function, and [undefined] ([None]) on [__proto__], whose getter returns
    [Object.prototype] itself.  Every one of them is truthy. *)
Definition Object_prototype : list (string * option nat) :=
  [ ("constructor", Some 1%nat);
    ("__defineGetter__", Some 2%nat);
    ("__defineSetter__", Some 2%nat);
    ("hasOwnProperty", Some 1%nat);
    ("__lookupGetter__", Some 1%nat);
    ("__lookupSetter__", Some 1%nat);
    ("isPrototypeOf", Some 1%nat);
    ("propertyIsEnumerable", Some 1%nat);
    ("toString", Some 0%nat);
    ("valueOf", Some 0%nat);
    ("__proto__", None);
    ("toLocaleString", Some 0%nat) ].

(** The member of that name, if there is one. *)
Definition inherited (name : string) : option (option nat) :=
  match List.find (fun e => String.eqb name (fst e)) Object_prototype with
  | Some e => Some (snd e)
  | None => None
  end.

(* ===================================================================== *)
(** * EventEmitter *)
(* ===================================================================== *)

Module EventEmitter.

(** The [TypeError] the engine throws where what is called is not a
    function, as a value of the host's exceptions. *)
Class Errors (Exn : Type) := TypeError : string -> Exn.

Section Emitter.

(** Listener arguments, thrown values and the rest of the host's state are
    the host's own. *)
Context {Arg Exn World : Type} {errors : Errors Exn}.

(** A callback is a function object, compared by identity.  [Fn id] is a
    function of the host; [OnceWrapper id event callback] is the closure
    [once] builds around [callback]. *)
Inductive Callback :=
| Fn (id : nat)
| OnceWrapper (id : nat) (event : string) (callback : Callback).

Fixpoint callback_eqb (a b : Callback) : bool :=
  match a, b with
  | Fn i, Fn j => (i =? j)%nat
  | OnceWrapper i e c, OnceWrapper j f d =>
      (i =? j)%nat && String.eqb e f && callback_eqb c d
  | _, _ => false
  end.

(** What a listener can see and change: the registry itself ([this.events],
    through [on], [off], ...), the diagnostic channel and the host's state.
    The registry is a plain object used as a map from event names to arrays:
    [events] holds its own properties. *)
Record Host := mkHost {
  events : gmap string (list Callback);
  console : list (string * Exn);
  closures : nat;
  world : World
}.

(** What [this.events[event]] reads: the array the registry holds for the
    event, else the member of that name that the registry inherits from
    [Object.prototype] ([constructor], [toString], ...), else [undefined].
    An array and an inherited member are truthy. *)
Inductive Binding :=
| Listeners (listeners : list Callback)
| Inherited (length : option nat)
| Undefined.

Definition binding (event : string) (h : Host) : Binding :=
  match events h !! event with
  | Some listeners => Listeners listeners
  | None =>
      match inherited event with
      | Some length => Inherited length
      | None => Undefined
      end
  end.

Inductive Completion :=
| Normal
| Throw (error : Exn).

(** One call of a listener made by [emit]. *)
Record Invocation := mkInvocation {
  inv_callback : Callback;
  inv_args : list Arg;
  inv_completion : Completion
}.

(** The body of every host function: any change of the host, finishing
    normally or by throwing. *)
Variable run : nat -> list Arg -> Host -> Host * Completion.

Definition set_events (ev : gmap string (list Callback)) (h : Host) : Host :=
  mkHost ev (console h) (closures h) (world h).

Definition console_error (event : string) (error : Exn) (h : Host) : Host :=
  mkHost (events h) (console h ++ [(event, error)]) (closures h) (world h).

(** [on(event, callback)]: create the array if the look-up finds nothing,
    push.  An inherited member is found in place of an array and has no
    [push]. *)
Definition on (event : string) (callback : Callback) (h : Host)
    : Host * Completion :=
  let h1 := match binding event h with
            | Undefined => set_events (<[event := []]> (events h)) h
            | _ => h
            end in
  match binding event h1 with
  | Listeners l => (set_events (<[event := l ++ [callback]]> (events h1)) h1, Normal)
  | _ => (h1, Throw (TypeError "this.events[event].push is not a function"))
  end.

(** [off(event, callback)]: rebind the event to a filtered copy and delete
    the entry when the copy is empty.  An inherited member has no
    [filter]. *)
Definition off (event : string) (callback : Callback) (h : Host)
    : Host * Completion :=
  match binding event h with
  | Undefined => (h, Normal)
  | Inherited _ =>
      (h, Throw (TypeError "this.events[event].filter is not a function"))
  | Listeners l =>
      let l' := List.filter (fun cb => negb (callback_eqb cb callback)) l in
      let h1 := set_events (<[event := l']> (events h)) h in
      (if (List.length l' =? 0)%nat
       then set_events (delete event (events h1)) h1
       else h1, Normal)
  end.

(** [once(event, callback)]: register a fresh wrapper. *)
Definition once (event : string) (callback : Callback) (h : Host)
    : Host * Completion :=
  let onceWrapper := OnceWrapper (closures h) event callback in
  on event onceWrapper
     (mkHost (events h) (console h) (S (closures h)) (world h)).

(** Calling a callback.  The wrapper of [once] calls the wrapped callback
    and then unregisters itself; a throw of the wrapped callback leaves the
    wrapper before [off], and a throw of [off] is a throw of the wrapper. *)
Fixpoint call (cb : Callback) (args : list Arg) (h : Host) : Host * Completion :=
  match cb with
  | Fn id => run id args h
  | OnceWrapper _ event callback =>
      match call callback args h with
      | (h1, Normal) => off event cb h1
      | (h1, Throw e) => (h1, Throw e)
      end
  end.

(** [try { callback(...args) } catch (error) { console.error(...) }]. *)
Definition guarded_call (event : string) (args : list Arg) (cb : Callback)
    (h : Host) : Host * Completion * Invocation :=
  match call cb args h with
  | (h1, Normal) => (h1, Normal, mkInvocation cb args Normal)
  | (h1, Throw e) => (console_error event e h1, Normal, mkInvocation cb args (Throw e))
  end.

(** [array.forEach(f)]: the elements in index order; a throw of [f] ends the
    loop and is the completion of the loop.  The array is the one bound to
    the event when [emit] starts: [on] only appends to it, beyond the length
    [forEach] read at its start, and [off] and [removeAllListeners] rebind
    the event without touching it, so the calls made by listeners during the
    loop do not change the elements visited. *)
Fixpoint forEach (f : Callback -> Host -> Host * Completion * Invocation)
    (l : list Callback) (h : Host) : Host * Completion * list Invocation :=
  match l with
  | [] => (h, Normal, [])
  | cb :: rest =>
      match f cb h with
      | (h1, Normal, i) =>
          let '(h2, c, invs) := forEach f rest h1 in (h2, c, i :: invs)
      | (h1, Throw e, i) => (h1, Throw e, [i])
      end
  end.

(** [emit(event, ...args)].  An inherited member has no [forEach]. *)
Definition emit (event : string) (args : list Arg) (h : Host)
    : Host * Completion * list Invocation :=
  match binding event h with
  | Undefined => (h, Normal, [])
  | Inherited _ =>
      (h, Throw (TypeError "this.events[event].forEach is not a function"), [])
  | Listeners listeners => forEach (guarded_call event args) listeners h
  end.

(** [removeAllListeners(event)]: [delete] removes the registry's own entry
    and does nothing where there is none. *)
Definition removeAllListeners (event : option string) (h : Host) : Host :=
  match event with
  | Some e => if str_truthy e then set_events (delete e (events h)) h
              else set_events ∅ h
  | None => set_events ∅ h
  end.

(** [listenerCount(event)]: the length of what the look-up finds, which is
    [undefined] ([None]) where the member found has no [length]. *)
Definition listenerCount (event : string) (h : Host) : option nat :=
  match binding event h with
  | Listeners l => Some (List.length l)
  | Inherited length => length
  | Undefined => Some 0%nat
  end.

(** The host states met by the listeners of one delivery: each listener
    runs on the state left by the one before it. *)
Fixpoint delivered (event : string) (args : list Arg) (l : list Callback)
    (h : Host) : Host :=
  match l with
  | [] => h
  | cb :: rest =>
      delivered event args rest
        (match call cb args h with
         | (h1, Normal) => h1
         | (h1, Throw e) => console_error event e h1
         end)
  end.

End Emitter.
End EventEmitter.

(* ===================================================================== *)
(** * Widgets: data *)
(* ===================================================================== *)

(** [state]: normal, hover, active, disabled, focused. *)
Inductive State := normal | hover | active | disabled | focused.

(** [this.constructor.name]. *)
Inductive Kind := KComponent | KButton | KTextBox | KLabel.

Definition kind_name (k : Kind) : string :=
  match k with
  | KComponent => "P5Component"
  | KButton => "P5Button"
  | KTextBox => "P5TextBox"
  | KLabel => "P5Label"
  end.

Module Component.
Section Fields.
Context {Num : Type}.

(** The fields [P5Component]'s constructor creates.  [_canvas] tells whether
    p5 has created the canvas yet; [_p5Instance] is the live instance from
    construction to [destroy], the span this model covers, and [_parent] and
    [_containerElement] are never read. *)
Record Fields := mk {
  _name : string;
  _text : string;
  _left : Num;
  _top : Num;
  _width : Num;
  _height : Num;
  _enabled : bool;
  _visible : bool;
  _backColor : string;
  _foreColor : string;
  _fontSize : Num;
  _fontFamily : string;
  _borderColor : string;
  _borderWidth : Num;
  _tabIndex : Z;
  _state : State;
  _canvas : bool;
  _mouseInside : bool;
  _mousePressed : bool
}.

(** Field updates. *)
Definition set_name (v : string) (c : Fields) : Fields :=
  mk v (_text c) (_left c) (_top c) (_width c) (_height c) (_enabled c)
     (_visible c) (_backColor c) (_foreColor c) (_fontSize c)
     (_fontFamily c) (_borderColor c) (_borderWidth c) (_tabIndex c)
     (_state c) (_canvas c) (_mouseInside c) (_mousePressed c).
Definition set_text (v : string) (c : Fields) : Fields :=
  mk (_name c) v (_left c) (_top c) (_width c) (_height c) (_enabled c)
     (_visible c) (_backColor c) (_foreColor c) (_fontSize c)
     (_fontFamily c) (_borderColor c) (_borderWidth c) (_tabIndex c)
     (_state c) (_canvas c) (_mouseInside c) (_mousePressed c).
Definition set_left (v : Num) (c : Fields) : Fields :=
  mk (_name c) (_text c) v (_top c) (_width c) (_height c) (_enabled c)
     (_visible c) (_backColor c) (_foreColor c) (_fontSize c)
     (_fontFamily c) (_borderColor c) (_borderWidth c) (_tabIndex c)
     (_state c) (_canvas c) (_mouseInside c) (_mousePressed c).
Definition set_top (v : Num) (c : Fields) : Fields :=
  mk (_name c) (_text c) (_left c) v (_width c) (_height c) (_enabled c)
     (_visible c) (_backColor c) (_foreColor c) (_fontSize c)
     (_fontFamily c) (_borderColor c) (_borderWidth c) (_tabIndex c)
     (_state c) (_canvas c) (_mouseInside c) (_mousePressed c).
Definition set_width (v : Num) (c : Fields) : Fields :=
  mk (_name c) (_text c) (_left c) (_top c) v (_height c) (_enabled c)
     (_visible c) (_backColor c) (_foreColor c) (_fontSize c)
     (_fontFamily c) (_borderColor c) (_borderWidth c) (_tabIndex c)
     (_state c) (_canvas c) (_mouseInside c) (_mousePressed c).
Definition set_height (v : Num) (c : Fields) : Fields :=
  mk (_name c) (_text c) (_left c) (_top c) (_width c) v (_enabled c)
     (_visible c) (_backColor c) (_foreColor c) (_fontSize c)
     (_fontFamily c) (_borderColor c) (_borderWidth c) (_tabIndex c)
     (_state c) (_canvas c) (_mouseInside c) (_mousePressed c).
Definition set_enabled (v : bool) (c : Fields) : Fields :=
  mk (_name c) (_text c) (_left c) (_top c) (_width c) (_height c) v
     (_visible c) (_backColor c) (_foreColor c) (_fontSize c)
     (_fontFamily c) (_borderColor c) (_borderWidth c) (_tabIndex c)
     (_state c) (_canvas c) (_mouseInside c) (_mousePressed c).
Definition set_visible (v : bool) (c : Fields) : Fields :=
  mk (_name c) (_text c) (_left c) (_top c) (_width c) (_height c)
     (_enabled c) v (_backColor c) (_foreColor c) (_fontSize c)
     (_fontFamily c) (_borderColor c) (_borderWidth c) (_tabIndex c)
     (_state c) (_canvas c) (_mouseInside c) (_mousePressed c).
Definition set_backColor (v : string) (c : Fields) : Fields :=
  mk (_name c) (_text c) (_left c) (_top c) (_width c) (_height c)
     (_enabled c) (_visible c) v (_foreColor c) (_fontSize c)
     (_fontFamily c) (_borderColor c) (_borderWidth c) (_tabIndex c)
     (_state c) (_canvas c) (_mouseInside c) (_mousePressed c).
Definition set_foreColor (v : string) (c : Fields) : Fields :=
  mk (_name c) (_text c) (_left c) (_top c) (_width c) (_height c)
     (_enabled c) (_visible c) (_backColor c) v (_fontSize c)
     (_fontFamily c) (_borderColor c) (_borderWidth c) (_tabIndex c)
     (_state c) (_canvas c) (_mouseInside c) (_mousePressed c).
Definition set_fontSize (v : Num) (c : Fields) : Fields :=
  mk (_name c) (_text c) (_left c) (_top c) (_width c) (_height c)
     (_enabled c) (_visible c) (_backColor c) (_foreColor c) v
     (_fontFamily c) (_borderColor c) (_borderWidth c) (_tabIndex c)
     (_state c) (_canvas c) (_mouseInside c) (_mousePressed c).
Definition set_fontFamily (v : string) (c : Fields) : Fields :=
  mk (_name c) (_text c) (_left c) (_top c) (_width c) (_height c)
     (_enabled c) (_visible c) (_backColor c) (_foreColor c) (_fontSize c)
     v (_borderColor c) (_borderWidth c) (_tabIndex c) (_state c)
     (_canvas c) (_mouseInside c) (_mousePressed c).
Definition set_borderColor (v : string) (c : Fields) : Fields :=
  mk (_name c) (_text c) (_left c) (_top c) (_width c) (_height c)
     (_enabled c) (_visible c) (_backColor c) (_foreColor c) (_fontSize c)
     (_fontFamily c) v (_borderWidth c) (_tabIndex c) (_state c)
     (_canvas c) (_mouseInside c) (_mousePressed c).
Definition set_borderWidth (v : Num) (c : Fields) : Fields :=
  mk (_name c) (_text c) (_left c) (_top c) (_width c) (_height c)
     (_enabled c) (_visible c) (_backColor c) (_foreColor c) (_fontSize c)
     (_fontFamily c) (_borderColor c) v (_tabIndex c) (_state c)
     (_canvas c) (_mouseInside c) (_mousePressed c).
Definition set_state (v : State) (c : Fields) : Fields :=
  mk (_name c) (_text c) (_left c) (_top c) (_width c) (_height c)
     (_enabled c) (_visible c) (_backColor c) (_foreColor c) (_fontSize c)
     (_fontFamily c) (_borderColor c) (_borderWidth c) (_tabIndex c) v
     (_canvas c) (_mouseInside c) (_mousePressed c).
Definition set_canvas (v : bool) (c : Fields) : Fields :=
  mk (_name c) (_text c) (_left c) (_top c) (_width c) (_height c)
     (_enabled c) (_visible c) (_backColor c) (_foreColor c) (_fontSize c)
     (_fontFamily c) (_borderColor c) (_borderWidth c) (_tabIndex c)
     (_state c) v (_mouseInside c) (_mousePressed c).
Definition set_mouseInside (v : bool) (c : Fields) : Fields :=
  mk (_name c) (_text c) (_left c) (_top c) (_width c) (_height c)
     (_enabled c) (_visible c) (_backColor c) (_foreColor c) (_fontSize c)
     (_fontFamily c) (_borderColor c) (_borderWidth c) (_tabIndex c)
     (_state c) (_canvas c) v (_mousePressed c).
Definition set_mousePressed (v : bool) (c : Fields) : Fields :=
  mk (_name c) (_text c) (_left c) (_top c) (_width c) (_height c)
     (_enabled c) (_visible c) (_backColor c) (_foreColor c) (_fontSize c)
     (_fontFamily c) (_borderColor c) (_borderWidth c) (_tabIndex c)
     (_state c) (_canvas c) (_mouseInside c) v.
End Fields.
Arguments Fields : clear implicits.
End Component.

Module Button.
Section Fields.
Context {Num : Type}.

(** The fields [P5Button] adds. *)
Record Fields := mk {
  _hoverColor : string;
  _activeColor : string;
  _disabledColor : string;
  _disabledTextColor : string;
  _cornerRadius : Num
}.

Definition set_hoverColor (v : string) (c : Fields) : Fields :=
  mk v (_activeColor c) (_disabledColor c) (_disabledTextColor c)
     (_cornerRadius c).
Definition set_activeColor (v : string) (c : Fields) : Fields :=
  mk (_hoverColor c) v (_disabledColor c) (_disabledTextColor c)
     (_cornerRadius c).
Definition set_disabledColor (v : string) (c : Fields) : Fields :=
  mk (_hoverColor c) (_activeColor c) v (_disabledTextColor c)
     (_cornerRadius c).
Definition set_cornerRadius (v : Num) (c : Fields) : Fields :=
  mk (_hoverColor c) (_activeColor c) (_disabledColor c)
     (_disabledTextColor c) v.
End Fields.
Arguments Fields : clear implicits.
End Button.

Module TextBox.
Section Fields.
Context {Num : Type}.

(** The fields [P5TextBox] adds.  [_cursorBlinkInterval] tells whether a
    timer handle is stored; [blinkListeners] tells whether [setup] has
    registered the widget's own [focus] and [blur] listeners, which start
    and stop the blinking. *)
Record Fields := mk {
  _placeholder : string;
  _placeholderColor : string;
  _maxLength : Z;
  _readOnly : bool;
  _passwordChar : option string;
  _multiline : bool;
  _textAlign : string;
  _cursorPosition : Z;
  _cursorVisible : bool;
  _cursorBlinkInterval : bool;
  _selectionStart : Z;
  _selectionEnd : Z;
  _focusBorderColor : string;
  _padding : Num;
  blinkListeners : bool
}.

Definition set_placeholder (v : string) (c : Fields) : Fields :=
  mk v (_placeholderColor c) (_maxLength c) (_readOnly c)
     (_passwordChar c) (_multiline c) (_textAlign c) (_cursorPosition c)
     (_cursorVisible c) (_cursorBlinkInterval c) (_selectionStart c)
     (_selectionEnd c) (_focusBorderColor c) (_padding c)
     (blinkListeners c).
Definition set_maxLength (v : Z) (c : Fields) : Fields :=
  mk (_placeholder c) (_placeholderColor c) v (_readOnly c)
     (_passwordChar c) (_multiline c) (_textAlign c) (_cursorPosition c)
     (_cursorVisible c) (_cursorBlinkInterval c) (_selectionStart c)
     (_selectionEnd c) (_focusBorderColor c) (_padding c)
     (blinkListeners c).
Definition set_readOnly (v : bool) (c : Fields) : Fields :=
  mk (_placeholder c) (_placeholderColor c) (_maxLength c) v
     (_passwordChar c) (_multiline c) (_textAlign c) (_cursorPosition c)
     (_cursorVisible c) (_cursorBlinkInterval c) (_selectionStart c)
     (_selectionEnd c) (_focusBorderColor c) (_padding c)
     (blinkListeners c).
Definition set_passwordChar (v : option string) (c : Fields) : Fields :=
  mk (_placeholder c) (_placeholderColor c) (_maxLength c) (_readOnly c) v
     (_multiline c) (_textAlign c) (_cursorPosition c) (_cursorVisible c)
     (_cursorBlinkInterval c) (_selectionStart c) (_selectionEnd c)
     (_focusBorderColor c) (_padding c) (blinkListeners c).
Definition set_multiline (v : bool) (c : Fields) : Fields :=
  mk (_placeholder c) (_placeholderColor c) (_maxLength c) (_readOnly c)
     (_passwordChar c) v (_textAlign c) (_cursorPosition c)
     (_cursorVisible c) (_cursorBlinkInterval c) (_selectionStart c)
     (_selectionEnd c) (_focusBorderColor c) (_padding c)
     (blinkListeners c).
Definition set_textAlign (v : string) (c : Fields) : Fields :=
  mk (_placeholder c) (_placeholderColor c) (_maxLength c) (_readOnly c)
     (_passwordChar c) (_multiline c) v (_cursorPosition c)
     (_cursorVisible c) (_cursorBlinkInterval c) (_selectionStart c)
     (_selectionEnd c) (_focusBorderColor c) (_padding c)
     (blinkListeners c).
Definition set_cursorPosition (v : Z) (c : Fields) : Fields :=
  mk (_placeholder c) (_placeholderColor c) (_maxLength c) (_readOnly c)
     (_passwordChar c) (_multiline c) (_textAlign c) v (_cursorVisible c)
     (_cursorBlinkInterval c) (_selectionStart c) (_selectionEnd c)
     (_focusBorderColor c) (_padding c) (blinkListeners c).
Definition set_cursorVisible (v : bool) (c : Fields) : Fields :=
  mk (_placeholder c) (_placeholderColor c) (_maxLength c) (_readOnly c)
     (_passwordChar c) (_multiline c) (_textAlign c) (_cursorPosition c) v
     (_cursorBlinkInterval c) (_selectionStart c) (_selectionEnd c)
     (_focusBorderColor c) (_padding c) (blinkListeners c).
Definition set_cursorBlinkInterval (v : bool) (c : Fields) : Fields :=
  mk (_placeholder c) (_placeholderColor c) (_maxLength c) (_readOnly c)
     (_passwordChar c) (_multiline c) (_textAlign c) (_cursorPosition c)
     (_cursorVisible c) v (_selectionStart c) (_selectionEnd c)
     (_focusBorderColor c) (_padding c) (blinkListeners c).
Definition set_selectionStart (v : Z) (c : Fields) : Fields :=
  mk (_placeholder c) (_placeholderColor c) (_maxLength c) (_readOnly c)
     (_passwordChar c) (_multiline c) (_textAlign c) (_cursorPosition c)
     (_cursorVisible c) (_cursorBlinkInterval c) v (_selectionEnd c)
     (_focusBorderColor c) (_padding c) (blinkListeners c).
Definition set_selectionEnd (v : Z) (c : Fields) : Fields :=
  mk (_placeholder c) (_placeholderColor c) (_maxLength c) (_readOnly c)
     (_passwordChar c) (_multiline c) (_textAlign c) (_cursorPosition c)
     (_cursorVisible c) (_cursorBlinkInterval c) (_selectionStart c) v
     (_focusBorderColor c) (_padding c) (blinkListeners c).
Definition set_blinkListeners (v : bool) (c : Fields) : Fields :=
  mk (_placeholder c) (_placeholderColor c) (_maxLength c) (_readOnly c)
     (_passwordChar c) (_multiline c) (_textAlign c) (_cursorPosition c)
     (_cursorVisible c) (_cursorBlinkInterval c) (_selectionStart c)
     (_selectionEnd c) (_focusBorderColor c) (_padding c) v.
End Fields.
Arguments Fields : clear implicits.
End TextBox.

Module Label.
Section Fields.
Context {Num : Type}.

(** The fields [P5Label] adds. *)
Record Fields := mk {
  _textAlign : string;
  _verticalAlign : string;
  _autoSize : bool;
  _wordWrap : bool;
  _padding : Num;
  _fontStyle : string;
  _underline : bool;
  _strikethrough : bool
}.

Definition set_textAlign (v : string) (c : Fields) : Fields :=
  mk v (_verticalAlign c) (_autoSize c) (_wordWrap c) (_padding c)
     (_fontStyle c) (_underline c) (_strikethrough c).
Definition set_verticalAlign (v : string) (c : Fields) : Fields :=
  mk (_textAlign c) v (_autoSize c) (_wordWrap c) (_padding c)
     (_fontStyle c) (_underline c) (_strikethrough c).
Definition set_autoSize (v : bool) (c : Fields) : Fields :=
  mk (_textAlign c) (_verticalAlign c) v (_wordWrap c) (_padding c)
     (_fontStyle c) (_underline c) (_strikethrough c).
Definition set_wordWrap (v : bool) (c : Fields) : Fields :=
  mk (_textAlign c) (_verticalAlign c) (_autoSize c) v (_padding c)
     (_fontStyle c) (_underline c) (_strikethrough c).
Definition set_fontStyle (v : string) (c : Fields) : Fields :=
  mk (_textAlign c) (_verticalAlign c) (_autoSize c) (_wordWrap c)
     (_padding c) v (_underline c) (_strikethrough c).
Definition set_underline (v : bool) (c : Fields) : Fields :=
  mk (_textAlign c) (_verticalAlign c) (_autoSize c) (_wordWrap c)
     (_padding c) (_fontStyle c) v (_strikethrough c).
Definition set_strikethrough (v : bool) (c : Fields) : Fields :=
  mk (_textAlign c) (_verticalAlign c) (_autoSize c) (_wordWrap c)
     (_padding c) (_fontStyle c) (_underline c) v.
End Fields.
Arguments Fields : clear implicits.
End Label.

Module Options.
Section Options.
Context {Num : Type}.

(** The construction options: one object for all widget kinds, every key
    optional ([None] is an absent key). *)
Record t := mk {
  name : option string;
  text : option string;
  left : option Num;
  top : option Num;
  width : option Num;
  height : option Num;
  enabled : option bool;
  visible : option bool;
  backColor : option string;
  foreColor : option string;
  fontSize : option Num;
  fontFamily : option string;
  borderColor : option string;
  borderWidth : option Num;
  tabIndex : option Z;
  hoverColor : option string;
  activeColor : option string;
  disabledColor : option string;
  disabledTextColor : option string;
  cornerRadius : option Num;
  placeholder : option string;
  placeholderColor : option string;
  maxLength : option Z;
  readOnly : option bool;
  passwordChar : option string;
  multiline : option bool;
  textAlign : option string;
  focusBorderColor : option string;
  padding : option Num;
  verticalAlign : option string;
  autoSize : option bool;
  wordWrap : option bool;
  fontStyle : option string;
  underline : option bool;
  strikethrough : option bool
}.

(** [{}]. *)
Definition empty : t :=
  mk None None None None None None None None None None None None None None
     None None None None None None None None None None None None None None
     None None None None None None None.

Definition with_text (v : string) (o : t) : t :=
  mk (name o) (Some v) (left o) (top o) (width o) (height o) (enabled o)
     (visible o) (backColor o) (foreColor o) (fontSize o) (fontFamily o)
     (borderColor o) (borderWidth o) (tabIndex o) (hoverColor o)
     (activeColor o) (disabledColor o) (disabledTextColor o)
     (cornerRadius o) (placeholder o) (placeholderColor o) (maxLength o)
     (readOnly o) (passwordChar o) (multiline o) (textAlign o)
     (focusBorderColor o) (padding o) (verticalAlign o) (autoSize o)
     (wordWrap o) (fontStyle o) (underline o) (strikethrough o).
Definition with_width (v : Num) (o : t) : t :=
  mk (name o) (text o) (left o) (top o) (Some v) (height o) (enabled o)
     (visible o) (backColor o) (foreColor o) (fontSize o) (fontFamily o)
     (borderColor o) (borderWidth o) (tabIndex o) (hoverColor o)
     (activeColor o) (disabledColor o) (disabledTextColor o)
     (cornerRadius o) (placeholder o) (placeholderColor o) (maxLength o)
     (readOnly o) (passwordChar o) (multiline o) (textAlign o)
     (focusBorderColor o) (padding o) (verticalAlign o) (autoSize o)
     (wordWrap o) (fontStyle o) (underline o) (strikethrough o).
Definition with_height (v : Num) (o : t) : t :=
  mk (name o) (text o) (left o) (top o) (width o) (Some v) (enabled o)
     (visible o) (backColor o) (foreColor o) (fontSize o) (fontFamily o)
     (borderColor o) (borderWidth o) (tabIndex o) (hoverColor o)
     (activeColor o) (disabledColor o) (disabledTextColor o)
     (cornerRadius o) (placeholder o) (placeholderColor o) (maxLength o)
     (readOnly o) (passwordChar o) (multiline o) (textAlign o)
     (focusBorderColor o) (padding o) (verticalAlign o) (autoSize o)
     (wordWrap o) (fontStyle o) (underline o) (strikethrough o).
Definition with_enabled (v : bool) (o : t) : t :=
  mk (name o) (text o) (left o) (top o) (width o) (height o) (Some v)
     (visible o) (backColor o) (foreColor o) (fontSize o) (fontFamily o)
     (borderColor o) (borderWidth o) (tabIndex o) (hoverColor o)
     (activeColor o) (disabledColor o) (disabledTextColor o)
     (cornerRadius o) (placeholder o) (placeholderColor o) (maxLength o)
     (readOnly o) (passwordChar o) (multiline o) (textAlign o)
     (focusBorderColor o) (padding o) (verticalAlign o) (autoSize o)
     (wordWrap o) (fontStyle o) (underline o) (strikethrough o).
Definition with_visible (v : bool) (o : t) : t :=
  mk (name o) (text o) (left o) (top o) (width o) (height o) (enabled o)
     (Some v) (backColor o) (foreColor o) (fontSize o) (fontFamily o)
     (borderColor o) (borderWidth o) (tabIndex o) (hoverColor o)
     (activeColor o) (disabledColor o) (disabledTextColor o)
     (cornerRadius o) (placeholder o) (placeholderColor o) (maxLength o)
     (readOnly o) (passwordChar o) (multiline o) (textAlign o)
     (focusBorderColor o) (padding o) (verticalAlign o) (autoSize o)
     (wordWrap o) (fontStyle o) (underline o) (strikethrough o).
Definition with_fontSize (v : Num) (o : t) : t :=
  mk (name o) (text o) (left o) (top o) (width o) (height o) (enabled o)
     (visible o) (backColor o) (foreColor o) (Some v) (fontFamily o)
     (borderColor o) (borderWidth o) (tabIndex o) (hoverColor o)
     (activeColor o) (disabledColor o) (disabledTextColor o)
     (cornerRadius o) (placeholder o) (placeholderColor o) (maxLength o)
     (readOnly o) (passwordChar o) (multiline o) (textAlign o)
     (focusBorderColor o) (padding o) (verticalAlign o) (autoSize o)
     (wordWrap o) (fontStyle o) (underline o) (strikethrough o).
Definition with_borderWidth (v : Num) (o : t) : t :=
  mk (name o) (text o) (left o) (top o) (width o) (height o) (enabled o)
     (visible o) (backColor o) (foreColor o) (fontSize o) (fontFamily o)
     (borderColor o) (Some v) (tabIndex o) (hoverColor o) (activeColor o)
     (disabledColor o) (disabledTextColor o) (cornerRadius o)
     (placeholder o) (placeholderColor o) (maxLength o) (readOnly o)
     (passwordChar o) (multiline o) (textAlign o) (focusBorderColor o)
     (padding o) (verticalAlign o) (autoSize o) (wordWrap o) (fontStyle o)
     (underline o) (strikethrough o).
Definition with_maxLength (v : Z) (o : t) : t :=
  mk (name o) (text o) (left o) (top o) (width o) (height o) (enabled o)
     (visible o) (backColor o) (foreColor o) (fontSize o) (fontFamily o)
     (borderColor o) (borderWidth o) (tabIndex o) (hoverColor o)
     (activeColor o) (disabledColor o) (disabledTextColor o)
     (cornerRadius o) (placeholder o) (placeholderColor o) (Some v)
     (readOnly o) (passwordChar o) (multiline o) (textAlign o)
     (focusBorderColor o) (padding o) (verticalAlign o) (autoSize o)
     (wordWrap o) (fontStyle o) (underline o) (strikethrough o).
Definition with_readOnly (v : bool) (o : t) : t :=
  mk (name o) (text o) (left o) (top o) (width o) (height o) (enabled o)
     (visible o) (backColor o) (foreColor o) (fontSize o) (fontFamily o)
     (borderColor o) (borderWidth o) (tabIndex o) (hoverColor o)
     (activeColor o) (disabledColor o) (disabledTextColor o)
     (cornerRadius o) (placeholder o) (placeholderColor o) (maxLength o)
     (Some v) (passwordChar o) (multiline o) (textAlign o)
     (focusBorderColor o) (padding o) (verticalAlign o) (autoSize o)
     (wordWrap o) (fontStyle o) (underline o) (strikethrough o).
Definition with_autoSize (v : bool) (o : t) : t :=
  mk (name o) (text o) (left o) (top o) (width o) (height o) (enabled o)
     (visible o) (backColor o) (foreColor o) (fontSize o) (fontFamily o)
     (borderColor o) (borderWidth o) (tabIndex o) (hoverColor o)
     (activeColor o) (disabledColor o) (disabledTextColor o)
     (cornerRadius o) (placeholder o) (placeholderColor o) (maxLength o)
     (readOnly o) (passwordChar o) (multiline o) (textAlign o)
     (focusBorderColor o) (padding o) (verticalAlign o) (Some v)
     (wordWrap o) (fontStyle o) (underline o) (strikethrough o).

(** [{ width, height, text, backColor, foreColor, borderColor, borderWidth,
    fontSize, ...options }]: the object a subclass passes to [super]. *)
Definition defaults (width_ height_ : Num) (text_ backColor_ foreColor_
    borderColor_ : string) (borderWidth_ fontSize_ : Num) (o : t) : t :=
  mk (name o) (spread text_ (text o)) (left o) (top o)
     (spread width_ (width o)) (spread height_ (height o)) (enabled o)
     (visible o) (spread backColor_ (backColor o))
     (spread foreColor_ (foreColor o)) (spread fontSize_ (fontSize o))
     (fontFamily o) (spread borderColor_ (borderColor o))
     (spread borderWidth_ (borderWidth o)) (tabIndex o) (hoverColor o)
     (activeColor o) (disabledColor o) (disabledTextColor o)
     (cornerRadius o) (placeholder o) (placeholderColor o) (maxLength o)
     (readOnly o) (passwordChar o) (multiline o) (textAlign o)
     (focusBorderColor o) (padding o) (verticalAlign o) (autoSize o)
     (wordWrap o) (fontStyle o) (underline o) (strikethrough o).

(** [{ enabled: b, ...options }]. *)
Definition default_enabled (enabled_ : bool) (o : t) : t :=
  mk (name o) (text o) (left o) (top o) (width o) (height o)
     (spread enabled_ (enabled o)) (visible o) (backColor o) (foreColor o)
     (fontSize o) (fontFamily o) (borderColor o) (borderWidth o)
     (tabIndex o) (hoverColor o) (activeColor o) (disabledColor o)
     (disabledTextColor o) (cornerRadius o) (placeholder o)
     (placeholderColor o) (maxLength o) (readOnly o) (passwordChar o)
     (multiline o) (textAlign o) (focusBorderColor o) (padding o)
     (verticalAlign o) (autoSize o) (wordWrap o) (fontStyle o)
     (underline o) (strikethrough o).
End Options.
Arguments t : clear implicits.
End Options.


Section Widgets.
Context {Num : Type} {NumOps : JsNumber Num}.

(** The values of properties in a JSON record and of properties written by
    key.  Integer-valued properties ([tabIndex], [maxLength]) carry [JInt]. *)
Inductive JsValue :=
| JNull
| JBool (b : bool)
| JNum (n : Num)
| JInt (z : Z)
| JStr (s : string).

(** An object literal: its keys in insertion order, which is the order
    [Object.keys] lists them in. *)
Definition Json : Type := list (string * JsValue).

(** The part a subclass adds to the component. *)
Inductive Ext :=
| EComponent
| EButton (b : Button.Fields Num)
| ETextBox (t : TextBox.Fields Num)
| ELabel (l : Label.Fields Num).

(** A widget instance: the fields of the base class, those of its own class,
    and the plain properties that assignments by key have created on it. *)
Record Widget := mkWidget {
  base : Component.Fields Num;
  ext : Ext;
  own : gmap string JsValue
}.

Definition kind (w : Widget) : Kind :=
  match ext w with
  | EComponent => KComponent
  | EButton _ => KButton
  | ETextBox _ => KTextBox
  | ELabel _ => KLabel
  end.

(** The state of the widget's p5 instance when a handler runs: the pointer,
    the last key, the key constants, the font selected and the renderer's
    text measurement. *)
Record P5 := mkP5 {
  mouseX : Num;
  mouseY : Num;
  key : string;
  keyCode : Z;
  BACKSPACE : Z;
  DELETE : Z;
  LEFT_ARROW : Z;
  RIGHT_ARROW : Z;
  HOME : Z;
  END_ : Z;
  ENTER : Z;
  font : string;
  size : Num;
  measure : string -> Num -> string -> Num
}.

(** [p.textFont(f)], [p.textSize(s)], [p.textWidth(str)]. *)
Definition textFont (f : string) (p : P5) : P5 :=
  mkP5 (mouseX p) (mouseY p) (key p) (keyCode p) (BACKSPACE p) (DELETE p)
       (LEFT_ARROW p) (RIGHT_ARROW p) (HOME p) (END_ p) (ENTER p)
       f (size p) (measure p).

Definition textSize (s : Num) (p : P5) : P5 :=
  mkP5 (mouseX p) (mouseY p) (key p) (keyCode p) (BACKSPACE p) (DELETE p)
       (LEFT_ARROW p) (RIGHT_ARROW p) (HOME p) (END_ p) (ENTER p)
       (font p) s (measure p).

Definition textWidth (p : P5) (str : string) : Num :=
  measure p (font p) (size p) str.

(** The arguments of an emission. *)
Inductive Payload :=
| PStr (s : string)
| PBool (b : bool)
| PPoint (x y : Num)
| PKey (key : string) (keyCode : Z).

(** What a method does to the outside, in the order it does it: emissions,
    and calls to the p5 instance, its canvas and the timers. *)
Inductive Effect :=
| Emit (event : string) (args : list Payload)
| Redraw
| ResizeCanvas (w h : Num)
| CanvasPosition (x y : Num)
| CanvasDisplay (shown : bool)
| SetInterval
| ClearInterval.

(* ===================================================================== *)
(** * Methods: a reader over the p5 instance, state over the widget, and the
      effects made *)
(* ===================================================================== *)

Definition M (A : Type) : Type := P5 -> Widget -> A * Widget * list Effect.

Definition ret {A} (a : A) : M A := fun _ w => (a, w, []).

Definition bind {A B} (m : M A) (f : A -> M B) : M B :=
  fun p w =>
    let '(a, w1, t1) := m p w in
    let '(b, w2, t2) := f a p w1 in
    (b, w2, t1 ++ t2).

Definition this : M Widget := fun _ w => (w, w, []).
Definition p5Instance : M P5 := fun p w => (p, w, []).
Definition modify (f : Widget -> Widget) : M unit := fun _ w => (tt, f w, []).
Definition tell (t : list Effect) : M unit := fun _ w => (tt, w, t).

Notation "x <- c1 ;; c2" := (bind c1 (fun x => c2))
  (at level 100, c1 at next level, right associativity).
Notation "c1 ;; c2" := (bind c1 (fun _ => c2))
  (at level 100, right associativity).

Definition upd_base (f : Component.Fields Num -> Component.Fields Num) : M unit :=
  modify (fun w => mkWidget (f (base w)) (ext w) (own w)).

Definition upd_button (f : Button.Fields Num -> Button.Fields Num) : M unit :=
  modify (fun w => match ext w with
                   | EButton b => mkWidget (base w) (EButton (f b)) (own w)
                   | _ => w
                   end).

Definition upd_textbox (f : TextBox.Fields Num -> TextBox.Fields Num) : M unit :=
  modify (fun w => match ext w with
                   | ETextBox t => mkWidget (base w) (ETextBox (f t)) (own w)
                   | _ => w
                   end).

Definition upd_label (f : Label.Fields Num -> Label.Fields Num) : M unit :=
  modify (fun w => match ext w with
                   | ELabel l => mkWidget (base w) (ELabel (f l)) (own w)
                   | _ => w
                   end).

(** The result and the trace of running a method. *)
Definition exec {A} (m : M A) (p : P5) (w : Widget) : Widget := (m p w).1.2.
Definition trace {A} (m : M A) (p : P5) (w : Widget) : list Effect := (m p w).2.
Definition result {A} (m : M A) (p : P5) (w : Widget) : A := (m p w).1.1.

(* ===================================================================== *)
(** * P5Component *)
(* ===================================================================== *)

(** [redraw()]. *)
Definition redraw : M unit := tell [Redraw].

(** [_startCursorBlink()] and [_stopCursorBlink()] of the text box.  The
    interval callback is [blinkTick]. *)
Definition P5TextBox__startCursorBlink : M unit :=
  upd_textbox (TextBox.set_cursorVisible true) ;;
  tell [SetInterval] ;;
  upd_textbox (TextBox.set_cursorBlinkInterval true).

Definition P5TextBox__stopCursorBlink : M unit :=
  w <- this ;;
  (match ext w with
   | ETextBox t =>
       if TextBox._cursorBlinkInterval t
       then tell [ClearInterval] ;;
            upd_textbox (TextBox.set_cursorBlinkInterval false)
       else ret tt
   | _ => ret tt
   end) ;;
  upd_textbox (TextBox.set_cursorVisible true) ;;
  redraw.

Definition blinkTick : M unit :=
  w <- this ;;
  match ext w with
  | ETextBox t =>
      upd_textbox (TextBox.set_cursorVisible (negb (TextBox._cursorVisible t))) ;;
      redraw
  | _ => ret tt
  end.

(** [this.emit(event, ...args)] as the component sees it.  The emission is
    recorded in the trace.  The listeners of the host are the host's code and
    are not run here: what a method is said to do is what the method itself
    does, and a listener that calls back into the widget is one more
    operation of the host.  The widget's own listeners are those the text box
    registers in [setup], and they run here. *)
Definition emit (event : string) (args : list Payload) : M unit :=
  tell [Emit event args] ;;
  w <- this ;;
  match ext w with
  | ETextBox t =>
      if String.eqb event "focus" then
        if TextBox.blinkListeners t then P5TextBox__startCursorBlink else ret tt
      else if String.eqb event "blur" then
        if TextBox.blinkListeners t then P5TextBox__stopCursorBlink else ret tt
      else ret tt
  | _ => ret tt
  end.

(** [_updatePosition()] and [_resizeCanvas()]. *)
Definition _updatePosition : M unit :=
  w <- this ;;
  if Component._canvas (base w)
  then tell [CanvasPosition (Component._left (base w)) (Component._top (base w))]
  else ret tt.

Definition _resizeCanvas : M unit :=
  w <- this ;;
  tell [ResizeCanvas (Component._width (base w)) (Component._height (base w))] ;;
  redraw.

(** The property setters of [P5Component]. *)
Definition P5Component_set_name (value : string) : M unit :=
  upd_base (Component.set_name value).

Definition P5Component_set_text (value : string) : M unit :=
  upd_base (Component.set_text value) ;;
  emit "textChanged" [PStr value] ;;
  redraw.

Definition P5Component_set_left (value : Num) : M unit :=
  upd_base (Component.set_left value) ;; _updatePosition.

Definition P5Component_set_top (value : Num) : M unit :=
  upd_base (Component.set_top value) ;; _updatePosition.

Definition P5Component_set_width (value : Num) : M unit :=
  upd_base (Component.set_width value) ;; _resizeCanvas.

Definition P5Component_set_height (value : Num) : M unit :=
  upd_base (Component.set_height value) ;; _resizeCanvas.

Definition P5Component_set_enabled (value : bool) : M unit :=
  upd_base (Component.set_enabled value) ;;
  upd_base (Component.set_state (if value then normal else disabled)) ;;
  emit "enabledChanged" [PBool value] ;;
  redraw.

Definition P5Component_set_visible (value : bool) : M unit :=
  upd_base (Component.set_visible value) ;;
  w <- this ;;
  (if Component._canvas (base w) then tell [CanvasDisplay value] else ret tt) ;;
  emit "visibleChanged" [PBool value].

Definition P5Component_set_backColor (value : string) : M unit :=
  upd_base (Component.set_backColor value) ;; redraw.

Definition P5Component_set_foreColor (value : string) : M unit :=
  upd_base (Component.set_foreColor value) ;; redraw.

Definition P5Component_set_fontSize (value : Num) : M unit :=
  upd_base (Component.set_fontSize value) ;; redraw.

Definition P5Component_set_fontFamily (value : string) : M unit :=
  upd_base (Component.set_fontFamily value) ;; redraw.

Definition P5Component_set_borderColor (value : string) : M unit :=
  upd_base (Component.set_borderColor value) ;; redraw.

Definition P5Component_set_borderWidth (value : Num) : M unit :=
  upd_base (Component.set_borderWidth value) ;; redraw.

(** The canvas callbacks of [P5Component]. *)
Definition P5Component__handleMousePressed : M unit :=
  w <- this ;;
  if negb (Component._enabled (base w)) then ret tt else
  upd_base (Component.set_mousePressed true) ;;
  upd_base (Component.set_state active) ;;
  p <- p5Instance ;;
  emit "mouseDown" [PPoint (mouseX p) (mouseY p)] ;;
  redraw.

Definition P5Component__handleMouseReleased : M unit :=
  w <- this ;;
  if negb (Component._enabled (base w)) then ret tt else
  upd_base (Component.set_mousePressed false) ;;
  p <- p5Instance ;;
  (if Component._mouseInside (base w)
   then upd_base (Component.set_state hover) ;;
        emit "click" [PPoint (mouseX p) (mouseY p)]
   else upd_base (Component.set_state normal)) ;;
  emit "mouseUp" [PPoint (mouseX p) (mouseY p)] ;;
  redraw.

Definition P5Component__handleMouseOver : M unit :=
  w <- this ;;
  if negb (Component._enabled (base w)) then ret tt else
  upd_base (Component.set_mouseInside true) ;;
  (if negb (Component._mousePressed (base w))
   then upd_base (Component.set_state hover)
   else ret tt) ;;
  emit "mouseEnter" [] ;;
  redraw.

Definition P5Component__handleMouseOut : M unit :=
  w <- this ;;
  if negb (Component._enabled (base w)) then ret tt else
  upd_base (Component.set_mouseInside false) ;;
  (if negb (Component._mousePressed (base w))
   then upd_base (Component.set_state normal)
   else ret tt) ;;
  emit "mouseLeave" [] ;;
  redraw.

(** [focus()] and [blur()]. *)
Definition focus : M unit :=
  w <- this ;;
  if Component._enabled (base w)
  then upd_base (Component.set_state focused) ;;
       emit "focus" [] ;;
       redraw
  else ret tt.

Definition state_eqb (a b : State) : bool :=
  match a, b with
  | normal, normal | hover, hover | active, active
  | disabled, disabled | focused, focused => true
  | _, _ => false
  end.

Definition blur : M unit :=
  w <- this ;;
  if state_eqb (Component._state (base w)) focused
  then upd_base (Component.set_state normal) ;;
       emit "blur" [] ;;
       redraw
  else ret tt.

(** [toJSON()] of [P5Component]. *)
Definition P5Component_toJSON (w : Widget) : Json :=
  let c := base w in
  [ ("type", JStr (kind_name (kind w)));
    ("name", JStr (Component._name c));
    ("text", JStr (Component._text c));
    ("left", JNum (Component._left c));
    ("top", JNum (Component._top c));
    ("width", JNum (Component._width c));
    ("height", JNum (Component._height c));
    ("enabled", JBool (Component._enabled c));
    ("visible", JBool (Component._visible c));
    ("backColor", JStr (Component._backColor c));
    ("foreColor", JStr (Component._foreColor c));
    ("fontSize", JNum (Component._fontSize c));
    ("fontFamily", JStr (Component._fontFamily c));
    ("borderColor", JStr (Component._borderColor c));
    ("borderWidth", JNum (Component._borderWidth c));
    ("tabIndex", JInt (Component._tabIndex c)) ].

(** The constructor of [P5Component]; [now] is the rendering of
    [Date.now()]. *)
Definition P5Component_constructor (now : string) (options : Options.t Num)
    : Component.Fields Num :=
  Component.mk
    (or_default str_truthy (Options.name options) ("component_" +:+ now))
    (or_default str_truthy (Options.text options) "")
    (or_default num_truthy (Options.left options) (num_of_Z 0))
    (or_default num_truthy (Options.top options) (num_of_Z 0))
    (or_default num_truthy (Options.width options) (num_of_Z 100))
    (or_default num_truthy (Options.height options) (num_of_Z 30))
    (defined_or (Options.enabled options) true)
    (defined_or (Options.visible options) true)
    (or_default str_truthy (Options.backColor options) "#FFFFFF")
    (or_default str_truthy (Options.foreColor options) "#000000")
    (or_default num_truthy (Options.fontSize options) (num_of_Z 14))
    (or_default str_truthy (Options.fontFamily options) "Arial")
    (or_default str_truthy (Options.borderColor options) "#999999")
    (or_default num_truthy (Options.borderWidth options) (num_of_Z 1))
    (or_default int_truthy (Options.tabIndex options) 0)
    normal
    false
    false
    false.

Definition new_P5Component (now : string) (options : Options.t Num) : Widget :=
  mkWidget (P5Component_constructor now options) EComponent ∅.

(* ===================================================================== *)
(** * P5Button *)
(* ===================================================================== *)

Definition new_P5Button (now : string) (options : Options.t Num) : Widget :=
  let c := P5Component_constructor now
             (Options.defaults (num_of_Z 100) (num_of_Z 30) "Button" "#E0E0E0"
                "#000000" "#999999" (num_of_Z 1) (num_of_Z 14) options) in
  mkWidget c
    (EButton
       (Button.mk
          (or_default str_truthy (Options.hoverColor options) "#D0D0D0")
          (or_default str_truthy (Options.activeColor options) "#C0C0C0")
          (or_default str_truthy (Options.disabledColor options) "#F5F5F5")
          (or_default str_truthy (Options.disabledTextColor options) "#AAAAAA")
          (defined_or (Options.cornerRadius options) (num_of_Z 4))))
    ∅.

Definition P5Button_set_hoverColor (value : string) : M unit :=
  upd_button (Button.set_hoverColor value) ;; redraw.

Definition P5Button_set_activeColor (value : string) : M unit :=
  upd_button (Button.set_activeColor value) ;; redraw.

Definition P5Button_set_disabledColor (value : string) : M unit :=
  upd_button (Button.set_disabledColor value) ;; redraw.

Definition P5Button_set_cornerRadius (value : Num) : M unit :=
  upd_button (Button.set_cornerRadius value) ;; redraw.

Definition P5Button_toJSON (w : Widget) (b : Button.Fields Num) : Json :=
  P5Component_toJSON w ++
  [ ("hoverColor", JStr (Button._hoverColor b));
    ("activeColor", JStr (Button._activeColor b));
    ("disabledColor", JStr (Button._disabledColor b));
    ("disabledTextColor", JStr (Button._disabledTextColor b));
    ("cornerRadius", JNum (Button._cornerRadius b)) ].

(* ===================================================================== *)
(** * P5TextBox *)
(* ===================================================================== *)

Definition new_P5TextBox (now : string) (options : Options.t Num) : Widget :=
  let c := P5Component_constructor now
             (Options.defaults (num_of_Z 200) (num_of_Z 30) "" "#FFFFFF"
                "#000000" "#999999" (num_of_Z 1) (num_of_Z 14) options) in
  mkWidget c
    (ETextBox
       (TextBox.mk
          (or_default str_truthy (Options.placeholder options) "")
          (or_default str_truthy (Options.placeholderColor options) "#AAAAAA")
          (or_default int_truthy (Options.maxLength options) 255)
          (or_default bool_truthy (Options.readOnly options) false)
          (match Options.passwordChar options with
           | Some s => if str_truthy s then Some s else None
           | None => None
           end)
          (or_default bool_truthy (Options.multiline options) false)
          (or_default str_truthy (Options.textAlign options) "left")
          (Z.of_nat (String.length (Component._text c)))
          true
          false
          (-1)
          (-1)
          (or_default str_truthy (Options.focusBorderColor options) "#4A90E2")
          (defined_or (Options.padding options) (num_of_Z 5))
          false))
    ∅.

Definition P5TextBox_set_placeholder (value : string) : M unit :=
  upd_textbox (TextBox.set_placeholder value) ;; redraw.

Definition P5TextBox_set_maxLength (value : Z) : M unit :=
  upd_textbox (TextBox.set_maxLength value).

Definition P5TextBox_set_readOnly (value : bool) : M unit :=
  upd_textbox (TextBox.set_readOnly value) ;; redraw.

Definition P5TextBox_set_passwordChar (value : option string) : M unit :=
  upd_textbox (TextBox.set_passwordChar value) ;; redraw.

Definition P5TextBox_set_multiline (value : bool) : M unit :=
  upd_textbox (TextBox.set_multiline value).

Definition P5TextBox_set_textAlign (value : string) : M unit :=
  upd_textbox (TextBox.set_textAlign value) ;; redraw.

(** [setup(p)]: registers the two listeners that drive the cursor blink. *)
Definition P5TextBox_setup : M unit :=
  upd_textbox (TextBox.set_blinkListeners true).

Definition text_length (w : Widget) : Z :=
  Z.of_nat (String.length (Component._text (base w))).

(** [handleKeyPressed(p)]; the result is [Some false] for [return false] and
    [None] where the method returns nothing. *)
Definition P5TextBox_handleKeyPressed : M (option bool) :=
  w <- this ;;
  p <- p5Instance ;;
  match ext w with
  | ETextBox t =>
      if TextBox._readOnly t then ret None else
      let keyCode := keyCode p in
      let text := Component._text (base w) in
      let cursor := TextBox._cursorPosition t in
      if keyCode =? BACKSPACE p then
        (if (0 <? text_length w) && (0 <? cursor) then
           upd_base (Component.set_text
                       (substring text 0 (Some (cursor - 1)) +:+
                        substring text cursor None)) ;;
           upd_textbox (TextBox.set_cursorPosition (cursor - 1)) ;;
           w1 <- this ;;
           emit "change" [PStr (Component._text (base w1))] ;;
           emit "keyPress" [PKey "Backspace" keyCode] ;;
           redraw
         else ret tt) ;;
        ret (Some false)
      else if keyCode =? DELETE p then
        (if cursor <? text_length w then
           upd_base (Component.set_text
                       (substring text 0 (Some cursor) +:+
                        substring text (cursor + 1) None)) ;;
           w1 <- this ;;
           emit "change" [PStr (Component._text (base w1))] ;;
           emit "keyPress" [PKey "Delete" keyCode] ;;
           redraw
         else ret tt) ;;
        ret (Some false)
      else if keyCode =? LEFT_ARROW p then
        (if 0 <? cursor then
           upd_textbox (TextBox.set_cursorPosition (cursor - 1)) ;; redraw
         else ret tt) ;;
        ret (Some false)
      else if keyCode =? RIGHT_ARROW p then
        (if cursor <? text_length w then
           upd_textbox (TextBox.set_cursorPosition (cursor + 1)) ;; redraw
         else ret tt) ;;
        ret (Some false)
      else if keyCode =? HOME p then
        upd_textbox (TextBox.set_cursorPosition 0) ;; redraw ;;
        ret (Some false)
      else if keyCode =? END_ p then
        upd_textbox (TextBox.set_cursorPosition (text_length w)) ;; redraw ;;
        ret (Some false)
      else if (keyCode =? ENTER p) && negb (TextBox._multiline t) then
        emit "submit" [PStr text] ;;
        blur ;;
        ret (Some false)
      else ret None
  | _ => ret None
  end.

(** [handleKeyTyped(p)]. *)
Definition P5TextBox_handleKeyTyped : M unit :=
  w <- this ;;
  p <- p5Instance ;;
  match ext w with
  | ETextBox t =>
      if TextBox._readOnly t then ret tt else
      let key := key p in
      let text := Component._text (base w) in
      let cursor := TextBox._cursorPosition t in
      if (String.length key =? 1)%nat && (32 <=? charCodeAt0 key) then
        if text_length w <? TextBox._maxLength t then
          upd_base (Component.set_text
                      (substring text 0 (Some cursor) +:+ key +:+
                       substring text cursor None)) ;;
          upd_textbox (TextBox.set_cursorPosition (cursor + 1)) ;;
          w1 <- this ;;
          emit "change" [PStr (Component._text (base w1))] ;;
          emit "keyPress" [PKey key (charCodeAt0 key)] ;;
          redraw
        else ret tt
      else ret tt
  | _ => ret tt
  end.

(** [clear()], [selectAll()], [getSelectedText()]. *)
Definition clear : M unit :=
  upd_base (Component.set_text "") ;;
  upd_textbox (TextBox.set_cursorPosition 0) ;;
  emit "change" [PStr ""] ;;
  redraw.

Definition selectAll : M unit :=
  w <- this ;;
  upd_textbox (TextBox.set_selectionStart 0) ;;
  upd_textbox (TextBox.set_selectionEnd (text_length w)) ;;
  redraw.

Definition getSelectedText (w : Widget) : string :=
  match ext w with
  | ETextBox t =>
      if (0 <=? TextBox._selectionStart t) && (0 <=? TextBox._selectionEnd t)
      then substring (Component._text (base w))
             (Z.min (TextBox._selectionStart t) (TextBox._selectionEnd t))
             (Some (Z.max (TextBox._selectionStart t) (TextBox._selectionEnd t)))
      else ""
  | _ => ""
  end.

(** The loop of [_handleMousePressed] that turns the click offset into a
    position: [n] iterations are left, [i] is the loop index, [textWidth] the
    width accumulated and [position] the value of the variable so far. *)
Fixpoint click_loop (p : P5) (clickOffset : Num) (text : string)
    (n : nat) (i : Z) (textWidth_ : Num) (position : Z) : Z :=
  match n with
  | O => position
  | S n' =>
      let char := charAt text i in
      let charWidth := textWidth p char in
      if num_gt (num_add textWidth_ (num_div charWidth (num_of_Z 2))) clickOffset
      then i
      else click_loop p clickOffset text n' (i + 1)
             (num_add textWidth_ charWidth) (i + 1)
  end.

(** [for (let i = 0; i <= this._text.length; i++)]. *)
Definition click_position (p : P5) (clickOffset : Num) (text : string) : Z :=
  click_loop p clickOffset text (S (String.length text)) 0 (num_of_Z 0) 0.

#[global] Arguments click_position : simpl never.

(** [_handleMousePressed()] of the text box. *)
Definition P5TextBox__handleMousePressed : M unit :=
  P5Component__handleMousePressed ;;
  w <- this ;;
  match ext w with
  | ETextBox t =>
      if Component._enabled (base w) && negb (TextBox._readOnly t) then
        focus ;;
        p <- p5Instance ;;
        if String.eqb (TextBox._textAlign t) "left" then
          let clickOffset := num_sub (mouseX p) (TextBox._padding t) in
          let position := click_position p clickOffset (Component._text (base w)) in
          upd_textbox (TextBox.set_cursorPosition
                         (Z.max 0 (Z.min position (text_length w)))) ;;
          redraw
        else ret tt
      else ret tt
  | _ => ret tt
  end.

Definition P5TextBox_toJSON (w : Widget) (t : TextBox.Fields Num) : Json :=
  P5Component_toJSON w ++
  [ ("placeholder", JStr (TextBox._placeholder t));
    ("maxLength", JInt (TextBox._maxLength t));
    ("readOnly", JBool (TextBox._readOnly t));
    ("passwordChar", match TextBox._passwordChar t with
                     | Some s => JStr s
                     | None => JNull
                     end);
    ("multiline", JBool (TextBox._multiline t));
    ("textAlign", JStr (TextBox._textAlign t)) ].

(* ===================================================================== *)
(** * P5Label *)
(* ===================================================================== *)

Definition new_P5Label (now : string) (options : Options.t Num) : Widget :=
  let c := P5Component_constructor now
             (Options.default_enabled false
                (Options.defaults (num_of_Z 100) (num_of_Z 20) "Label"
                   "transparent" "#000000" "transparent" (num_of_Z 0)
                   (num_of_Z 14) options)) in
  mkWidget c
    (ELabel
       (Label.mk
          (or_default str_truthy (Options.textAlign options) "left")
          (or_default str_truthy (Options.verticalAlign options) "top")
          (defined_or (Options.autoSize options) false)
          (defined_or (Options.wordWrap options) false)
          (defined_or (Options.padding options) (num_of_Z 0))
          (or_default str_truthy (Options.fontStyle options) "normal")
          (or_default bool_truthy (Options.underline options) false)
          (or_default bool_truthy (Options.strikethrough options) false)))
    ∅.

(** [_adjustSize()]: measure the text in the label's font and resize. *)
Definition P5Label__adjustSize : M unit :=
  w <- this ;;
  p <- p5Instance ;;
  match ext w with
  | ELabel l =>
      let c := base w in
      let p1 := textSize (Component._fontSize c)
                  (textFont (Component._fontFamily c) p) in
      let textWidth_ := textWidth p1 (Component._text c) in
      let textHeight := Component._fontSize c in
      upd_base (Component.set_width
                  (num_add textWidth_ (num_mul (Label._padding l) (num_of_Z 2)))) ;;
      upd_base (Component.set_height
                  (num_add textHeight (num_mul (Label._padding l) (num_of_Z 2)))) ;;
      _resizeCanvas
  | _ => ret tt
  end.

Definition P5Label_set_textAlign (value : string) : M unit :=
  upd_label (Label.set_textAlign value) ;; redraw.

Definition P5Label_set_verticalAlign (value : string) : M unit :=
  upd_label (Label.set_verticalAlign value) ;; redraw.

Definition P5Label_set_autoSize (value : bool) : M unit :=
  upd_label (Label.set_autoSize value) ;;
  if value then P5Label__adjustSize else ret tt.

Definition P5Label_set_wordWrap (value : bool) : M unit :=
  upd_label (Label.set_wordWrap value) ;; redraw.

Definition P5Label_set_fontStyle (value : string) : M unit :=
  upd_label (Label.set_fontStyle value) ;; redraw.

Definition P5Label_set_underline (value : bool) : M unit :=
  upd_label (Label.set_underline value) ;; redraw.

Definition P5Label_set_strikethrough (value : bool) : M unit :=
  upd_label (Label.set_strikethrough value) ;; redraw.

(** The [text] setter the label overrides. *)
Definition P5Label_set_text (value : string) : M unit :=
  upd_base (Component.set_text value) ;;
  emit "textChanged" [PStr value] ;;
  w <- this ;;
  (match ext w with
   | ELabel l => if Label._autoSize l then P5Label__adjustSize else ret tt
   | _ => ret tt
   end) ;;
  redraw.

Definition P5Label_setup : M unit :=
  w <- this ;;
  match ext w with
  | ELabel l => if Label._autoSize l then P5Label__adjustSize else ret tt
  | _ => ret tt
  end.

Definition P5Label_toJSON (w : Widget) (l : Label.Fields Num) : Json :=
  P5Component_toJSON w ++
  [ ("textAlign", JStr (Label._textAlign l));
    ("verticalAlign", JStr (Label._verticalAlign l));
    ("autoSize", JBool (Label._autoSize l));
    ("wordWrap", JBool (Label._wordWrap l));
    ("padding", JNum (Label._padding l));
    ("fontStyle", JStr (Label._fontStyle l));
    ("underline", JBool (Label._underline l));
    ("strikethrough", JBool (Label._strikethrough l)) ].

(* ===================================================================== *)
(** * Method dispatch, the p5 callbacks and the public methods *)
(* ===================================================================== *)

(** The methods a subclass overrides are resolved on the widget's class. *)
Definition _handleMousePressed : M unit :=
  w <- this ;;
  match kind w with
  | KTextBox => P5TextBox__handleMousePressed
  | _ => P5Component__handleMousePressed
  end.

Definition handleKeyPressed : M (option bool) :=
  w <- this ;;
  match kind w with
  | KTextBox => P5TextBox_handleKeyPressed
  | _ => ret None
  end.

Definition handleKeyTyped : M unit :=
  w <- this ;;
  match kind w with
  | KTextBox => P5TextBox_handleKeyTyped
  | _ => ret tt
  end.

Definition setup : M unit :=
  w <- this ;;
  match kind w with
  | KTextBox => P5TextBox_setup
  | KLabel => P5Label_setup
  | _ => ret tt
  end.

Definition set_text (value : string) : M unit :=
  w <- this ;;
  match kind w with
  | KLabel => P5Label_set_text value
  | _ => P5Component_set_text value
  end.

Definition toJSON (w : Widget) : Json :=
  match ext w with
  | EComponent => P5Component_toJSON w
  | EButton b => P5Button_toJSON w b
  | ETextBox t => P5TextBox_toJSON w t
  | ELabel l => P5Label_toJSON w l
  end.

(** The callbacks [_initP5] hands to p5: [p.setup], [p.keyPressed] and
    [p.keyTyped]. *)
Definition p5_setup : M unit :=
  upd_base (Component.set_canvas true) ;;
  w <- this ;;
  tell [CanvasDisplay (Component._visible (base w));
        CanvasPosition (Component._left (base w)) (Component._top (base w))] ;;
  setup.

Definition p5_keyPressed : M unit :=
  w <- this ;;
  if state_eqb (Component._state (base w)) focused
  then handleKeyPressed ;; ret tt
  else ret tt.

Definition p5_keyTyped : M unit :=
  w <- this ;;
  if state_eqb (Component._state (base w)) focused
  then handleKeyTyped
  else ret tt.

(** [getValue()], [setValue(value)], [enable()], [disable()], [show()],
    [hide()]. *)
Definition getValue (w : Widget) : string := Component._text (base w).
Definition setValue (value : string) : M unit := set_text value.
Definition enable : M unit := P5Component_set_enabled true.
Definition disable : M unit := P5Component_set_enabled false.
Definition show : M unit := P5Component_set_visible true.
Definition hide : M unit := P5Component_set_visible false.

(* ===================================================================== *)
(** * Assignment by key and fromJSON *)
(* ===================================================================== *)

Definition as_str (v : JsValue) : option string :=
  match v with JStr s => Some s | _ => None end.
Definition as_num (v : JsValue) : option Num :=
  match v with JNum n => Some n | _ => None end.
Definition as_int (v : JsValue) : option Z :=
  match v with JInt z => Some z | _ => None end.
Definition as_bool (v : JsValue) : option bool :=
  match v with JBool b => Some b | _ => None end.
Definition as_nullable_str (v : JsValue) : option (option string) :=
  match v with JStr s => Some (Some s) | JNull => Some None | _ => None end.

(** How [this[key] = value] resolves [key] on the widget's prototype chain. *)
Inductive Accessor :=
| Setter (set : JsValue -> option (M unit))
| GetterOnly
| NoAccessor.

Definition typed {A} (coerce : JsValue -> option A) (set : A -> M unit) : Accessor :=
  Setter (fun v => match coerce v with
                   | Some a => Some (set a)
                   | None => None
                   end).

Definition keyed (table : list (string * Accessor)) (key : string) : Accessor :=
  match List.find (fun e => String.eqb key (fst e)) table with
  | Some e => snd e
  | None => NoAccessor
  end.

Definition P5Component_accessors : list (string * Accessor) :=
  [ ("name", typed as_str P5Component_set_name);
    ("text", typed as_str P5Component_set_text);
    ("left", typed as_num P5Component_set_left);
    ("top", typed as_num P5Component_set_top);
    ("width", typed as_num P5Component_set_width);
    ("height", typed as_num P5Component_set_height);
    ("enabled", typed as_bool P5Component_set_enabled);
    ("visible", typed as_bool P5Component_set_visible);
    ("backColor", typed as_str P5Component_set_backColor);
    ("foreColor", typed as_str P5Component_set_foreColor);
    ("fontSize", typed as_num P5Component_set_fontSize);
    ("fontFamily", typed as_str P5Component_set_fontFamily);
    ("borderColor", typed as_str P5Component_set_borderColor);
    ("borderWidth", typed as_num P5Component_set_borderWidth);
    ("state", GetterOnly) ].

Definition P5Button_accessors : list (string * Accessor) :=
  [ ("hoverColor", typed as_str P5Button_set_hoverColor);
    ("activeColor", typed as_str P5Button_set_activeColor);
    ("disabledColor", typed as_str P5Button_set_disabledColor);
    ("cornerRadius", typed as_num P5Button_set_cornerRadius) ].

Definition P5TextBox_accessors : list (string * Accessor) :=
  [ ("placeholder", typed as_str P5TextBox_set_placeholder);
    ("maxLength", typed as_int P5TextBox_set_maxLength);
    ("readOnly", typed as_bool P5TextBox_set_readOnly);
    ("passwordChar", typed as_nullable_str P5TextBox_set_passwordChar);
    ("multiline", typed as_bool P5TextBox_set_multiline);
    ("textAlign", typed as_str P5TextBox_set_textAlign) ].

Definition P5Label_accessors : list (string * Accessor) :=
  [ ("textAlign", typed as_str P5Label_set_textAlign);
    ("verticalAlign", typed as_str P5Label_set_verticalAlign);
    ("autoSize", typed as_bool P5Label_set_autoSize);
    ("wordWrap", typed as_bool P5Label_set_wordWrap);
    ("fontStyle", typed as_str P5Label_set_fontStyle);
    ("underline", typed as_bool P5Label_set_underline);
    ("strikethrough", typed as_bool P5Label_set_strikethrough);
    ("text", typed as_str P5Label_set_text) ].

(** The accessors of the class come before those it inherits. *)
Definition accessors (k : Kind) : list (string * Accessor) :=
  match k with
  | KComponent => P5Component_accessors
  | KButton => P5Button_accessors ++ P5Component_accessors
  | KTextBox => P5TextBox_accessors ++ P5Component_accessors
  | KLabel => P5Label_accessors ++ P5Component_accessors
  end.

(** The names of the fields each constructor creates on the instance. *)
Definition P5Component_fields : list string :=
  [ "_name"; "_text"; "_left"; "_top"; "_width"; "_height"; "_enabled";
    "_visible"; "_backColor"; "_foreColor"; "_fontSize"; "_fontFamily";
    "_borderColor"; "_borderWidth"; "_tabIndex"; "_state"; "_parent";
    "_p5Instance"; "_canvas"; "_containerElement"; "_mouseInside";
    "_mousePressed"; "events" ].

Definition fields (k : Kind) : list string :=
  P5Component_fields ++
  match k with
  | KComponent => []
  | KButton =>
      [ "_hoverColor"; "_activeColor"; "_disabledColor"; "_disabledTextColor";
        "_cornerRadius" ]
  | KTextBox =>
      [ "_placeholder"; "_placeholderColor"; "_maxLength"; "_readOnly";
        "_passwordChar"; "_multiline"; "_textAlign"; "_cursorPosition";
        "_cursorVisible"; "_cursorBlinkInterval"; "_selectionStart";
        "_selectionEnd"; "_focusBorderColor"; "_padding" ]
  | KLabel =>
      [ "_textAlign"; "_verticalAlign"; "_autoSize"; "_wordWrap"; "_padding";
        "_fontStyle"; "_underline"; "_strikethrough" ]
  end.

(** The methods each class declares. *)
Definition EventEmitter_methods : list string :=
  [ "on"; "once"; "off"; "emit"; "removeAllListeners"; "listenerCount" ].

Definition P5Component_methods : list string :=
  [ "_initP5"; "_handleMousePressed"; "_handleMouseReleased";
    "_handleMouseOver"; "_handleMouseOut"; "_updatePosition"; "_resizeCanvas";
    "getValue"; "setValue"; "enable"; "disable"; "show"; "hide"; "focus";
    "blur"; "redraw"; "destroy"; "toJSON"; "fromJSON"; "setup"; "draw";
    "handleKeyPressed"; "handleKeyTyped" ].

Definition P5Button_methods : list string := [ "setup"; "draw"; "toJSON" ].

Definition P5TextBox_methods : list string :=
  [ "setup"; "draw"; "_drawCursor"; "_drawSelection"; "_startCursorBlink";
    "_stopCursorBlink"; "handleKeyPressed"; "handleKeyTyped"; "clear";
    "selectAll"; "getSelectedText"; "_handleMousePressed"; "toJSON";
    "destroy" ].

Definition P5Label_methods : list string :=
  [ "setup"; "draw"; "_applyFontStyle"; "_drawWrappedText"; "_drawUnderline";
    "_drawStrikethrough"; "_adjustSize"; "getValue"; "setValue"; "toJSON" ].

(** The members, accessors apart, that an instance finds on its prototype
    chain: the methods of its class, of [P5Component] and of [EventEmitter],
    and the members of [Object.prototype], [constructor] among them. *)
Definition members (k : Kind) : list string :=
  match k with
  | KComponent => []
  | KButton => P5Button_methods
  | KTextBox => P5TextBox_methods
  | KLabel => P5Label_methods
  end ++ P5Component_methods ++ EventEmitter_methods
      ++ List.map fst Object_prototype.

(** The keys whose assignment goes to the internals of the instance: the
    name of a field, which the assignment overwrites, and the name of a
    member, which it shadows (or, for [__proto__], replaces the prototype
    with). *)
Definition internal (k : Kind) (key : string) : bool :=
  existsb (String.eqb key) (fields k ++ members k).

(** [this[key] = value].  A key with a setter runs the setter; a key that
    names nothing on the instance or its prototype chain becomes a plain
    property of the instance.  [None] stands for the ways the assignment
    leaves the model: it throws (a property with a getter and no setter, in
    the strict mode of class bodies); the value is not of the type the data
    model gives the property; or the key is [internal], so that the
    assignment would overwrite a field or a method behind the back of the
    class.  The model follows a widget through its properties and methods,
    not through writes to its internals. *)
Definition assign (key : string) (value : JsValue) (p : P5) (w : Widget)
    : option (Widget * list Effect) :=
  match keyed (accessors (kind w)) key with
  | Setter set =>
      match set value with
      | Some m => Some (exec m p w, trace m p w)
      | None => None
      end
  | GetterOnly => None
  | NoAccessor =>
      if internal (kind w) key then None
      else Some (mkWidget (base w) (ext w) (<[key := value]> (own w)), [])
  end.

(** [this.hasOwnProperty(name)]. *)
Definition hasOwnProperty (w : Widget) (name : string) : bool :=
  existsb (String.eqb name) (fields (kind w))
  || bool_decide (is_Some (own w !! name)).

(** [fromJSON(json)]: every key but [type] whose underscored name is a field
    of the instance is assigned, in the order of the record. *)
Fixpoint fromJSON (json : Json) (p : P5) (w : Widget)
    : option (Widget * list Effect) :=
  match json with
  | [] => Some (w, [])
  | (key, value) :: rest =>
      if negb (String.eqb key "type") && hasOwnProperty w ("_" +:+ key) then
        match assign key value p w with
        | Some (w1, t1) =>
            match fromJSON rest p w1 with
            | Some (w2, t2) => Some (w2, t1 ++ t2)
            | None => None
            end
        | None => None
        end
      else fromJSON rest p w
  end.

(* ===================================================================== *)
(** * The life of a widget *)
(* ===================================================================== *)

(** What can happen to a widget between its construction and its
    destruction: the callbacks of its p5 instance, the timer, and the calls
    and assignments of the host. *)
Inductive Op :=
| MousePressed | MouseReleased | MouseOver | MouseOut
| KeyPressed | KeyTyped | P5Setup | BlinkTick
| Assign (key : string) (value : JsValue)
| FromJSON (json : Json)
| Focus | Blur | Enable | Disable | Show | Hide
| SetValue (value : string)
| Clear | SelectAll.

Definition run {A} (m : M A) (p : P5) (w : Widget) : option (Widget * list Effect) :=
  Some (exec m p w, trace m p w).

(** One step; [None] where the call throws ([clear] and [selectAll] exist on
    text boxes only) or leaves the data model. *)
Definition step (op : Op) (p : P5) (w : Widget) : option (Widget * list Effect) :=
  match op with
  | MousePressed => run _handleMousePressed p w
  | MouseReleased => run P5Component__handleMouseReleased p w
  | MouseOver => run P5Component__handleMouseOver p w
  | MouseOut => run P5Component__handleMouseOut p w
  | KeyPressed => run p5_keyPressed p w
  | KeyTyped => run p5_keyTyped p w
  | P5Setup => run p5_setup p w
  | BlinkTick => run blinkTick p w
  | Assign key value => assign key value p w
  | FromJSON json => fromJSON json p w
  | Focus => run focus p w
  | Blur => run blur p w
  | Enable => run enable p w
  | Disable => run disable p w
  | Show => run show p w
  | Hide => run hide p w
  | SetValue value => run (setValue value) p w
  | Clear => match kind w with KTextBox => run clear p w | _ => None end
  | SelectAll => match kind w with KTextBox => run selectAll p w | _ => None end
  end.

(** A run: each operation with the state of the p5 instance it meets. *)
Fixpoint steps (ops : list (Op * P5)) (w : Widget) : option (Widget * list Effect) :=
  match ops with
  | [] => Some (w, [])
  | (op, p) :: rest =>
      match step op p w with
      | Some (w1, t1) =>
          match steps rest w1 with
          | Some (w2, t2) => Some (w2, t1 ++ t2)
          | None => None
          end
      | None => None
      end
  end.

(** [new K(options)] for each class [K]. *)
Definition construct (k : Kind) (now : string) (options : Options.t Num) : Widget :=
  match k with
  | KComponent => new_P5Component now options
  | KButton => new_P5Button now options
  | KTextBox => new_P5TextBox now options
  | KLabel => new_P5Label now options
  end.

(** The widgets the four constructors build. *)
Inductive constructed : Widget -> Prop :=
| constructed_component now o : constructed (new_P5Component now o)
| constructed_button now o : constructed (new_P5Button now o)
| constructed_textbox now o : constructed (new_P5TextBox now o)
| constructed_label now o : constructed (new_P5Label now o).

Inductive reachable : Widget -> Prop :=
| reachable_new w : constructed w -> reachable w
| reachable_step w op p w' t :
    reachable w -> step op p w = Some (w', t) -> reachable w'.

End Widgets.

Arguments JsValue : clear implicits.
Arguments Widget : clear implicits.
Arguments P5 : clear implicits.
Arguments Effect : clear implicits.
Arguments Payload : clear implicits.
Arguments Ext : clear implicits.
Arguments Op : clear implicits.
Arguments Json : clear implicits.
Arguments M : clear implicits.

(* ===================================================================== *)
(** * Notions the properties are stated with *)
(* ===================================================================== *)

Section Notions.
Context {Num : Type} {NumOps : JsNumber Num}.

(** The p5 instance at the moment a key arrives. *)
Definition pressing (k : string) (code : Z) (p : P5 Num) : P5 Num :=
  mkP5 (mouseX p) (mouseY p) k code (BACKSPACE p) (DELETE p)
       (LEFT_ARROW p) (RIGHT_ARROW p) (HOME p) (END_ p) (ENTER p)
       (font p) (size p) (measure p).

(** [state === 'disabled'] iff [enabled === false]. *)
Definition disabled_iff_not_enabled (w : Widget Num) : Prop :=
  Component._state (base w) = disabled <-> Component._enabled (base w) = false.

(** [0 <= cursorPosition <= length(value)], for a text box. *)
Definition cursor_in_range (w : Widget Num) : Prop :=
  match ext w with
  | ETextBox t => 0 <= TextBox._cursorPosition t <= text_length w
  | _ => True
  end.

Definition cursorPosition (w : Widget Num) : Z :=
  match ext w with
  | ETextBox t => TextBox._cursorPosition t
  | _ => 0
  end.

Definition maxLength (w : Widget Num) : Z :=
  match ext w with
  | ETextBox t => TextBox._maxLength t
  | _ => 0
  end.

(** [value[0:cursor] + c + value[cursor:]]. *)
Definition inserted (c : string) (cursor : Z) (value : string) : string :=
  str_take (Z.to_nat cursor) value +:+ c +:+ str_drop (Z.to_nat cursor) value.

(** [value] without the character before position [cursor]. *)
Definition removed_before (cursor : Z) (value : string) : string :=
  str_take (Z.to_nat (cursor - 1)) value +:+ str_drop (Z.to_nat cursor) value.

(** A widget with another text and cursor. *)
Definition with_text_and_cursor (value : string) (cursor : Z) (w : Widget Num)
    : Widget Num :=
  match ext w with
  | ETextBox t =>
      mkWidget (Component.set_text value (base w))
               (ETextBox (TextBox.set_cursorPosition cursor t)) (own w)
  | _ => w
  end.

(** The editing operations: a typed key, backspace, forward delete. *)
Inductive EditOp :=
| Insert (key : string)
| Backspace
| DeleteForward.

(** An editing operation is the key handler run on the p5 instance that
    holds the key. *)
Definition edit (op : EditOp) (p : P5 Num) (w : Widget Num) : Widget Num :=
  match op with
  | Insert k => exec handleKeyTyped (pressing k (charCodeAt0 k) p) w
  | Backspace => exec handleKeyPressed (pressing "Backspace" (BACKSPACE p) p) w
  | DeleteForward => exec handleKeyPressed (pressing "Delete" (DELETE p) p) w
  end.

(** The states a sequence of editing operations goes through. *)
Fixpoint edits (ops : list (EditOp * P5 Num)) (w : Widget Num) : list (Widget Num) :=
  match ops with
  | [] => []
  | (op, p) :: rest => edit op p w :: edits rest (edit op p w)
  end.

(** Whether a trace holds an emission of the event. *)
Definition emits (event : string) (t : list (Effect Num)) : bool :=
  existsb (fun e => match e with
                    | Emit ev _ => String.eqb ev event
                    | _ => false
                    end) t.

(** A text box that a pointer press focuses. *)
Definition editable_textbox (w : Widget Num) : bool :=
  match ext w with
  | ETextBox t => negb (TextBox._readOnly t)
  | _ => false
  end.

(** The width accumulated over the first [i] glyphs of [value], added from
    left to right. *)
Definition width_before (p : P5 Num) (value : string) (i : nat) : Num :=
  fold_left (fun acc c => num_add acc (textWidth p (String c EmptyString)))
            (take i (list_ascii_of_string value)) (num_of_Z 0).

(** The glyph at index [i]. *)
Definition glyph (value : string) (i : nat) : string :=
  match list_ascii_of_string value !! i with
  | Some c => String c EmptyString
  | None => EmptyString
  end.

(** The click target among the characters of a string: the first index [i]
    such that the accumulated width plus half the next glyph exceeds the
    click offset, and the end of the string when there is none. *)
Definition click_target (p : P5 Num) (clickOffset : Num) (value : string) : Z :=
  match List.find
          (fun i => num_gt (num_add (width_before p value i)
                              (num_div (textWidth p (glyph value i)) (num_of_Z 2)))
                           clickOffset)
          (seq 0 (String.length value)) with
  | Some i => Z.of_nat i
  | None => Z.of_nat (String.length value)
  end.



(** A label that sizes itself to its text, and the size [_adjustSize] gives
    it. *)
Definition autosizing (w : Widget Num) : bool :=
  match ext w with
  | ELabel l => Label._autoSize l
  | _ => false
  end.

Definition sized_to_text (p : P5 Num) (w : Widget Num) : Prop :=
  match ext w with
  | ELabel l =>
      let c := base w in
      Component._width c
      = num_add (textWidth (textSize (Component._fontSize c)
                              (textFont (Component._fontFamily c) p))
                           (Component._text c))
                (num_mul (Label._padding l) (num_of_Z 2))
      /\ Component._height c
         = num_add (Component._fontSize c)
                   (num_mul (Label._padding l) (num_of_Z 2))
  | _ => True
  end.

(** A method that keeps [disabled_iff_not_enabled], and an accessor whose
    setter does. *)
Definition keeps_invariant {A} (m : M Num A) : Prop :=
  forall p w, disabled_iff_not_enabled w -> disabled_iff_not_enabled (exec m p w).

Definition accessor_keeps (a : Accessor) : Prop :=
  match a with
  | Setter set => forall v m, set v = Some m -> keeps_invariant m
  | _ => True
  end.

(** The drag-out release of a press: press, leave, release. *)
Definition pressed (p : P5 Num) (w : Widget Num) : Widget Num :=
  exec _handleMousePressed p w.
Definition dragged_out (p1 p2 : P5 Num) (w : Widget Num) : Widget Num :=
  exec P5Component__handleMouseOut p2 (pressed p1 w).
Definition released_outside (p1 p2 p3 : P5 Num) (w : Widget Num) : Widget Num :=
  exec P5Component__handleMouseReleased p3 (dragged_out p1 p2 w).
Definition drag_out_trace (p1 p2 p3 : P5 Num) (w : Widget Num) : list (Effect Num) :=
  trace _handleMousePressed p1 w ++
  trace P5Component__handleMouseOut p2 (pressed p1 w) ++
  trace P5Component__handleMouseReleased p3 (dragged_out p1 p2 w).

(** The drag-out claim in the words of the specification: between the leave
    and the release the widget is still [active], with the pointer outside. *)
Definition stays_active_when_dragged_out (p1 p2 : P5 Num) (w : Widget Num) : Prop :=
  Component._enabled (base w) = true ->
  Component._state (base (dragged_out p1 p2 w)) = active
  /\ Component._mouseInside (base (dragged_out p1 p2 w)) = false.

Definition drag_out_law : Prop :=
  forall (p1 p2 : P5 Num) (w : Widget Num),
    reachable w -> stays_active_when_dragged_out p1 p2 w.

End Notions.

(* ===================================================================== *)
(** * Examples *)
(* ===================================================================== *)

(** A p5 instance with the pointer at (5, 5), the key codes of p5.js and a
    font whose glyphs are all 8 wide. *)
Definition p5_example : P5 Z :=
  mkP5 5 5 "a" 65 8 46 37 39 36 35 13 "Arial" 14
       (fun _ _ s => 8 * Z.of_nat (String.length s)).

(** The text box holding "abc". *)
Definition textbox_abc : Widget Z :=
  new_P5TextBox "0" (Options.with_text "abc" Options.empty).

(** The empty text box that holds three characters at most. *)
Definition textbox_max3 : Widget Z :=
  new_P5TextBox "0" (Options.with_maxLength 3 Options.empty).

(** The text box holding "x". *)
Definition textbox_x : Widget Z :=
  new_P5TextBox "0" (Options.with_text "x" Options.empty).

(** A label that sizes itself, after [setup] and after the host has set its
    width to 300. *)
Definition label_autosize : Widget Z :=
  new_P5Label "0" (Options.with_autoSize true (Options.with_text "Hi" Options.empty)).


(** An emitter of the host: listener 1 throws, the others count their
    calls in the world. *)
Definition example_run (id : nat) (args : list nat)
    (h : @EventEmitter.Host string nat)
    : @EventEmitter.Host string nat * @EventEmitter.Completion string :=
  if (id =? 1)%nat
  then (h, EventEmitter.Throw "boom")
  else (EventEmitter.mkHost (EventEmitter.events h) (EventEmitter.console h)
          (EventEmitter.closures h) (S (EventEmitter.world h)),
        EventEmitter.Normal).

#[export] Instance example_errors : EventEmitter.Errors string :=
  fun message => ("TypeError: " +:+ message)%string.

Definition example_host : @EventEmitter.Host string nat :=
  (EventEmitter.on "click" (EventEmitter.Fn 2)
     (EventEmitter.on "click" (EventEmitter.Fn 1)
        (EventEmitter.on "click" (EventEmitter.Fn 0)
           (EventEmitter.mkHost ∅ [] 0%nat 0%nat)).1).1).1.

(** The text box holding "ab", focused, with the cursor at its end. *)
Definition textbox_ab : Widget Z :=
  exec focus p5_example
    (new_P5TextBox "0" (Options.with_text "ab" Options.empty)).

Definition textbox_ab_fields : TextBox.Fields Z :=
  TextBox.mk "" "#AAAAAA" 255 false None false "left" 2 true false (-1) (-1)
             "#4A90E2" 5 false.

Definition textbox_abc_fields : TextBox.Fields Z :=
  TextBox.mk "" "#AAAAAA" 255 false None false "left" 3 true false (-1) (-1)
             "#4A90E2" 5 false.

(** The p5 instance with the pointer at x = 18. *)
Definition p5_click : P5 Z :=
  mkP5 18 5 "a" 65 8 46 37 39 36 35 13 "Arial" 14
       (fun _ _ s => 8 * Z.of_nat (String.length s)).

(* ===================================================================== *)
(** * Notions of the further properties *)
(* ===================================================================== *)

Section FurtherNotions.
Context {Num : Type} {NumOps : JsNumber Num}.

(** The value a record holds for a key. *)
Definition json_lookup (key : string) (json : Json Num) : option (JsValue Num) :=
  match List.find (fun e => String.eqb key (fst e)) json with
  | Some e => Some (snd e)
  | None => None
  end.

(** What the state machine of a widget consists of. *)
Definition interaction (w : Widget Num) : State * bool * bool * bool :=
  (Component._state (base w), Component._enabled (base w),
   Component._mouseInside (base w), Component._mousePressed (base w)).

(** The properties that have a field and appear in [toJSON] or in [draw],
    but have no setter: [tabIndex], the button's [disabledTextColor], the
    text box's [placeholderColor] and [focusBorderColor], and [padding]. *)
Definition construction_only (w : Widget Num) : Z * list string * option Num :=
  (Component._tabIndex (base w),
   match ext w with
   | EButton b => [Button._disabledTextColor b]
   | ETextBox t => [TextBox._placeholderColor t; TextBox._focusBorderColor t]
   | _ => []
   end,
   match ext w with
   | ETextBox t => Some (TextBox._padding t)
   | ELabel l => Some (Label._padding l)
   | _ => None
   end).

(** The value and the cursor. *)
Definition value_and_cursor (w : Widget Num) : string * Z :=
  (Component._text (base w), cursorPosition w).

(** A method that leaves a part of the widget as it was, and an accessor
    whose setter does. *)
Definition frames {X A} (f : Widget Num -> X) (m : M Num A) : Prop :=
  forall p w, f (exec m p w) = f w.

Definition accessor_frames {X} (f : Widget Num -> X) (a : @Accessor Num) : Prop :=
  match a with
  | Setter set => forall v m, set v = Some m -> frames f m
  | _ => True
  end.

(** What each setter leaves alone: the properties without setter, always;
    the state machine, unless it is the setter of [enabled]; the value and
    the cursor, unless it is the setter of [text]. *)
Definition setter_frames (key : string) (a : @Accessor Num) : Prop :=
  accessor_frames construction_only a
  /\ (key <> "enabled"%string -> accessor_frames interaction a)
  /\ (key <> "text"%string -> accessor_frames value_and_cursor a).

(** The value a setter stores is the one [toJSON] reports under its key. *)
Definition setter_is_serialized (p : P5 Num) (w : Widget Num) (key : string)
    (a : @Accessor Num) : Prop :=
  match a with
  | Setter set =>
      forall v m, set v = Some m ->
                  json_lookup key (toJSON (exec m p w)) = Some v
  | _ => True
  end.

(** The length of the value stays within [maxLength], which stays the
    same. *)
Definition within_max_length (max : Z) (w : Widget Num) : Prop :=
  text_length w <= max /\ maxLength w = max.

(** [value] without the character at position [cursor]. *)
Definition removed_at (cursor : Z) (value : string) : string :=
  str_take (Z.to_nat cursor) value +:+ str_drop (Z.to_nat (cursor + 1)) value.

(** A text box with another cursor. *)
Definition with_cursor (cursor : Z) (w : Widget Num) : Widget Num :=
  match ext w with
  | ETextBox t =>
      mkWidget (base w) (ETextBox (TextBox.set_cursorPosition cursor t)) (own w)
  | _ => w
  end.

(** The key codes [handleKeyPressed] compares [keyCode] with, in the order
    it does. *)
Definition key_constants (p : P5 Num) : list Z :=
  [BACKSPACE p; DELETE p; LEFT_ARROW p; RIGHT_ARROW p; HOME p; END_ p; ENTER p].

(** The timers a trace starts and clears. *)
Definition timers_started (t : list (Effect Num)) : nat :=
  List.length (List.filter (fun e => match e with SetInterval => true | _ => false end) t).

Definition timers_cleared (t : list (Effect Num)) : nat :=
  List.length (List.filter (fun e => match e with ClearInterval => true | _ => false end) t).

(** Whether the text box holds a timer handle. *)
Definition blinking (w : Widget Num) : bool :=
  match ext w with
  | ETextBox t => TextBox._cursorBlinkInterval t
  | _ => false
  end.

(** A text box after [setup], which has registered the blink listeners. *)
Definition set_up_textbox (w : Widget Num) : bool :=
  match ext w with
  | ETextBox t => TextBox.blinkListeners t
  | _ => false
  end.

(** The operations that do not assign the [text] property. *)
Definition keeps_text_setter_away (op : Op Num) : Prop :=
  match op with
  | SetValue _ => False
  | Assign key _ => key <> "text"%string
  | FromJSON json => ~ In "text"%string (List.map fst json)
  | _ => True
  end.


(* --------------------------------------------------------------------- *)
(** ** What [draw] shows of a text box *)

(** [s.repeat(n)]. *)
Fixpoint repeat_string (s : string) (n : nat) : string :=
  match n with
  | O => EmptyString
  | S n' => s +:+ repeat_string s n'
  end.

(** The text [draw] starts from: the value, or as many copies of
    [passwordChar] as the value has characters when one is set. *)
Definition displayText (w : Widget Num) : string :=
  let text := Component._text (base w) in
  match ext w with
  | ETextBox t =>
      match TextBox._passwordChar t with
      | Some c => if str_truthy c then repeat_string c (String.length text)
                  else text
      | None => text
      end
  | _ => text
  end.

(** [while (p.textWidth(truncatedText) > maxTextWidth &&
    truncatedText.length > 0) truncatedText = truncatedText.substring(1)]. *)
Fixpoint truncate (p : P5 Num) (maxTextWidth : Num) (truncatedText : string)
    : string :=
  match truncatedText with
  | EmptyString => EmptyString
  | String _ rest =>
      if num_gt (textWidth p truncatedText) maxTextWidth
      then truncate p maxTextWidth rest
      else truncatedText
  end.

(** [_drawCursor(p, displayText, textX)]: the abscissa of the cursor line. *)
Definition P5TextBox__drawCursor (p : P5 Num) (t : TextBox.Fields Num)
    (displayText : string) (textX : Num) : Num :=
  let cursor := TextBox._cursorPosition t in
  if String.eqb (TextBox._textAlign t) "left" then
    let textBeforeCursor := substring displayText 0 (Some cursor) in
    num_add textX (textWidth p textBeforeCursor)
  else if String.eqb (TextBox._textAlign t) "center" then
    let textBeforeCursor := substring displayText 0 (Some cursor) in
    let fullTextWidth := textWidth p displayText in
    num_add (num_sub textX (num_div fullTextWidth (num_of_Z 2)))
            (textWidth p textBeforeCursor)
  else
    let textAfterCursor := substring displayText cursor None in
    num_sub textX (textWidth p textAfterCursor).

(** The text of a text box as [draw] puts it on the canvas: the string
    passed to [p.text], its abscissa, whether it is the placeholder, and the
    abscissa of the cursor line when one is drawn. *)
Record TextDrawn := mkTextDrawn {
  drawn_text : string;
  drawn_x : Num;
  drawn_placeholder : bool;
  drawn_cursor : option Num
}.

(** The part of [draw(p)] of the text box that places the text and the
    cursor; the colours, the frame and the selection rectangle are left
    out. *)
Definition P5TextBox_draw (p : P5 Num) (w : Widget Num) : option TextDrawn :=
  match ext w with
  | ETextBox t =>
      let c := base w in
      let p1 := textSize (Component._fontSize c)
                  (textFont (Component._fontFamily c) p) in
      let textX :=
        if String.eqb (TextBox._textAlign t) "center"
        then num_div (Component._width c) (num_of_Z 2)
        else if String.eqb (TextBox._textAlign t) "right"
             then num_sub (Component._width c) (TextBox._padding t)
             else TextBox._padding t in
      if (String.length (Component._text c) =? 0)%nat
         && str_truthy (TextBox._placeholder t)
         && negb (state_eqb (Component._state c) focused)
      then Some (mkTextDrawn (TextBox._placeholder t) textX true None)
      else
        let maxTextWidth :=
          num_sub (Component._width c)
                  (num_mul (TextBox._padding t) (num_of_Z 2)) in
        let truncatedText := truncate p1 maxTextWidth (displayText w) in
        Some (mkTextDrawn truncatedText textX false
                (if state_eqb (Component._state c) focused
                    && TextBox._cursorVisible t
                    && negb (TextBox._readOnly t)
                 then Some (P5TextBox__drawCursor p1 t truncatedText textX)
                 else None))
  | _ => None
  end.

(** Whether a text fits the width. *)
Definition fits (p : P5 Num) (maxTextWidth : Num) (s : string) : bool :=
  negb (num_gt (textWidth p s) maxTextWidth).

(** The rendered string of a text box, as the specification defines it and
    as [draw] computes it: the value, masked when [passwordChar] is set, and
    truncated from the front to the interior width. *)
Definition rendered (p : P5 Num) (w : Widget Num) : string :=
  match ext w with
  | ETextBox t =>
      let c := base w in
      let p1 := textSize (Component._fontSize c)
                  (textFont (Component._fontFamily c) p) in
      let maxTextWidth :=
        num_sub (Component._width c)
                (num_mul (TextBox._padding t) (num_of_Z 2)) in
      truncate p1 maxTextWidth (displayText w)
  | _ => Component._text (base w)
  end.

(** The click target found by walking the rendered characters, and the end
    of the value when the walk finds none. *)
Definition rendered_click_target (p : P5 Num) (clickOffset : Num)
    (w : Widget Num) : Z :=
  let shown := rendered p w in
  match List.find
          (fun i => num_gt (num_add (width_before p shown i)
                              (num_div (textWidth p (glyph shown i)) (num_of_Z 2)))
                           clickOffset)
          (seq 0 (String.length shown)) with
  | Some i => Z.of_nat i
  | None => text_length w
  end.

(** The click-to-cursor claim in the words of the specification: the press
    puts the cursor on the target found among the rendered characters. *)
Definition click_mapping_law : Prop :=
  forall (p : P5 Num) (w : Widget Num) (t : TextBox.Fields Num),
    reachable w ->
    ext w = ETextBox t ->
    Component._enabled (base w) = true ->
    TextBox._readOnly t = false ->
    TextBox._textAlign t = "left"%string ->
    cursorPosition (exec _handleMousePressed p w)
    = rendered_click_target p (num_sub (mouseX p) (TextBox._padding t)) w.


(* --------------------------------------------------------------------- *)
(** ** The lines of a label that wraps its text *)

(** [text.split(' ')]: the pieces between the spaces, empty pieces
    included. *)
Fixpoint split_spaces (s : string) : list string :=
  match s with
  | EmptyString => [EmptyString]
  | String c rest =>
      if Ascii.eqb c " " then EmptyString :: split_spaces rest
      else match split_spaces rest with
           | word :: words => String c word :: words
           | [] => [String c EmptyString]
           end
  end.

(** The loop of [_drawWrappedText] over the words: [lines] are the lines
    pushed so far and [currentLine] the line being filled. *)
Fixpoint wrap_loop (p : P5 Num) (maxWidth : Num) (words : list string)
    (lines : list string) (currentLine : string) : list string * string :=
  match words with
  | [] => (lines, currentLine)
  | word :: rest =>
      let testLine :=
        currentLine +:+ (if str_truthy currentLine then " " else "") +:+ word in
      let testWidth := textWidth p testLine in
      if num_gt testWidth maxWidth && str_truthy currentLine
      then wrap_loop p maxWidth rest (lines ++ [currentLine]) word
      else wrap_loop p maxWidth rest lines testLine
  end.

(** The lines [_drawWrappedText] draws, one [p.text] call each, measured in
    the font [draw] has selected; the text style that [_applyFontStyle] sets
    is part of what the renderer's [measure] stands for. *)
Definition P5Label__drawWrappedText (p : P5 Num) (w : Widget Num) : list string :=
  match ext w with
  | ELabel l =>
      let c := base w in
      let p1 := textSize (Component._fontSize c)
                  (textFont (Component._fontFamily c) p) in
      let maxWidth :=
        num_sub (Component._width c) (num_mul (Label._padding l) (num_of_Z 2)) in
      let words := split_spaces (Component._text c) in
      let '(lines, currentLine) := wrap_loop p1 maxWidth words [] EmptyString in
      if str_truthy currentLine then lines ++ [currentLine] else lines
  | _ => []
  end.

(** A string without its spaces, and the lines of a text put end to end. *)
Fixpoint non_spaces (s : string) : string :=
  match s with
  | EmptyString => EmptyString
  | String c rest =>
      if Ascii.eqb c " " then non_spaces rest else String c (non_spaces rest)
  end.

Fixpoint joined (lines : list string) : string :=
  match lines with
  | [] => EmptyString
  | line :: rest => line +:+ joined rest
  end.

(** A line that fits the width or is a word of the text on its own. *)
Definition fits_or_single_word (p : P5 Num) (maxWidth : Num)
    (words : list string) (line : string) : Prop :=
  fits p maxWidth line = true \/ In line words.

End FurtherNotions.

Arguments TextDrawn : clear implicits.

(* ===================================================================== *)
(** * More examples *)
(* ===================================================================== *)

(** A button built disabled. *)
Definition button_disabled : Widget Z :=
  new_P5Button "0" (Options.with_enabled false Options.empty).

(** The text box holding "abc" after [setup], and after [setup] and
    [focus()], when its cursor blinks. *)
Definition textbox_set_up : Widget Z := exec p5_setup p5_example textbox_abc.

Definition textbox_blinking : Widget Z := exec focus p5_example textbox_set_up.

(** The focused text box holding "ab" with the cursor after the "a". *)
Definition textbox_ab_at_1 : Widget Z := with_cursor 1 textbox_ab.

Definition textbox_ab_at_1_fields : TextBox.Fields Z :=
  TextBox.set_cursorPosition 1 textbox_ab_fields.

(** A read-only text box. *)
Definition textbox_read_only : Widget Z :=
  new_P5TextBox "0" (Options.with_readOnly true Options.empty).

Definition textbox_read_only_fields : TextBox.Fields Z :=
  TextBox.mk "" "#AAAAAA" 255 true None false "left" 0 true false (-1) (-1)
             "#4A90E2" 5 false.

(** The text box holding "abc" as a password field. *)
Definition textbox_password : Widget Z :=
  exec (P5TextBox_set_passwordChar (Some "*"%string)) p5_example textbox_abc.

Definition textbox_password_fields : TextBox.Fields Z :=
  TextBox.set_passwordChar (Some "*"%string) textbox_abc_fields.

(** The p5 instance with the pointer at x = 14 and a font whose asterisk is
    8 wide and whose other glyphs are 2 wide. *)
Definition p5_thin : P5 Z :=
  mkP5 14 5 "a" 65 8 46 37 39 36 35 13 "Arial" 14
       (fun _ _ s =>
          fold_left (fun acc c => acc + (if Ascii.eqb c "*" then 8 else 2))
                    (list_ascii_of_string s) 0).

(** The text box built with "abc", given the text "a" and focused: its
    cursor is still at 3. *)
Definition textbox_a_at_3 : Widget Z :=
  exec focus p5_example (exec (P5Component_set_text "a") p5_example textbox_abc).

Definition textbox_a_at_3_fields : TextBox.Fields Z := textbox_abc_fields.

(** The fields of the label that sizes itself. *)
Definition label_autosize_fields : Label.Fields Z :=
  Label.mk "left" "top" true false 0 "normal" false false.

(** The p5 instance when Delete, Left, Enter arrive. *)
Definition p5_delete : P5 Z := pressing "Delete" 46 p5_example.
Definition p5_left : P5 Z := pressing "ArrowLeft" 37 p5_example.
Definition p5_enter : P5 Z := pressing "Enter" 13 p5_example.

(** An emitter with one listener registered by [once], which throws. *)
Definition once_host : @EventEmitter.Host string nat :=
  (EventEmitter.once "click" (EventEmitter.Fn 1)
     (EventEmitter.mkHost ∅ [] 0%nat 0%nat)).1.

(* ===================================================================== *)
(** * Proof support *)
(* ===================================================================== *)

Create HintDb methods.
#[export] Hint Unfold p5_keyTyped p5_keyPressed handleKeyTyped handleKeyPressed
  P5TextBox_handleKeyTyped P5TextBox_handleKeyPressed emit redraw blur focus
  P5TextBox__stopCursorBlink P5TextBox__startCursorBlink
  upd_base upd_textbox upd_label upd_button modify tell this p5Instance bind ret
  exec trace result kind text_length run : methods.

(** Run a method on a symbolic widget, rewriting with the facts at hand. *)
Ltac crunch :=
  repeat (cbn; match goal with
               | H : ?x = _ |- context [?x] => rewrite H
               end); cbn.

(** Run a method on a symbolic widget along every branch. *)
Ltac split_ifs :=
  repeat (cbn; match goal with
               | |- context [if ?c then _ else _] => destruct c eqn:?
               end); cbn.

Ltac bool_facts :=
  repeat match goal with
         | H : (_ && _) = true |- _ => apply andb_prop in H as [? ?]
         | H : (_ <? _) = true |- _ => apply Z.ltb_lt in H
         | H : (_ <? _) = false |- _ => apply Z.ltb_ge in H
         | H : (_ =? _)%nat = true |- _ => apply Nat.eqb_eq in H
         end.

(* ===================================================================== *)
(** * Strings *)
(* ===================================================================== *)

Lemma append_cons (c : ascii) (a b : string) :
  String c a +:+ b = String c (a +:+ b).
Proof. reflexivity. Qed.

Lemma length_append (a b : string) :
  String.length (a +:+ b) = (String.length a + String.length b)%nat.
Proof.
  induction a as [|c a IH]; [reflexivity|].
  rewrite append_cons. simpl. now rewrite IH.
Qed.

Lemma length_str_take (n : nat) (s : string) :
  String.length (str_take n s) = Nat.min n (String.length s).
Proof.
  revert s; induction n as [|n IH]; intros [|c s]; simpl; try reflexivity.
  now rewrite IH.
Qed.

Lemma length_str_drop (n : nat) (s : string) :
  String.length (str_drop n s) = (String.length s - n)%nat.
Proof.
  revert s; induction n as [|n IH]; intros [|c s]; simpl; try reflexivity.
  apply IH.
Qed.

Lemma str_take_all (n : nat) (s : string) :
  (String.length s <= n)%nat -> str_take n s = s.
Proof.
  revert s; induction n as [|n IH]; intros [|c s]; simpl; intros Hn;
    try reflexivity; try lia.
  f_equal. apply IH. lia.
Qed.

Lemma str_take_drop (n : nat) (s : string) :
  str_take n s +:+ str_drop n s = s.
Proof.
  revert s; induction n as [|n IH]; intros [|c s]; simpl; try reflexivity.
  now rewrite append_cons, IH.
Qed.

(** [s.substring(0, c)] is the part of [s] before position [c], and
    [s.substring(c)] the part from position [c] on, whatever [c] is. *)
Lemma substring_prefix (s : string) (c : Z) :
  substring s 0 (Some c) = str_take (Z.to_nat c) s.
Proof.
  unfold substring. cbv zeta.
  set (len := Z.of_nat (String.length s)).
  assert (Hlen : 0 <= len) by (unfold len; lia).
  replace (Z.min (Z.min (Z.max 0 0) len) (Z.min (Z.max c 0) len)) with 0 by lia.
  replace (Z.max (Z.min (Z.max 0 0) len) (Z.min (Z.max c 0) len) - 0)
    with (Z.min (Z.max c 0) len) by lia.
  simpl str_drop.
  destruct (Z.le_gt_cases c len) as [Hc|Hc].
  - f_equal. lia.
  - rewrite !str_take_all; [reflexivity | unfold len in *; lia ..].
Qed.

Lemma substring_suffix (s : string) (c : Z) :
  substring s c None = str_drop (Z.to_nat c) s.
Proof.
  unfold substring. cbv zeta.
  set (len := Z.of_nat (String.length s)).
  assert (Hlen : 0 <= len) by (unfold len; lia).
  replace (Z.min (Z.max len 0) len) with len by lia.
  replace (Z.min (Z.min (Z.max c 0) len) len) with (Z.min (Z.max c 0) len) by lia.
  replace (Z.max (Z.min (Z.max c 0) len) len - Z.min (Z.max c 0) len)
    with (len - Z.min (Z.max c 0) len) by lia.
  rewrite str_take_all by (rewrite length_str_drop; unfold len; lia).
  destruct (Z.le_gt_cases c len) as [Hc|Hc].
  - f_equal. lia.
  - assert (E : forall n, (String.length s <= n)%nat -> str_drop n s = EmptyString).
    { clear. induction s as [|a s IH]; intros [|n]; simpl; intros; try reflexivity;
        try lia. apply IH. lia. }
    rewrite !E; [reflexivity | unfold len in *; lia ..].
Qed.

(* ===================================================================== *)
(** * Properties of the event registry *)
(* ===================================================================== *)

Section EmitterFacts.
Import EventEmitter.
Context {Arg Exn World : Type} {errors : Errors Exn}.
Variable run : nat -> list Arg -> @Host Exn World -> @Host Exn World * @Completion Exn.

Lemma forEach_guarded (event : string) (args : list Arg) (l : list Callback) :
  forall h : @Host Exn World,
  exists invocations,
    forEach (guarded_call run event args) l h
    = (delivered run event args l h, Normal, invocations)
    /\ List.map inv_callback invocations = l
    /\ Forall (fun i => inv_args i = args) invocations.
Proof.
  induction l as [|cb rest IH]; intros h; simpl.
  - exists []. repeat split; constructor.
  - destruct (guarded_call run event args cb h) as [[h1 c] i] eqn:G.
    unfold guarded_call in G.
    destruct (call run cb args h) as [h0 [|e]]; injection G as <- <- <-;
      [ destruct (IH h0) as (invs & E & Hcb & Hargs)
      | destruct (IH (console_error event e h0)) as (invs & E & Hcb & Hargs) ];
      rewrite E; eexists; (split; [reflexivity|]); simpl;
      (split; [ now rewrite Hcb | now constructor ]).
Qed.

(** The look-up finds the array the registry holds. *)
Lemma binding_own (event : string) (l : list Callback) (h : @Host Exn World) :
  events h !! event = Some l -> binding event h = Listeners l.
Proof. unfold binding. now intros ->. Qed.

(** [on] registers after the listeners already there, unless the name is
    that of an inherited member that the registry has no entry for: then it
    throws and registers nothing. *)
Lemma on_registers_last (event : string) (cb : Callback) (h : @Host Exn World) :
  match binding event h with
  | Inherited _ =>
      on event cb h
      = (h, Throw (TypeError "this.events[event].push is not a function"))
  | _ =>
      (on event cb h).2 = Normal
      /\ events (on event cb h).1 !! event
         = Some (match events h !! event with
                 | Some l => l ++ [cb]
                 | None => [cb]
                 end)
      /\ (forall e', e' <> event ->
            events (on event cb h).1 !! e' = events h !! e')
      /\ console (on event cb h).1 = console h
      /\ closures (on event cb h).1 = closures h
      /\ world (on event cb h).1 = world h
  end.
Proof.
  unfold on, binding.
  destruct (events h !! event) as [l|] eqn:E; cbv zeta.
  - rewrite E. cbn. rewrite lookup_insert_eq.
    repeat match goal with |- _ /\ _ => split end; try reflexivity.
    intros e' Hne. now rewrite lookup_insert_ne by congruence.
  - destruct (inherited event) as [n|] eqn:I.
    + now rewrite E.
    + cbn [events set_events]. rewrite lookup_insert_eq.
      cbn. rewrite lookup_insert_eq.
      repeat match goal with |- _ /\ _ => split end; try reflexivity.
      intros e' Hne. now rewrite !lookup_insert_ne by congruence.
Qed.

(** C6.  Whatever the listeners registered for an event are and whatever
    they do, [emit] calls every one of them, in registration order and with
    the arguments of the emission, each on the state the previous one left;
    a listener that throws is reported on the console and neither ends the
    delivery nor makes [emit] throw. *)
Theorem emit_isolates_listener_errors
    (event : string) (args : list Arg) (h : @Host Exn World)
    (listeners : list Callback) :
  events h !! event = Some listeners ->
  exists invocations,
    emit run event args h
    = (delivered run event args listeners h, Normal, invocations)
    /\ List.map inv_callback invocations = listeners
    /\ Forall (fun i => inv_args i = args) invocations
    /\ List.length invocations = List.length listeners.
Proof.
  intros Hl. unfold emit. rewrite (binding_own _ _ _ Hl).
  destruct (forEach_guarded event args listeners h) as (invs & E & Hcb & Hargs).
  exists invs. repeat split; try assumption.
  rewrite <- Hcb. now rewrite length_map.
Qed.

End EmitterFacts.

Lemma emit_isolates_listener_errors_witness :
  EventEmitter.events example_host !! "click"
  = Some [EventEmitter.Fn 0; EventEmitter.Fn 1; EventEmitter.Fn 2]
  /\ exists invocations,
       EventEmitter.emit example_run "click" [7%nat] example_host
       = (EventEmitter.delivered example_run "click" [7%nat]
            [EventEmitter.Fn 0; EventEmitter.Fn 1; EventEmitter.Fn 2]
            example_host,
          EventEmitter.Normal, invocations)
       /\ List.map EventEmitter.inv_callback invocations
          = [EventEmitter.Fn 0; EventEmitter.Fn 1; EventEmitter.Fn 2]
       /\ Forall (fun i => EventEmitter.inv_args i = [7%nat]) invocations
       /\ List.length invocations = 3%nat.
Proof.
  split; [vm_compute; reflexivity|].
  apply (emit_isolates_listener_errors example_run "click" [7%nat] example_host).
  vm_compute; reflexivity.
Defined.

(** The example at work: the second listener throws, the third still runs,
    and the error is on the console. *)
Lemma example_emit_reaches_every_listener :
  let '(h, c, invocations) :=
    EventEmitter.emit example_run "click" [7%nat] example_host in
  c = EventEmitter.Normal
  /\ List.map EventEmitter.inv_completion invocations
     = [EventEmitter.Normal; EventEmitter.Throw "boom"; EventEmitter.Normal]
  /\ EventEmitter.world h = 2%nat
  /\ EventEmitter.console h = [("click", "boom")].
Proof. vm_compute. repeat split. Qed.

(* ===================================================================== *)
(** * Construction *)
(* ===================================================================== *)

Section Construction.
Context {Num : Type} {NumOps : JsNumber Num}.

(** C10.  An option read with [||] that is given the number 0 gets the
    built-in default instead: [maxLength: 0] makes a text box with
    [maxLength] 255, and in every widget kind [borderWidth: 0] gives border
    width 1, [fontSize: 0] font size 14, [width: 0] width 100 and [height: 0]
    height 30; [enabled: false] and [visible: false] are kept. *)
Theorem zero_options_get_the_defaults (now : string) (o : Options.t Num) :
  maxLength (new_P5TextBox now (Options.with_maxLength 0 o)) = 255
  /\ forall k : Kind,
       Component._borderWidth
         (base (construct k now (Options.with_borderWidth (num_of_Z 0) o)))
       = num_of_Z 1
       /\ Component._fontSize
            (base (construct k now (Options.with_fontSize (num_of_Z 0) o)))
          = num_of_Z 14
       /\ Component._width
            (base (construct k now (Options.with_width (num_of_Z 0) o)))
          = num_of_Z 100
       /\ Component._height
            (base (construct k now (Options.with_height (num_of_Z 0) o)))
          = num_of_Z 30
       /\ Component._enabled
            (base (construct k now (Options.with_enabled false o)))
          = false
       /\ Component._visible
            (base (construct k now (Options.with_visible false o)))
          = false.
Proof.
  split; [reflexivity|].
  intros k; destruct k; cbn; rewrite ?num_truthy_of_Z; repeat split.
Qed.

(** C1, at construction.  A widget of any kind built with [enabled: false]
    is not enabled and is in state [normal], not [disabled]; so is a label
    built without options. *)
Theorem disabled_at_construction_is_normal (k : Kind) (now : string)
    (o : Options.t Num) :
  let w := construct k now (Options.with_enabled false o) in
  Component._enabled (base w) = false
  /\ Component._state (base w) = normal
  /\ ~ disabled_iff_not_enabled w
  /\ ~ disabled_iff_not_enabled (new_P5Label now Options.empty).
Proof.
  cbv zeta. unfold disabled_iff_not_enabled.
  destruct k; cbn; (split; [reflexivity|]); (split; [reflexivity|]);
    split; intros [_ H]; discriminate (H eq_refl).
Qed.

End Construction.

(* ===================================================================== *)
(** * The state machine *)
(* ===================================================================== *)

Section StateMachine.
Context {Num : Type} {NumOps : JsNumber Num}.

(** Run the method along every branch, then settle the invariant by cases
    on [enabled] and [state]. *)
Ltac invariant :=
  unfold keeps_invariant, disabled_iff_not_enabled;
  intros p [b e o]; cbn [base ext own]; intros Hinv;
  autounfold with methods; destruct e; split_ifs;
  destruct (Component._enabled b), (Component._state b);
  cbn in *; try discriminate; solve [ intuition discriminate ].

(** The [enabled] setter establishes the invariant, whatever the state
    before. *)
Lemma set_enabled_establishes (v : bool) (p : P5 Num) (w : Widget Num) :
  disabled_iff_not_enabled (exec (P5Component_set_enabled v) p w).
Proof.
  destruct w as [b e o]. unfold disabled_iff_not_enabled, P5Component_set_enabled.
  autounfold with methods. destruct v, e; cbn; split; discriminate || reflexivity.
Qed.

Lemma set_enabled_keeps v :
  keeps_invariant (Num := Num) (P5Component_set_enabled v).
Proof. destruct v; unfold P5Component_set_enabled; invariant. Qed.

Lemma handleMousePressed_keeps :
  keeps_invariant (Num := Num) _handleMousePressed.
Proof.
  unfold _handleMousePressed, P5TextBox__handleMousePressed,
    P5Component__handleMousePressed. invariant.
Qed.

Lemma handleMouseReleased_keeps :
  keeps_invariant (Num := Num) P5Component__handleMouseReleased.
Proof. unfold P5Component__handleMouseReleased. invariant. Qed.

Lemma handleMouseOver_keeps :
  keeps_invariant (Num := Num) P5Component__handleMouseOver.
Proof. unfold P5Component__handleMouseOver. invariant. Qed.

Lemma handleMouseOut_keeps :
  keeps_invariant (Num := Num) P5Component__handleMouseOut.
Proof. unfold P5Component__handleMouseOut. invariant. Qed.

Lemma focus_keeps : keeps_invariant (Num := Num) focus.
Proof. invariant. Qed.

Lemma blur_keeps : keeps_invariant (Num := Num) blur.
Proof. invariant. Qed.

Lemma keyPressed_keeps : keeps_invariant (Num := Num) p5_keyPressed.
Proof. invariant. Qed.

Lemma keyTyped_keeps : keeps_invariant (Num := Num) p5_keyTyped.
Proof. invariant. Qed.

Lemma setup_keeps : keeps_invariant (Num := Num) p5_setup.
Proof.
  unfold p5_setup, setup, P5TextBox_setup, P5Label_setup, P5Label__adjustSize,
    _resizeCanvas. invariant.
Qed.

Lemma blinkTick_keeps : keeps_invariant (Num := Num) blinkTick.
Proof. unfold blinkTick. invariant. Qed.

Lemma set_visible_keeps v :
  keeps_invariant (Num := Num) (P5Component_set_visible v).
Proof. unfold P5Component_set_visible. invariant. Qed.

Lemma set_text_keeps v : keeps_invariant (Num := Num) (set_text v).
Proof.
  unfold set_text, P5Label_set_text, P5Component_set_text, P5Label__adjustSize,
    _resizeCanvas. invariant.
Qed.

Lemma clear_keeps : keeps_invariant (Num := Num) clear.
Proof. unfold clear. invariant. Qed.

Lemma selectAll_keeps : keeps_invariant (Num := Num) selectAll.
Proof. unfold selectAll. invariant. Qed.

Lemma typed_keeps {A} (coerce : JsValue Num -> option A) (set : A -> M Num unit) :
  (forall a, keeps_invariant (Num := Num) (set a)) ->
  accessor_keeps (Num := Num) (typed coerce set).
Proof.
  intros Hset v m. simpl. destruct (coerce v); [|discriminate].
  intros [= <-]. apply Hset.
Qed.

Lemma keyed_keeps (table : list (string * Accessor)) (key : string) :
  Forall (fun e => accessor_keeps (Num := Num) (snd e)) table ->
  accessor_keeps (Num := Num) (keyed table key).
Proof.
  intros Hall. unfold keyed.
  destruct (List.find _ table) as [e|] eqn:E; [|exact I].
  apply find_some in E as [Hin _].
  rewrite Forall_forall in Hall. apply Hall. now apply list_elem_of_In.
Qed.

Ltac setter_keeps :=
  apply typed_keeps; intros ?;
  first [ apply set_enabled_keeps | apply set_visible_keeps
        | unfold P5Component_set_name, P5Component_set_text,
            P5Component_set_left, P5Component_set_top, P5Component_set_width,
            P5Component_set_height, P5Component_set_backColor,
            P5Component_set_foreColor, P5Component_set_fontSize,
            P5Component_set_fontFamily, P5Component_set_borderColor,
            P5Component_set_borderWidth, P5Button_set_hoverColor,
            P5Button_set_activeColor, P5Button_set_disabledColor,
            P5Button_set_cornerRadius, P5TextBox_set_placeholder,
            P5TextBox_set_maxLength, P5TextBox_set_readOnly,
            P5TextBox_set_passwordChar, P5TextBox_set_multiline,
            P5TextBox_set_textAlign, P5Label_set_textAlign,
            P5Label_set_verticalAlign, P5Label_set_autoSize,
            P5Label_set_wordWrap, P5Label_set_fontStyle,
            P5Label_set_underline, P5Label_set_strikethrough,
            P5Label_set_text, P5Label__adjustSize, _updatePosition,
            _resizeCanvas;
          invariant ].

Lemma accessors_keep (k : Kind) :
  Forall (fun e => accessor_keeps (Num := Num) (snd e)) (accessors k).
Proof.
  destruct k; unfold accessors, P5Component_accessors, P5Button_accessors,
    P5TextBox_accessors, P5Label_accessors; cbn [app];
    repeat (apply Forall_cons; split; [first [exact I | setter_keeps]|]);
    apply Forall_nil; exact I.
Qed.

Lemma assign_keeps (key : string) (v : JsValue Num) (p : P5 Num)
    (w w' : Widget Num) (t : list (Effect Num)) :
  disabled_iff_not_enabled w -> assign key v p w = Some (w', t) ->
  disabled_iff_not_enabled w'.
Proof.
  intros Hinv. unfold assign.
  pose proof (keyed_keeps (accessors (kind w)) key (accessors_keep _)) as Hk.
  destruct (keyed _ key) as [set| |]; simpl in Hk.
  - destruct (set v) as [m|] eqn:E; [|discriminate].
    intros [= <- <-]. now apply (Hk v m E).
  - discriminate.
  - destruct (internal _ key); [discriminate|].
    intros [= <- <-]. exact Hinv.
Qed.

Lemma fromJSON_keeps (json : Json Num) (p : P5 Num) :
  forall (w w' : Widget Num) (t : list (Effect Num)),
    disabled_iff_not_enabled w -> fromJSON json p w = Some (w', t) ->
    disabled_iff_not_enabled w'.
Proof.
  induction json as [|[key v] rest IH]; intros w w' t Hinv; simpl.
  - now intros [= <- <-].
  - destruct (negb _ && _); [|now apply IH].
    destruct (assign key v p w) as [[w1 t1]|] eqn:E; [|discriminate].
    destruct (fromJSON rest p w1) as [[w2 t2]|] eqn:E2; [|discriminate].
    intros [= <- <-]. eapply IH; [|exact E2]. eapply assign_keeps; eauto.
Qed.

(** No operation on a widget breaks [state === 'disabled'] iff
    [enabled === false]. *)
Lemma step_keeps (op : Op Num) (p : P5 Num) (w w' : Widget Num)
    (t : list (Effect Num)) :
  disabled_iff_not_enabled w -> step op p w = Some (w', t) ->
  disabled_iff_not_enabled w'.
Proof.
  intros Hinv.
  destruct op; simpl; unfold run;
    try (intros [= <- <-];
         first [ now apply handleMousePressed_keeps
               | now apply handleMouseReleased_keeps
               | now apply handleMouseOver_keeps
               | now apply handleMouseOut_keeps
               | now apply keyPressed_keeps
               | now apply keyTyped_keeps
               | now apply setup_keeps
               | now apply blinkTick_keeps
               | now apply focus_keeps
               | now apply blur_keeps
               | now apply set_enabled_keeps
               | now apply set_visible_keeps
               | now apply set_text_keeps ]).
  - now apply assign_keeps.
  - now apply fromJSON_keeps.
  - destruct (kind w); try discriminate.
    intros [= <- <-]. now apply clear_keeps.
  - destruct (kind w); try discriminate.
    intros [= <- <-]. now apply selectAll_keeps.
Qed.

(** Hence the invariant holds in every state reached from a widget that
    satisfied it when it was built, as every widget built enabled does. *)
Lemma reached_keeps_invariant (ops : list (Op Num * P5 Num)) :
  forall (w w' : Widget Num) (t : list (Effect Num)),
    disabled_iff_not_enabled w -> steps ops w = Some (w', t) ->
    disabled_iff_not_enabled w'.
Proof.
  induction ops as [|[op p] rest IH]; intros w w' t Hinv; simpl.
  - now intros [= <- <-].
  - destruct (step op p w) as [[w1 t1]|] eqn:E; [|discriminate].
    destruct (steps rest w1) as [[w2 t2]|] eqn:E2; [|discriminate].
    intros [= <- <-]. eapply IH; [|exact E2]. eapply step_keeps; eauto.
Qed.

Lemma constructed_enabled_invariant (k : Kind) (now : string) (o : Options.t Num) :
  Component._enabled (base (construct k now o)) = true ->
  disabled_iff_not_enabled (construct k now o).
Proof.
  unfold disabled_iff_not_enabled. intros ->.
  destruct k; cbn; split; discriminate.
Qed.

End StateMachine.

(* ===================================================================== *)
(** * Click synthesis *)
(* ===================================================================== *)

Section Click.
Context {Num : Type} {NumOps : JsNumber Num}.

(** C4, as the code has it.  On an enabled widget of any kind a pointer
    press emits no [click], and neither does a release while the pointer is
    outside, which still emits [mouseUp].  In the sequence press, leave,
    release: after the leave the pointer is outside and the widget is still
    pressed, in state [active], or [focused] when it is an editable text box,
    which the press has focused; no [click] is emitted in the whole sequence,
    the release emits [mouseUp], and the final state is [normal]. *)
Theorem drag_out_release_emits_no_click
    (p1 p2 p3 : P5 Num) (w : Widget Num) :
  Component._enabled (base w) = true ->
  emits "click" (trace _handleMousePressed p1 w) = false
  /\ (Component._mouseInside (base w) = false ->
      emits "click" (trace P5Component__handleMouseReleased p3 w) = false
      /\ emits "mouseUp" (trace P5Component__handleMouseReleased p3 w) = true)
  /\ Component._mouseInside (base (dragged_out p1 p2 w)) = false
  /\ Component._mousePressed (base (dragged_out p1 p2 w)) = true
  /\ Component._state (base (dragged_out p1 p2 w))
     = (if editable_textbox w then focused else active)
  /\ emits "click" (drag_out_trace p1 p2 p3 w) = false
  /\ emits "mouseUp"
       (trace P5Component__handleMouseReleased p3 (dragged_out p1 p2 w)) = true
  /\ Component._state (base (released_outside p1 p2 p3 w)) = normal.
Proof.
  destruct w as [b e o].
  destruct b as [? ? ? ? ? ? en ? ? ? ? ? ? ? ? st ? inside down].
  cbn [base Component._enabled Component._mouseInside]. intros ->.
  unfold drag_out_trace, released_outside, dragged_out, pressed,
    editable_textbox, _handleMousePressed, P5TextBox__handleMousePressed,
    P5Component__handleMousePressed, P5Component__handleMouseOut,
    P5Component__handleMouseReleased.
  autounfold with methods.
  destruct e as [ | bt | t | l]; cbn.
  3: destruct t as [? ? ? ro ? ? al ? ? ? ? ? ? ? bl]; destruct ro, bl;
       cbn; destruct (String.eqb al "left"); cbn.
  all: destruct inside;
    repeat match goal with
           | |- _ /\ _ => split
           | |- _ -> _ => intros ?
           end; try discriminate; reflexivity.
Qed.

End Click.

Lemma drag_out_release_emits_no_click_witness :
  Component._state (base (dragged_out p5_example p5_example textbox_abc))
  = focused
  /\ emits "click" (drag_out_trace p5_example p5_example p5_example textbox_abc)
     = false
  /\ Component._state
       (base (released_outside p5_example p5_example p5_example textbox_abc))
     = normal.
Proof.
  pose proof (drag_out_release_emits_no_click p5_example p5_example p5_example
                textbox_abc eq_refl)
    as (_ & _ & _ & _ & Hstate & Hclick & _ & Hfinal).
  split; [exact Hstate|]. split; [exact Hclick | exact Hfinal].
Defined.

(** C4, the claim as stated, fails on an editable text box: the press
    focuses it, so between the leave and the release its state is [focused],
    not [active]. *)
Lemma editable_textbox_is_focused_when_dragged_out :
  reachable textbox_abc
  /\ ~ stays_active_when_dragged_out p5_example p5_example textbox_abc
  /\ ~ drag_out_law (Num := Z).
Proof.
  assert (Hreach : reachable textbox_abc)
    by (apply reachable_new; apply constructed_textbox).
  assert (Hno : ~ stays_active_when_dragged_out p5_example p5_example textbox_abc).
  { intros H. destruct (H eq_refl) as [Hstate _].
    vm_compute in Hstate. discriminate Hstate. }
  split; [exact Hreach|]. split; [exact Hno|].
  intros Hlaw. exact (Hno (Hlaw p5_example p5_example textbox_abc Hreach)).
Qed.

(* ===================================================================== *)
(** * Text editing *)
(* ===================================================================== *)

Section TextEditing.
Context {Num : Type} {NumOps : JsNumber Num}.

Lemma str_drop_cons (n : nat) (s : string) :
  (n < String.length s)%nat ->
  exists c, str_drop n s = String c (str_drop (S n) s).
Proof.
  revert s; induction n as [|n IH]; intros [|a s]; simpl; intros Hn; try lia.
  - exists a. now destruct s.
  - destruct (IH s) as [c Hc]; [lia|]. exists c. rewrite Hc. now destruct s.
Qed.

Lemma handleKeyTyped_cursor_in_range (p : P5 Num) (w : Widget Num) :
  cursor_in_range w -> cursor_in_range (exec handleKeyTyped p w).
Proof.
  destruct w as [b [ | bt | t | l] o]; unfold cursor_in_range;
    autounfold with methods; cbn; intros Hin; split_ifs;
    try exact I; try assumption.
  bool_facts.
  rewrite substring_prefix, substring_suffix, !length_append, length_str_take,
    length_str_drop. lia.
Qed.

Lemma handleKeyPressed_cursor_in_range (p : P5 Num) (w : Widget Num) :
  cursor_in_range w -> cursor_in_range (exec handleKeyPressed p w).
Proof.
  destruct w as [b [ | bt | t | l] o]; unfold cursor_in_range;
    autounfold with methods; cbn; intros Hin; split_ifs;
    try exact I; try assumption; bool_facts;
    rewrite ?substring_prefix, ?substring_suffix, ?length_append,
      ?length_str_take, ?length_str_drop; lia.
Qed.

Lemma clear_cursor_in_range (p : P5 Num) (w : Widget Num) :
  cursor_in_range (exec clear p w).
Proof.
  destruct w as [b [ | bt | t | l] o]; unfold cursor_in_range, clear;
    autounfold with methods; cbn; try exact I. lia.
Qed.

Lemma edit_cursor_in_range (op : EditOp) (p : P5 Num) (w : Widget Num) :
  cursor_in_range w -> cursor_in_range (edit op p w).
Proof.
  destruct op; simpl;
    auto using handleKeyTyped_cursor_in_range, handleKeyPressed_cursor_in_range.
Qed.

(** C9.  From a text input whose cursor lies within its value, every state
    that a sequence of insert, backspace and delete operations goes through
    has its cursor within its value: there is one state per operation, and
    the invariant holds in each. *)
Theorem edits_keep_cursor_in_range
    (ops : list (EditOp * P5 Num)) (w : Widget Num) :
  cursor_in_range w ->
  List.length (edits ops w) = List.length ops
  /\ Forall cursor_in_range (edits ops w).
Proof.
  revert w; induction ops as [|[op p] ops IH]; intros w Hin; simpl.
  - split; [reflexivity | constructor].
  - destruct (IH (edit op p w)) as [Hlen Hall].
    + now apply edit_cursor_in_range.
    + split; [now rewrite Hlen|].
      constructor; [now apply edit_cursor_in_range | assumption].
Qed.

(** C3.  A printable character typed into a focused text input is rejected
    when the input is read-only or full, leaving the widget as it was and
    emitting nothing; otherwise it is inserted at the cursor, the cursor moves
    one to the right, and [change] is emitted before [keyPress].  With
    [maxLength] 3, typing a, b, c gives "abc" with the cursor at 3, and a
    further d changes nothing. *)
Theorem typed_character_is_inserted
    (p : P5 Num) (w : Widget Num) (t : TextBox.Fields Num) (c : ascii) :
  ext w = ETextBox t ->
  Component._state (base w) = focused ->
  key p = String c EmptyString ->
  32 <= Z.of_nat (nat_of_ascii c) ->
  let value := Component._text (base w) in
  let cursor := TextBox._cursorPosition t in
  (TextBox._readOnly t = true \/ TextBox._maxLength t <= text_length w ->
   p5_keyTyped p w = (tt, w, []))
  /\ (TextBox._readOnly t = false -> text_length w < TextBox._maxLength t ->
      p5_keyTyped p w =
        (tt, with_text_and_cursor (inserted (key p) cursor value) (cursor + 1) w,
         [Emit "change" [PStr (inserted (key p) cursor value)];
          Emit "keyPress" [PKey (key p) (charCodeAt0 (key p))];
          Redraw]))
  /\ (forall (now : string) (p0 : P5 Num),
        let typing k := (KeyTyped, pressing k (charCodeAt0 k) p0) in
        exists w3 t3,
          steps [(Focus, p0); typing "a"; typing "b"; typing "c"]
                (new_P5TextBox now (Options.with_maxLength 3 Options.empty))
          = Some (w3, t3)
          /\ Component._text (base w3) = "abc"
          /\ cursorPosition w3 = 3
          /\ steps [typing "d"] w3 = Some (w3, [])).
Proof.
  destruct w as [b e o]. intros Hext Hst Hk Hc; simpl in Hext, Hst; subst e.
  cbv zeta. split; [|split].
  - intros [Hro | Hfull].
    + autounfold with methods. crunch. reflexivity.
    + apply Z.ltb_ge in Hfull. unfold text_length in Hfull; simpl in Hfull.
      autounfold with methods. crunch.
      destruct (TextBox._readOnly t); cbn; [reflexivity|].
      destruct (32 <=? Z.of_nat (nat_of_ascii c)); reflexivity.
  - intros Hro Hlen.
    apply Z.leb_le in Hc. apply Z.ltb_lt in Hlen.
    unfold text_length in Hlen; simpl in Hlen.
    autounfold with methods. crunch.
    unfold with_text_and_cursor, inserted; cbn.
    rewrite substring_prefix, substring_suffix. reflexivity.
  - intros now p0.
    unfold new_P5TextBox, P5Component_constructor, Options.defaults, or_default.
    cbn -[steps]. rewrite !num_truthy_of_Z. cbn -[steps].
    eexists; eexists. split; [vm_compute; reflexivity|].
    split; [reflexivity|]. split; [reflexivity|]. vm_compute. reflexivity.
Qed.

(** What Backspace does to a text input.  It does nothing when the input
    is read-only, empty, or has its cursor at the start; otherwise the value
    becomes [value[0:cursor-1] + value[cursor:]], the cursor moves one to the
    left, and [change] is emitted before [keyPress].  When the cursor lies
    within the value the value loses exactly the character before the
    cursor.  This is what the key does to a focused text input, which is when
    p5 delivers it.  At cursor 0 with value "x" it leaves both as they
    are. *)
Lemma backspace_result
    (p : P5 Num) (w : Widget Num) (t : TextBox.Fields Num) :
  ext w = ETextBox t ->
  keyCode p = BACKSPACE p ->
  let value := Component._text (base w) in
  let cursor := TextBox._cursorPosition t in
  (TextBox._readOnly t = true \/ value = EmptyString \/ cursor <= 0 ->
   exec handleKeyPressed p w = w /\ trace handleKeyPressed p w = [])
  /\ (TextBox._readOnly t = false -> value <> EmptyString -> 0 < cursor ->
      handleKeyPressed p w =
        (Some false,
         with_text_and_cursor (removed_before cursor value) (cursor - 1) w,
         [Emit "change" [PStr (removed_before cursor value)];
          Emit "keyPress" [PKey "Backspace" (keyCode p)];
          Redraw])
      /\ (cursor <= text_length w ->
          exists before c after,
            value = before +:+ String c after
            /\ Z.of_nat (String.length before) = cursor - 1
            /\ removed_before cursor value = before +:+ after))
  /\ (Component._state (base w) = focused ->
      p5_keyPressed p w
      = (tt, exec handleKeyPressed p w, trace handleKeyPressed p w))
  /\ (value = "x" -> cursor = 0 ->
      Component._text (base (exec handleKeyPressed p w)) = "x"
      /\ cursorPosition (exec handleKeyPressed p w) = 0).
Proof.
  destruct w as [b e o]. intros Hext Hk; simpl in Hext; subst e.
  cbv zeta. cbn [base ext own].
  assert (Hnoop : TextBox._readOnly t = true \/ Component._text b = EmptyString
                  \/ TextBox._cursorPosition t <= 0 ->
                  exec handleKeyPressed p {| base := b; ext := ETextBox t; own := o |}
                  = {| base := b; ext := ETextBox t; own := o |}
                  /\ trace handleKeyPressed p
                       {| base := b; ext := ETextBox t; own := o |} = []).
  { intros [Hro | [Hempty | Hzero]].
    - autounfold with methods. crunch. split; reflexivity.
    - autounfold with methods. crunch.
      destruct (TextBox._readOnly t); cbn; [split; reflexivity|].
      rewrite Z.eqb_refl. split; reflexivity.
    - apply Z.ltb_ge in Hzero.
      autounfold with methods. crunch.
      destruct (TextBox._readOnly t); cbn; [split; reflexivity|].
      rewrite Z.eqb_refl, andb_false_r. split; reflexivity. }
  split; [exact Hnoop|]. split; [|split].
  - intros Hro Hne Hpos. split.
    + assert (Hlen : (0 <? Z.of_nat (String.length (Component._text b))) = true).
      { apply Z.ltb_lt. destruct (Component._text b); [congruence | simpl; lia]. }
      apply Z.ltb_lt in Hpos.
      autounfold with methods. crunch. rewrite Z.eqb_refl. crunch.
      unfold with_text_and_cursor, removed_before; cbn.
      rewrite substring_prefix, substring_suffix. reflexivity.
    + unfold text_length; simpl. intros Hin.
      destruct (str_drop_cons (Z.to_nat (TextBox._cursorPosition t - 1))
                  (Component._text b)) as [c Hc]; [lia|].
      exists (str_take (Z.to_nat (TextBox._cursorPosition t - 1))
                (Component._text b)),
        c, (str_drop (Z.to_nat (TextBox._cursorPosition t)) (Component._text b)).
      replace (Z.to_nat (TextBox._cursorPosition t))
        with (S (Z.to_nat (TextBox._cursorPosition t - 1))) by lia.
      rewrite <- Hc, str_take_drop, length_str_take.
      split; [reflexivity|]. split; [lia|].
      unfold removed_before. do 2 f_equal. lia.
  - intros Hst. unfold p5_keyPressed, exec, trace, bind, this, ret.
    cbn [base Component._state]. rewrite Hst. cbn [state_eqb].
    destruct (handleKeyPressed p _) as [[r w1] t1]. cbn.
    now rewrite app_nil_r.
  - intros Hx H0. destruct Hnoop as [-> _]; [right; right; lia|].
    unfold cursorPosition; simpl. auto.
Qed.

(** Nothing is left of a string beyond its end. *)
Lemma str_drop_all (n : nat) (s : string) :
  (String.length s <= n)%nat -> str_drop n s = EmptyString.
Proof.
  revert s; induction n as [|n IH]; intros [|c s]; simpl; intros Hn;
    try reflexivity; try lia.
  apply IH. lia.
Qed.

(** C8, beyond the value.  Where the cursor lies beyond the end of the
    value, which is where the text setter leaves it when the new value is
    shorter, Backspace in a text input that is not read-only and not empty
    removes no character: the value stays as it was, and yet the cursor
    moves one to the left and [change], with the unchanged value, and
    [keyPress] are emitted.  Within the value Backspace removes exactly the
    character before the cursor. *)
Theorem backspace_beyond_value_removes_nothing
    (p : P5 Num) (w : Widget Num) (t : TextBox.Fields Num) :
  ext w = ETextBox t ->
  keyCode p = BACKSPACE p ->
  TextBox._readOnly t = false ->
  Component._text (base w) <> EmptyString ->
  let value := Component._text (base w) in
  let cursor := TextBox._cursorPosition t in
  (text_length w < cursor ->
   handleKeyPressed p w =
     (Some false, with_text_and_cursor value (cursor - 1) w,
      [Emit "change" [PStr value];
       Emit "keyPress" [PKey "Backspace" (keyCode p)];
       Redraw]))
  /\ (0 < cursor <= text_length w ->
      exists before c after,
        value = before +:+ String c after
        /\ Z.of_nat (String.length before) = cursor - 1
        /\ handleKeyPressed p w =
             (Some false, with_text_and_cursor (before +:+ after) (cursor - 1) w,
              [Emit "change" [PStr (before +:+ after)];
               Emit "keyPress" [PKey "Backspace" (keyCode p)];
               Redraw])).
Proof.
  intros Hext Hk Hro Hne. cbv zeta.
  destruct (backspace_result p w t Hext Hk) as (_ & Hedit & _).
  split.
  - intros Hbeyond.
    assert (Hsame : removed_before (TextBox._cursorPosition t)
                      (Component._text (base w)) = Component._text (base w)).
    { unfold removed_before. unfold text_length in Hbeyond.
      rewrite str_take_all, str_drop_all by lia.
      clear. induction (Component._text (base w)) as [|c s IH];
        [reflexivity | now rewrite append_cons, IH]. }
    destruct (Hedit Hro Hne) as [Hrun _].
    + pose proof (Nat2Z.is_nonneg (String.length (Component._text (base w)))).
      unfold text_length in Hbeyond. lia.
    + rewrite Hrun, Hsame. reflexivity.
  - intros [Hpos Hin].
    destruct (Hedit Hro Hne Hpos) as [Hrun Hone].
    destruct (Hone Hin) as (before & c & after & Hvalue & Hlen & Hrem).
    exists before, c, after. split; [exact Hvalue|]. split; [exact Hlen|].
    now rewrite Hrun, Hrem.
Qed.

End TextEditing.

Lemma typed_character_is_inserted_witness :
  p5_keyTyped (pressing "c" 99 p5_example) textbox_ab
  = (tt, with_text_and_cursor "abc" 3 textbox_ab,
     [Emit "change" [PStr "abc"]; Emit "keyPress" [PKey "c" 99]; Redraw]).
Proof.
  refine (proj1 (proj2 (typed_character_is_inserted
                          (pressing "c" 99 p5_example) textbox_ab
                          textbox_ab_fields "c"%char _ _ _ _)) _ _);
    vm_compute; try reflexivity; discriminate.
Defined.

Lemma backspace_beyond_value_removes_nothing_witness :
  handleKeyPressed (pressing "Backspace" 8 p5_example) textbox_a_at_3
  = (Some false, with_text_and_cursor "a" 2 textbox_a_at_3,
     [Emit "change" [PStr "a"]; Emit "keyPress" [PKey "Backspace" 8]; Redraw]).
Proof.
  refine (proj1 (backspace_beyond_value_removes_nothing
                   (pressing "Backspace" 8 p5_example)
                   textbox_a_at_3 textbox_a_at_3_fields _ _ _ _) _);
    vm_compute; try reflexivity; discriminate.
Defined.

(** The failing input from construction: the text box built with "abc" is
    given the text "a" through the setter and focused; Backspace then leaves
    "a", moves the cursor from 3 to 2 and emits [change]. *)
Lemma backspace_after_text_setter_scenario :
  exists w1 t1 w2 t2,
    steps [(Assign "text" (JStr "a"), p5_example); (Focus, p5_example)]
          textbox_abc
    = Some (w1, t1)
    /\ Component._text (base w1) = "a"
    /\ cursorPosition w1 = 3
    /\ steps [(KeyPressed, pressing "Backspace" 8 p5_example)] w1 = Some (w2, t2)
    /\ Component._text (base w2) = "a"
    /\ cursorPosition w2 = 2
    /\ t2 = [Emit "change" [PStr "a"]; Emit "keyPress" [PKey "Backspace" 8];
             Redraw].
Proof.
  eexists; eexists; eexists; eexists.
  split; [vm_compute; reflexivity|].
  split; [reflexivity|]. split; [reflexivity|].
  split; [vm_compute; reflexivity|].
  split; [reflexivity|]. split; reflexivity.
Qed.


(** The two scenarios of the specification, from construction: three
    characters typed into a text box with [maxLength] 3 and a fourth
    refused; backspace at the start of "x". *)
Lemma max_length_scenario :
  let typing k := (KeyTyped, pressing k (charCodeAt0 k) p5_example) in
  exists w3 t3,
    steps [(Focus, p5_example); typing "a"; typing "b"; typing "c"] textbox_max3
    = Some (w3, t3)
    /\ Component._text (base w3) = "abc"
    /\ cursorPosition w3 = 3
    /\ steps [typing "d"] w3 = Some (w3, []).
Proof.
  eexists; eexists. split; [vm_compute; reflexivity|].
  split; [reflexivity|]. split; [reflexivity|]. vm_compute. reflexivity.
Qed.

Lemma backspace_at_start_scenario :
  exists w0 t0,
    steps [(Focus, p5_example); (KeyPressed, pressing "ArrowLeft" 37 p5_example)]
          textbox_x
    = Some (w0, t0)
    /\ Component._text (base w0) = "x"
    /\ cursorPosition w0 = 0
    /\ steps [(KeyPressed, pressing "Backspace" 8 p5_example)] w0 = Some (w0, []).
Proof.
  eexists; eexists. split; [vm_compute; reflexivity|].
  split; [reflexivity|]. split; [reflexivity|]. vm_compute. reflexivity.
Qed.

Lemma edits_keep_cursor_in_range_witness :
  cursor_in_range textbox_ab
  /\ Forall cursor_in_range
       (edits [(Insert "c", p5_example); (Backspace, p5_example);
               (Backspace, p5_example); (DeleteForward, p5_example);
               (Backspace, p5_example); (Backspace, p5_example)]
              textbox_ab).
Proof.
  assert (H : cursor_in_range textbox_ab) by (vm_compute; split; discriminate).
  split; [exact H|].
  apply (edits_keep_cursor_in_range _ textbox_ab H).
Defined.

Section TextSetter.
Context {Num : Type} {NumOps : JsNumber Num}.

(** C2, the text setter.  Assigning [text] on a text input stores the value
    and leaves [cursorPosition] where it was, so a value shorter than the
    cursor position leaves the cursor beyond the end of the value. *)
Theorem text_setter_keeps_cursor
    (p : P5 Num) (w : Widget Num) (t : TextBox.Fields Num) (value : string) :
  ext w = ETextBox t ->
  exists w' tr,
    assign "text" (JStr value) p w = Some (w', tr)
    /\ Component._text (base w') = value
    /\ cursorPosition w' = TextBox._cursorPosition t
    /\ (Z.of_nat (String.length value) < TextBox._cursorPosition t ->
        ~ cursor_in_range w').
Proof.
  destruct w as [b e o]. intros Hext; simpl in Hext; subst e.
  eexists; eexists. split; [lazy -[insert]; reflexivity|].
  split; [reflexivity|]. split; [reflexivity|].
  unfold cursor_in_range, text_length; cbn. lia.
Qed.

End TextSetter.

Lemma text_setter_keeps_cursor_witness :
  cursor_in_range textbox_abc
  /\ exists w' tr,
       assign "text" (JStr "") p5_example textbox_abc = Some (w', tr)
       /\ Component._text (base w') = ""
       /\ cursorPosition w' = 3
       /\ (0 < 3 -> ~ cursor_in_range w').
Proof.
  split; [vm_compute; split; discriminate|].
  apply (text_setter_keeps_cursor p5_example textbox_abc textbox_abc_fields "").
  reflexivity.
Defined.

(* ===================================================================== *)
(** * Click-to-cursor mapping *)
(* ===================================================================== *)

Section ClickMapping.
Context {Num : Type} {NumOps : JsNumber Num}.

Lemma length_list_ascii (s : string) :
  List.length (list_ascii_of_string s) = String.length s.
Proof. induction s as [|c s IH]; simpl; [reflexivity | now rewrite IH]. Qed.

Lemma get_list_ascii (s : string) (i : nat) :
  String.get i s = list_ascii_of_string s !! i.
Proof.
  revert i; induction s as [|c s IH]; intros [|i]; simpl; try reflexivity.
  apply IH.
Qed.

Lemma charAt_glyph (s : string) (i : nat) :
  charAt s (Z.of_nat i) = glyph s i.
Proof.
  unfold charAt, glyph.
  destruct (Z.of_nat i <? 0) eqn:E; [apply Z.ltb_lt in E; lia|].
  now rewrite Nat2Z.id, get_list_ascii.
Qed.

Lemma width_before_S (p : P5 Num) (s : string) (i : nat) :
  (i < String.length s)%nat ->
  width_before p s (S i) = num_add (width_before p s i) (textWidth p (glyph s i)).
Proof.
  intros Hi. unfold width_before, glyph.
  destruct (list_ascii_of_string s !! i) as [c|] eqn:E.
  - rewrite (take_S_r _ _ _ E), fold_left_app. reflexivity.
  - apply lookup_ge_None in E. rewrite length_list_ascii in E. lia.
Qed.

(** The loop from index [i] on, with the width of the first [i] glyphs
    accumulated: it stops at the first index the test holds for, and runs
    past the end otherwise. *)
Lemma click_loop_find (p : P5 Num) (clickOffset : Num) (s : string) (k : nat) :
  forall (i : nat) (position : Z),
    (i + k = String.length s)%nat ->
    let test j := num_gt (num_add (width_before p s j)
                            (num_div (textWidth p (glyph s j)) (num_of_Z 2)))
                         clickOffset in
    match List.find test (seq i k) with
    | Some j =>
        click_loop p clickOffset s (S k) (Z.of_nat i) (width_before p s i) position
        = Z.of_nat j /\ (j < String.length s)%nat
    | None =>
        Z.of_nat (String.length s)
        <= click_loop p clickOffset s (S k) (Z.of_nat i) (width_before p s i) position
    end.
Proof.
  induction k as [|k IH]; intros i position Hik test.
  - simpl. rewrite charAt_glyph.
    destruct (num_gt _ _); lia.
  - cbn [seq List.find]. unfold test at 1.
    change (click_loop p clickOffset s (S (S k)) (Z.of_nat i)
              (width_before p s i) position)
      with (let char := charAt s (Z.of_nat i) in
            let charWidth := textWidth p char in
            if num_gt (num_add (width_before p s i)
                         (num_div charWidth (num_of_Z 2))) clickOffset
            then Z.of_nat i
            else click_loop p clickOffset s (S k) (Z.of_nat i + 1)
                   (num_add (width_before p s i) charWidth) (Z.of_nat i + 1)).
    cbv zeta. rewrite charAt_glyph.
    destruct (num_gt _ _) eqn:E.
    + split; [reflexivity | lia].
    + rewrite <- width_before_S by lia.
      replace (Z.of_nat i + 1) with (Z.of_nat (S i)) by lia.
      apply (IH (S i)). lia.
Qed.

Lemma click_position_target (p : P5 Num) (clickOffset : Num) (s : string) :
  Z.max 0 (Z.min (click_position p clickOffset s) (Z.of_nat (String.length s)))
  = click_target p clickOffset s.
Proof.
  unfold click_target, click_position.
  pose proof (click_loop_find p clickOffset s (String.length s) 0 0 eq_refl)
    as Hloop.
  cbv zeta in Hloop. change (Z.of_nat 0) with 0 in Hloop.
  change (width_before p s 0) with (num_of_Z 0) in Hloop.
  destruct (List.find _ _) as [j|]; [destruct Hloop as [-> Hj]|]; lia.
Qed.

(** C7, as the code has it.  A pointer press on an enabled, editable text
    input aligned left puts the cursor on the click target among the
    characters of the value: the first index at which the width accumulated
    from the left over the characters of the value plus half the width of
    the next one exceeds the click's offset from the left padding, and the
    end of the value when there is no such index.  Where the rendered string
    is the value itself, this is the target among the rendered characters. *)
Theorem press_puts_cursor_on_click_target
    (p : P5 Num) (w : Widget Num) (t : TextBox.Fields Num) :
  ext w = ETextBox t ->
  Component._enabled (base w) = true ->
  TextBox._readOnly t = false ->
  TextBox._textAlign t = "left" ->
  cursorPosition (exec _handleMousePressed p w)
  = click_target p (num_sub (mouseX p) (TextBox._padding t))
      (Component._text (base w))
  /\ (rendered p w = Component._text (base w) ->
      cursorPosition (exec _handleMousePressed p w)
      = rendered_click_target p (num_sub (mouseX p) (TextBox._padding t)) w).
Proof.
  destruct w as [b e o]. intros Hext Hen Hro Hal; simpl in Hext, Hen; subst e.
  assert (Hvalue :
    cursorPosition (exec _handleMousePressed p
                      {| base := b; ext := ETextBox t; own := o |})
    = click_target p (num_sub (mouseX p) (TextBox._padding t))
        (Component._text b)).
  { rewrite <- click_position_target.
    unfold _handleMousePressed, P5TextBox__handleMousePressed,
      P5Component__handleMousePressed.
    autounfold with methods. crunch.
    destruct (TextBox.blinkListeners t); reflexivity. }
  split; [exact Hvalue|].
  intros Hshown. rewrite Hvalue.
  unfold rendered_click_target, click_target, text_length.
  rewrite Hshown. reflexivity.
Qed.

End ClickMapping.

(** C7, the claim as stated, fails on a password field: the rendered
    characters are asterisks, 8 wide each, while the walk measures the
    characters of the value, 2 wide each.  A press at offset 9 puts the
    cursor at the end, 3, where the walk over the rendered "***" stops
    at 1. *)
Lemma password_click_walks_the_value :
  reachable textbox_password
  /\ rendered p5_thin textbox_password = "***"
  /\ rendered_click_target p5_thin
       (num_sub (mouseX p5_thin) (TextBox._padding textbox_password_fields))
       textbox_password = 1
  /\ cursorPosition (exec _handleMousePressed p5_thin textbox_password) = 3
  /\ ~ click_mapping_law (Num := Z).
Proof.
  assert (Hreach : reachable textbox_password).
  { apply (reachable_step textbox_abc (Assign "passwordChar" (JStr "*"))
             p5_example _
             (trace (P5TextBox_set_passwordChar (Some "*"%string)) p5_example
                textbox_abc)).
    - apply reachable_new. apply constructed_textbox.
    - vm_compute. reflexivity. }
  split; [exact Hreach|].
  split; [vm_compute; reflexivity|].
  split; [vm_compute; reflexivity|].
  split; [vm_compute; reflexivity|].
  intros Hlaw.
  specialize (Hlaw p5_thin textbox_password textbox_password_fields Hreach
                eq_refl eq_refl eq_refl eq_refl).
  vm_compute in Hlaw. discriminate Hlaw.
Qed.

Lemma press_puts_cursor_on_click_target_witness :
  cursorPosition (exec _handleMousePressed p5_click textbox_abc) = 2.
Proof.
  rewrite (proj1 (press_puts_cursor_on_click_target p5_click textbox_abc
                    textbox_abc_fields eq_refl eq_refl eq_refl eq_refl)).
  vm_compute. reflexivity.
Defined.

(* ===================================================================== *)
(** * The JSON round trip *)
(* ===================================================================== *)

Section Serialization.
Context {Num : Type} {NumOps : JsNumber Num}.


End Serialization.



(* ===================================================================== *)
(** * More of the event registry: [off], [once], [removeAllListeners] *)
(* ===================================================================== *)

Section RegistryFacts.
Import EventEmitter.
Context {Arg Exn World : Type} {errors : Errors Exn}.
Variable run : nat -> list Arg -> @Host Exn World -> @Host Exn World * @Completion Exn.

Lemma callback_eqb_eq (a b : Callback) : callback_eqb a b = true <-> a = b.
Proof.
  revert b; induction a as [i | i e c IH]; intros [j | j f d]; simpl;
    try (split; [discriminate | intros [=]]).
  - rewrite Nat.eqb_eq. split; [now intros -> | now intros [= ->]].
  - rewrite !andb_true_iff, Nat.eqb_eq, String.eqb_eq, IH.
    split; [now intros [[-> ->] ->] | now intros [= -> -> ->]].
Qed.

Lemma callback_eqb_refl (a : Callback) : callback_eqb a a = true.
Proof. now apply callback_eqb_eq. Qed.

(** The closure [once] builds is never the callback it wraps. *)
Lemma wrapper_is_not_wrapped (cb : Callback) :
  forall (id : nat) (event : string),
    callback_eqb (OnceWrapper id event cb) cb = false.
Proof.
  induction cb as [i | i e c IH]; intros id event; [reflexivity|].
  simpl. simpl in IH. rewrite (IH i e). now rewrite andb_false_r.
Qed.

Lemma filter_others_all (cb : Callback) (l : list Callback) :
  ~ In cb l ->
  List.filter (fun c => negb (callback_eqb c cb)) l = l.
Proof.
  induction l as [|a l IH]; intros Hin; simpl; [reflexivity|].
  destruct (callback_eqb a cb) eqn:E; simpl.
  - apply callback_eqb_eq in E. subst a. exfalso. apply Hin. now left.
  - f_equal. apply IH. intros H. apply Hin. now right.
Qed.

Lemma filter_others_not_in (cb : Callback) (l : list Callback) :
  ~ In cb (List.filter (fun c => negb (callback_eqb c cb)) l).
Proof.
  intros H. apply filter_In in H as [_ H].
  now rewrite callback_eqb_refl in H.
Qed.

(** What the look-up finds where the registry has no entry. *)
Lemma binding_absent (event : string) (h : @Host Exn World) :
  events h !! event = None ->
  binding event h = match inherited event with
                    | Some length => Inherited length
                    | None => Undefined
                    end.
Proof. unfold binding. now intros ->. Qed.

(** [off] on an event the registry has an entry for: the entry is filtered,
    and deleted when nothing is left; the rest of the host stays. *)
Lemma off_own (event : string) (cb : Callback) (h : @Host Exn World)
    (l : list Callback) :
  events h !! event = Some l ->
  (off event cb h).2 = Normal
  /\ events (off event cb h).1 !! event
     = match List.filter (fun c => negb (callback_eqb c cb)) l with
       | [] => None
       | l' => Some l'
       end
  /\ (forall e', e' <> event -> events (off event cb h).1 !! e' = events h !! e')
  /\ console (off event cb h).1 = console h
  /\ closures (off event cb h).1 = closures h
  /\ world (off event cb h).1 = world h.
Proof.
  intros E. unfold off. rewrite (binding_own _ _ _ E). cbv zeta.
  destruct (List.filter _ l) as [|a l'] eqn:F; cbn.
  - rewrite lookup_delete_eq.
    repeat match goal with |- _ /\ _ => split end; try reflexivity.
    intros e' Hne.
    rewrite lookup_delete_ne by congruence. now rewrite lookup_insert_ne by congruence.
  - rewrite lookup_insert_eq.
    repeat match goal with |- _ /\ _ => split end; try reflexivity.
    intros e' Hne. now rewrite lookup_insert_ne by congruence.
Qed.

(** [off] on an event the registry has no entry for: nothing to do, unless
    the name is that of an inherited member. *)
Lemma off_absent (event : string) (cb : Callback) (h : @Host Exn World) :
  events h !! event = None ->
  off event cb h
  = (h, match inherited event with
        | Some _ => Throw (TypeError "this.events[event].filter is not a function")
        | None => Normal
        end).
Proof.
  intros E. unfold off. rewrite (binding_absent _ _ E).
  now destruct (inherited event).
Qed.

(** A host is its four parts. *)
Lemma host_eq (g h : @Host Exn World) :
  events g = events h -> console g = console h -> closures g = closures h ->
  world g = world h -> g = h.
Proof. destruct g, h; simpl; congruence. Qed.

(** X1.  [off(event, callback)] removes every registration of the callback
    for the event, however many times it was registered, and keeps the other
    listeners in their order; when none is left the event has no entry at
    all.  The listeners of the other events are untouched.  On a name that
    the registry has no entry for and inherits from [Object.prototype]
    ([constructor], [toString], ...), [off] throws a [TypeError] instead and
    leaves the emitter as it was; and where [off] has deleted the entry of
    such a name, [listenerCount] no longer reads the listeners. *)
Theorem off_removes_every_registration
    (event : string) (cb : Callback) (h : @Host Exn World) :
  let others :=
    List.filter (fun c => negb (callback_eqb c cb))
                (default [] (events h !! event)) in
  match binding event h with
  | Inherited _ =>
      off event cb h
      = (h, Throw (TypeError "this.events[event].filter is not a function"))
  | _ =>
      (off event cb h).2 = Normal
      /\ ~ In cb others
      /\ events (off event cb h).1 !! event
         = (if (List.length others =? 0)%nat then None else Some others)
      /\ (others <> [] \/ inherited event = None ->
          listenerCount event (off event cb h).1 = Some (List.length others))
      /\ (forall e', e' <> event ->
            events (off event cb h).1 !! e' = events h !! e')
  end.
Proof.
  cbv zeta. unfold binding at 1.
  destruct (events h !! event) as [l|] eqn:E; cbn [default from_option id].
  - destruct (off_own event cb h l E) as (Hn & Hl & Ho & _).
    split; [exact Hn|]. split; [apply filter_others_not_in|].
    assert (L : events (off event cb h).1 !! event
                = (if (List.length
                         (List.filter (fun c => negb (callback_eqb c cb)) l) =? 0)%nat
                   then None
                   else Some (List.filter (fun c => negb (callback_eqb c cb)) l))).
    { rewrite Hl. now destruct (List.filter _ l). }
    split; [exact L|]. split; [|exact Ho].
    intros Hcount. unfold listenerCount, binding. rewrite L.
    destruct (List.filter _ l) as [|a l'] eqn:F; cbn.
    + destruct Hcount as [Hne | ->]; [congruence | reflexivity].
    + reflexivity.
  - rewrite (off_absent event cb h E).
    destruct (inherited event) as [n|] eqn:I; [reflexivity|].
    cbn [fst snd List.filter List.length Nat.eqb].
    split; [reflexivity|]. split; [intros []|]. split; [exact E|].
    split; [|reflexivity].
    intros _. unfold listenerCount, binding. now rewrite E, I.
Qed.

(** X2.  The unsubscribe function that [on] returns undoes the
    registration: for a callback that was not yet registered for the event,
    [on] followed by [off] leaves the emitter exactly as it was.  On a name
    that the registry has no entry for and inherits from [Object.prototype],
    [on] throws a [TypeError] and registers nothing. *)
Theorem on_then_off_restores
    (event : string) (cb : Callback) (h : @Host Exn World) :
  (forall l, events h !! event = Some l -> ~ In cb l /\ l <> []) ->
  match binding event h with
  | Inherited _ =>
      on event cb h
      = (h, Throw (TypeError "this.events[event].push is not a function"))
  | _ =>
      exists h1, on event cb h = (h1, Normal) /\ off event cb h1 = (h, Normal)
  end.
Proof.
  intros Hfresh. pose proof (on_registers_last event cb h) as Hon.
  assert (Hgoal : (on event cb h).2 = Normal
                  /\ events (on event cb h).1 !! event
                     = Some (match events h !! event with
                             | Some l => l ++ [cb]
                             | None => [cb]
                             end)
                  /\ (forall e', e' <> event ->
                        events (on event cb h).1 !! e' = events h !! e')
                  /\ console (on event cb h).1 = console h
                  /\ closures (on event cb h).1 = closures h
                  /\ world (on event cb h).1 = world h ->
                  exists h1, on event cb h = (h1, Normal)
                             /\ off event cb h1 = (h, Normal)).
  { intros (Hn & Hl & Ho & H1 & H2 & H3).
    exists (on event cb h).1. split; [now destruct (on event cb h); simpl in *; subst|].
    destruct (off_own event cb _ _ Hl) as (Hn' & Hl' & Ho' & H1' & H2' & H3').
    destruct (off event cb (on event cb h).1) as [g c] eqn:G. simpl in *. subst c.
    f_equal. apply host_eq; try congruence.
    apply map_eq. intros e'. destruct (decide (e' = event)) as [->|Hne].
    - rewrite Hl'. destruct (events h !! event) as [l|] eqn:E.
      + destruct (Hfresh l eq_refl) as [Hin Hnil].
        rewrite List.filter_app, filter_others_all by exact Hin. simpl.
        rewrite callback_eqb_refl. simpl. rewrite app_nil_r.
        destruct l; [congruence | reflexivity].
      + simpl. now rewrite callback_eqb_refl.
    - now rewrite Ho', Ho by exact Hne. }
  destruct (binding event h); [now apply Hgoal | exact Hon | now apply Hgoal].
Qed.

(** X3.  A listener registered with [once] whose callback returns is gone
    after the delivery; one whose callback throws is still registered, and
    will be called again by the next emission.  (The callback is one that
    leaves the registry alone.) *)
Theorem once_listener_stays_when_it_throws
    (event : string) (cb : Callback) (args : list Arg) (h : @Host Exn World)
    (id : nat) :
  events h !! event = Some [OnceWrapper id event cb] ->
  events (call run cb args h).1 = events h ->
  let h' := (emit run event args h).1.1 in
  (emit run event args h).1.2 = Normal
  /\ List.map inv_callback (emit run event args h).2 = [OnceWrapper id event cb]
  /\ match (call run cb args h).2 with
     | Normal =>
         events h' !! event = None
         /\ (inherited event = None -> listenerCount event h' = Some 0%nat)
     | Throw error =>
         events h' !! event = Some [OnceWrapper id event cb]
         /\ console h' = console (call run cb args h).1 ++ [(event, error)]
     end.
Proof.
  intros Hl Hsame. cbv zeta. unfold emit. rewrite (binding_own _ _ _ Hl).
  cbn [forEach]. unfold guarded_call. cbn [call].
  destruct (call run cb args h) as [h1 [|error]]; cbn [fst snd] in *.
  - assert (Hl1 : events h1 !! event = Some [OnceWrapper id event cb])
      by now rewrite Hsame.
    destruct (off_own event (OnceWrapper id event cb) h1 _ Hl1) as (Hn & Hoff & _).
    cbn [List.filter] in Hoff. rewrite callback_eqb_refl in Hoff. cbn in Hoff.
    destruct (off event (OnceWrapper id event cb) h1) as [h2 c].
    cbn [fst snd] in *. subst c. cbn [fst snd].
    split; [reflexivity|]. split; [reflexivity|]. split; [exact Hoff|].
    intros I. unfold listenerCount, binding. now rewrite Hoff, I.
  - split; [reflexivity|]. split; [reflexivity|].
    simpl. rewrite Hsame. auto.
Qed.

(** X4.  [off(event, callback)] does not remove a listener registered with
    [once(event, callback)]: what is registered is the wrapper, a function of
    its own, and it stays.  On a name that the registry has no entry for and
    inherits from [Object.prototype], [once] throws a [TypeError] and
    registers nothing. *)
Theorem off_does_not_remove_once_listener
    (event : string) (cb : Callback) (h : @Host Exn World) :
  match binding event h with
  | Inherited _ =>
      (once event cb h).2
      = Throw (TypeError "this.events[event].push is not a function")
      /\ events (once event cb h).1 = events h
  | _ =>
      (once event cb h).2 = Normal
      /\ (off event cb (once event cb h).1).2 = Normal
      /\ let h' := (off event cb (once event cb h).1).1 in
         In (OnceWrapper (closures h) event cb) (default [] (events h' !! event))
         /\ exists n, listenerCount event h' = Some (S n)
  end.
Proof.
  unfold once.
  set (h0 := mkHost (events h) (console h) (S (closures h)) (world h)).
  pose proof (on_registers_last event (OnceWrapper (closures h) event cb) h0) as Hon.
  change (binding event h0) with (binding event h) in Hon.
  assert (Hgoal :
    (on event (OnceWrapper (closures h) event cb) h0).2 = Normal
    /\ events (on event (OnceWrapper (closures h) event cb) h0).1 !! event
       = Some (match events h0 !! event with
               | Some l => l ++ [OnceWrapper (closures h) event cb]
               | None => [OnceWrapper (closures h) event cb]
               end)
    /\ (forall e', e' <> event ->
          events (on event (OnceWrapper (closures h) event cb) h0).1 !! e'
          = events h0 !! e')
    /\ console (on event (OnceWrapper (closures h) event cb) h0).1 = console h0
    /\ closures (on event (OnceWrapper (closures h) event cb) h0).1 = closures h0
    /\ world (on event (OnceWrapper (closures h) event cb) h0).1 = world h0 ->
    (on event (OnceWrapper (closures h) event cb) h0).2 = Normal
    /\ (off event cb (on event (OnceWrapper (closures h) event cb) h0).1).2 = Normal
    /\ let h' := (off event cb (on event (OnceWrapper (closures h) event cb) h0).1).1 in
       In (OnceWrapper (closures h) event cb) (default [] (events h' !! event))
       /\ exists n, listenerCount event h' = Some (S n)).
  { intros (Hn & Hl & _). split; [exact Hn|].
    destruct (off_own event cb _ _ Hl) as (Hn' & Hl' & _).
    split; [exact Hn'|]. cbv zeta.
    assert (L : exists l, events (off event cb
                            (on event (OnceWrapper (closures h) event cb) h0).1).1
                          !! event
                          = Some (l ++ [OnceWrapper (closures h) event cb])).
    { rewrite Hl'.
      exists (List.filter (fun c => negb (callback_eqb c cb))
                (default [] (events h0 !! event))).
      destruct (events h0 !! event) as [l|]; cbn [default from_option id].
      - rewrite List.filter_app. cbn [List.filter].
        rewrite wrapper_is_not_wrapped. cbn [negb].
        destruct (List.filter _ l); reflexivity.
      - cbn [List.filter]. now rewrite wrapper_is_not_wrapped. }
    destruct L as [l L]. unfold listenerCount, binding. rewrite L. simpl.
    split; [apply in_or_app; right; now left|].
    exists (List.length l). rewrite length_app. simpl. f_equal. lia. }
  destruct (binding event h); [now apply Hgoal | | now apply Hgoal].
  rewrite Hon. split; reflexivity.
Qed.

(** X5.  After [removeAllListeners()], or [removeAllListeners('')], no event
    has a listener: for a name that is not a member of [Object.prototype],
    [listenerCount] is 0 and an emission calls nothing and changes nothing;
    for a member name ([constructor], [toString], ...) [listenerCount] reads
    the length of the member and [emit] throws a [TypeError].
    [removeAllListeners(event)] with a name removes the listeners of that
    event and leaves those of the others. *)
Theorem removeAllListeners_silences (h : @Host Exn World) :
  (forall event args,
     events (removeAllListeners None h) !! event = None
     /\ match inherited event with
        | None =>
            listenerCount event (removeAllListeners None h) = Some 0%nat
            /\ emit run event args (removeAllListeners None h)
               = (removeAllListeners None h, Normal, [])
        | Some length =>
            listenerCount event (removeAllListeners None h) = length
            /\ emit run event args (removeAllListeners None h)
               = (removeAllListeners None h,
                  Throw (TypeError "this.events[event].forEach is not a function"),
                  [])
        end)
  /\ removeAllListeners (Some EmptyString) h = removeAllListeners None h
  /\ (forall event,
        event <> EmptyString ->
        events (removeAllListeners (Some event) h) !! event = None
        /\ (inherited event = None ->
            listenerCount event (removeAllListeners (Some event) h) = Some 0%nat)
        /\ forall e', e' <> event ->
             events (removeAllListeners (Some event) h) !! e' = events h !! e').
Proof.
  split; [|split].
  - intros event args.
    assert (E : events (removeAllListeners None h) !! event = None)
      by apply lookup_empty.
    split; [exact E|].
    unfold listenerCount, emit. rewrite (binding_absent _ _ E).
    destruct (inherited event); split; reflexivity.
  - reflexivity.
  - intros event Hne. unfold removeAllListeners.
    assert (T : str_truthy event = true) by (destruct event; [congruence | reflexivity]).
    rewrite T.
    assert (E : events (set_events (delete event (events h)) h) !! event = None)
      by apply lookup_delete_eq.
    split; [exact E|]. split.
    + intros I. unfold listenerCount. rewrite (binding_absent _ _ E). now rewrite I.
    + intros e' Hne'. cbn. now rewrite lookup_delete_ne by congruence.
Qed.

End RegistryFacts.

Lemma on_then_off_restores_witness :
  exists h1,
    EventEmitter.on "click" (EventEmitter.Fn 5) example_host
    = (h1, EventEmitter.Normal)
    /\ EventEmitter.off "click" (EventEmitter.Fn 5) h1
       = (example_host, EventEmitter.Normal).
Proof.
  refine (on_then_off_restores "click" (EventEmitter.Fn 5) example_host _).
  intros l H. vm_compute in H. injection H as <-.
  split; [|discriminate].
  intros [H|[H|[H|[]]]]; discriminate H.
Defined.

Lemma once_listener_stays_when_it_throws_witness :
  EventEmitter.events
    (EventEmitter.emit example_run "click" [7%nat] once_host).1.1 !! "click"
  = Some [EventEmitter.OnceWrapper 0 "click" (EventEmitter.Fn 1)].
Proof.
  exact (proj1 (proj2 (proj2
           (once_listener_stays_when_it_throws example_run "click"
              (EventEmitter.Fn 1) [7%nat] once_host 0%nat eq_refl eq_refl)))).
Defined.

(** The names every object inherits at work: on a new emitter, [on] and
    [emit] throw for [constructor], and [listenerCount] reads 1, the number
    of parameters of [Object]. *)
Lemma inherited_names_example :
  let h := EventEmitter.mkHost (Exn := string) (World := nat) ∅ [] 0%nat 0%nat in
  EventEmitter.on "constructor" (EventEmitter.Fn 0) h
  = (h, EventEmitter.Throw
          "TypeError: this.events[event].push is not a function")
  /\ EventEmitter.emit example_run "constructor" [7%nat] h
     = (h, EventEmitter.Throw
             "TypeError: this.events[event].forEach is not a function", [])
  /\ EventEmitter.listenerCount "constructor" h = Some 1%nat
  /\ EventEmitter.listenerCount "__proto__" h = None
  /\ EventEmitter.listenerCount "click" h = Some 0%nat.
Proof. vm_compute. repeat split. Qed.

(* ===================================================================== *)
(** * The pointer, the focus and the blink timer *)
(* ===================================================================== *)

Section Pointer.
Context {Num : Type} {NumOps : JsNumber Num}.

(** Run one handler on a widget given by its fields: the call is named,
    evaluated along every branch on its own, and put back, so that a
    scenario evaluates each of its steps once. *)
Ltac fields_of w :=
  destruct w as [b e o];
  destruct b as [? ? ? ? ? ? en ? ? ? ? ? ? ? ? st ? inside down];
  destruct e as [ | bt | t | l];
  [ | | destruct t as [? ? ? ro ? ? al ? ? bi ? ? ? ? bl] | ];
  unfold interaction, blinking, set_up_textbox, editable_textbox, exec, trace;
  cbn [base ext own Component._enabled Component._state
       Component._mouseInside Component._mousePressed
       TextBox._readOnly TextBox.blinkListeners TextBox._cursorBlinkInterval].

Ltac evaluate_in E :=
  unfold _handleMousePressed, P5TextBox__handleMousePressed,
    P5Component__handleMousePressed, P5Component__handleMouseOut,
    P5Component__handleMouseOver, P5Component__handleMouseReleased in E;
  autounfold with methods in E;
  repeat (cbn in E;
          match type of E with
          | context [if ?c then _ else _] => destruct c eqn:?
          end);
  cbn in E.

Ltac handler :=
  match goal with
  | |- context [?f ?p (mkWidget ?b ?e ?o)] =>
      lazymatch type of (f p (mkWidget b e o)) with
      | (_ * Widget _ * list (Effect _))%type => idtac
      end;
      let r := fresh "r" in
      let E := fresh "E" in
      remember (f p (mkWidget b e o)) as r eqn:E;
      evaluate_in E; subst r; cbn [fst snd]
  end.

Ltac settle :=
  repeat match goal with
         | |- _ /\ _ => split
         | |- _ -> _ => intros ?
         | |- forall _, _ => intros ?
         end; subst; try discriminate; try reflexivity.


(** What each pointer handler does to the state machine of an enabled
    widget, and what it emits. *)
Lemma over_interaction (p : P5 Num) (w : Widget Num) :
  Component._enabled (base w) = true ->
  interaction (exec P5Component__handleMouseOver p w)
  = (if Component._mousePressed (base w) then Component._state (base w) else hover,
     true, true, Component._mousePressed (base w))
  /\ trace P5Component__handleMouseOver p w = [Emit "mouseEnter" []; Redraw]
  /\ ext (exec P5Component__handleMouseOver p w) = ext w.
Proof.
  fields_of w; intros ->; destruct inside, down; try destruct ro, bl;
    handler; settle.
Qed.

Lemma out_interaction (p : P5 Num) (w : Widget Num) :
  Component._enabled (base w) = true ->
  interaction (exec P5Component__handleMouseOut p w)
  = (if Component._mousePressed (base w) then Component._state (base w) else normal,
     true, false, Component._mousePressed (base w))
  /\ trace P5Component__handleMouseOut p w = [Emit "mouseLeave" []; Redraw]
  /\ ext (exec P5Component__handleMouseOut p w) = ext w.
Proof.
  fields_of w; intros ->; destruct inside, down; try destruct ro, bl;
    handler; settle.
Qed.

Lemma release_interaction (p : P5 Num) (w : Widget Num) :
  Component._enabled (base w) = true ->
  interaction (exec P5Component__handleMouseReleased p w)
  = (if Component._mouseInside (base w) then hover else normal,
     true, Component._mouseInside (base w), false)
  /\ trace P5Component__handleMouseReleased p w
     = (if Component._mouseInside (base w)
        then [Emit "click" [PPoint (mouseX p) (mouseY p)]]
        else [])
       ++ [Emit "mouseUp" [PPoint (mouseX p) (mouseY p)]; Redraw]
  /\ ext (exec P5Component__handleMouseReleased p w) = ext w.
Proof.
  fields_of w; intros ->; destruct inside, down; try destruct ro, bl;
    handler; settle.
Qed.

Lemma press_interaction (p : P5 Num) (w : Widget Num) :
  Component._enabled (base w) = true ->
  interaction (exec _handleMousePressed p w)
  = (if editable_textbox w then focused else active,
     true, Component._mouseInside (base w), true)
  /\ emits "click" (trace _handleMousePressed p w) = false
  /\ editable_textbox (exec _handleMousePressed p w) = editable_textbox w.
Proof.
  fields_of w; intros ->; destruct inside, down; try destruct ro, bl;
    handler; settle.
Qed.

Lemma focus_interaction (p : P5 Num) (w : Widget Num) :
  Component._enabled (base w) = true ->
  interaction (exec focus p w)
  = (focused, true, Component._mouseInside (base w),
     Component._mousePressed (base w))
  /\ emits "focus" (trace focus p w) = true
  /\ timers_started (trace focus p w) = (if set_up_textbox w then 1 else 0)%nat
  /\ timers_cleared (trace focus p w) = 0%nat
  /\ blinking (exec focus p w) = (set_up_textbox w || blinking w)
  /\ set_up_textbox (exec focus p w) = set_up_textbox w.
Proof.
  fields_of w; intros ->; destruct inside, down; try destruct bi, bl;
    handler; settle.
Qed.

Lemma blur_interaction (p : P5 Num) (w : Widget Num) :
  Component._state (base w) = focused ->
  Component._state (base (exec blur p w)) = normal
  /\ emits "blur" (trace blur p w) = true
  /\ timers_started (trace blur p w) = 0%nat
  /\ timers_cleared (trace blur p w)
     = (if set_up_textbox w && blinking w then 1 else 0)%nat
  /\ blinking (exec blur p w) = (negb (set_up_textbox w) && blinking w).
Proof.
  fields_of w; intros ->; try destruct bi, bl; handler; settle.
Qed.

Lemma press_timers (p : P5 Num) (w : Widget Num) :
  Component._enabled (base w) = true ->
  Component._state (base (exec _handleMousePressed p w))
  = (if editable_textbox w then focused else active)
  /\ timers_started (trace _handleMousePressed p w)
     = (if editable_textbox w && set_up_textbox w then 1 else 0)%nat
  /\ timers_cleared (trace _handleMousePressed p w) = 0%nat
  /\ blinking (exec _handleMousePressed p w)
     = (editable_textbox w && set_up_textbox w || blinking w)
  /\ set_up_textbox (exec _handleMousePressed p w) = set_up_textbox w.
Proof.
  fields_of w; intros ->; try destruct ro, bi, bl; handler; settle.
Qed.

(** The keys reach a widget in state [focused] only. *)
Lemma keys_need_focus (p : P5 Num) (w : Widget Num) :
  Component._state (base w) <> focused ->
  p5_keyPressed p w = (tt, w, []) /\ p5_keyTyped p w = (tt, w, []).
Proof.
  destruct w as [b e o]. unfold p5_keyPressed, p5_keyTyped.
  autounfold with methods. cbn [base].
  destruct (Component._state b); intros H; try (now split); congruence.
Qed.

Lemma interaction_fields (w : Widget Num) s en inside down :
  interaction w = (s, en, inside, down) ->
  Component._state (base w) = s /\ Component._enabled (base w) = en
  /\ Component._mouseInside (base w) = inside
  /\ Component._mousePressed (base w) = down.
Proof. unfold interaction. now intros [= -> -> -> ->]. Qed.

Lemma emits_app (event : string) (t1 t2 : list (Effect Num)) :
  emits event (t1 ++ t2) = emits event t1 || emits event t2.
Proof. apply existsb_app. Qed.

Lemma timers_started_app (t1 t2 : list (Effect Num)) :
  timers_started (t1 ++ t2) = (timers_started t1 + timers_started t2)%nat.
Proof. unfold timers_started. now rewrite List.filter_app, length_app. Qed.

Lemma timers_cleared_app (t1 t2 : list (Effect Num)) :
  timers_cleared (t1 ++ t2) = (timers_cleared t1 + timers_cleared t2)%nat.
Proof. unfold timers_cleared. now rewrite List.filter_app, length_app. Qed.

(** X6.  A widget that is not enabled ignores the pointer and [focus()]:
    the four pointer handlers and [focus] change nothing and emit nothing.
    In state [disabled], where the [enabled] setter puts it, it gets no key
    either. *)
Theorem disabled_widget_ignores_input (p : P5 Num) (w : Widget Num) :
  Component._enabled (base w) = false ->
  _handleMousePressed p w = (tt, w, [])
  /\ P5Component__handleMouseReleased p w = (tt, w, [])
  /\ P5Component__handleMouseOver p w = (tt, w, [])
  /\ P5Component__handleMouseOut p w = (tt, w, [])
  /\ focus p w = (tt, w, [])
  /\ (Component._state (base w) = disabled ->
      p5_keyPressed p w = (tt, w, []) /\ p5_keyTyped p w = (tt, w, [])).
Proof.
  intros Hen.
  do 5 (split; [revert Hen; fields_of w; intros ->; handler; reflexivity|]).
  intros Hst. apply keys_need_focus. congruence.
Qed.

(** X7.  On an enabled widget of any kind, the pointer entering, a press
    and a release emit exactly one [click]: at the release, before [mouseUp],
    with the pointer position of the release.  The widget is then in state
    [hover].  That holds for a text box too: the focus its press gave it is
    gone after the release, and the keys that follow are not delivered. *)
Theorem click_is_emitted_on_release_inside
    (p1 p2 p3 p4 : P5 Num) (w : Widget Num) :
  Component._enabled (base w) = true ->
  let entered := exec P5Component__handleMouseOver p1 w in
  let held := exec _handleMousePressed p2 entered in
  let released := exec P5Component__handleMouseReleased p3 held in
  emits "click" (trace P5Component__handleMouseOver p1 w
                 ++ trace _handleMousePressed p2 entered) = false
  /\ Component._state (base held)
     = (if editable_textbox w then focused else active)
  /\ trace P5Component__handleMouseReleased p3 held
     = [Emit "click" [PPoint (mouseX p3) (mouseY p3)];
        Emit "mouseUp" [PPoint (mouseX p3) (mouseY p3)];
        Redraw]
  /\ interaction released = (hover, true, true, false)
  /\ p5_keyPressed p4 released = (tt, released, [])
  /\ p5_keyTyped p4 released = (tt, released, []).
Proof.
  intros Hen entered held released.
  destruct (over_interaction p1 w Hen) as (Hi1 & Ht1 & He1).
  fold entered in Hi1, He1.
  apply interaction_fields in Hi1 as (_ & Hen1 & Hin1 & _).
  destruct (press_interaction p2 entered Hen1) as (Hi2 & Hc2 & _).
  fold held in Hi2.
  apply interaction_fields in Hi2 as (Hst2 & Hen2 & Hin2 & _).
  destruct (release_interaction p3 held Hen2) as (Hi3 & Ht3 & _).
  fold released in Hi3. rewrite Hin2, Hin1 in Hi3, Ht3.
  assert (Hed : editable_textbox entered = editable_textbox w)
    by (unfold editable_textbox; now rewrite He1).
  split; [now rewrite emits_app, Ht1, Hc2|].
  split; [now rewrite Hst2, Hed|].
  split; [exact Ht3|]. split; [exact Hi3|].
  apply interaction_fields in Hi3 as (Hst3 & _).
  apply keys_need_focus. rewrite Hst3. discriminate.
Qed.

(** X8.  A press that is dragged out of an enabled widget and back in
    before the release still gives a [click]: when the pointer comes back the
    widget is still pressed and keeps its state, [active], or [focused] for an
    editable text box, and the release emits [click] and [mouseUp] and leaves
    the widget in [hover]. *)
Theorem drag_out_and_back_clicks (p1 p2 p3 p4 : P5 Num) (w : Widget Num) :
  Component._enabled (base w) = true ->
  let back := exec P5Component__handleMouseOver p3 (dragged_out p1 p2 w) in
  interaction back
  = (if editable_textbox w then focused else active, true, true, true)
  /\ trace P5Component__handleMouseReleased p4 back
     = [Emit "click" [PPoint (mouseX p4) (mouseY p4)];
        Emit "mouseUp" [PPoint (mouseX p4) (mouseY p4)];
        Redraw]
  /\ interaction (exec P5Component__handleMouseReleased p4 back)
     = (hover, true, true, false).
Proof.
  intros Hen back. unfold dragged_out, pressed in back.
  destruct (press_interaction p1 w Hen) as (Hi1 & _ & _).
  apply interaction_fields in Hi1 as (Hst1 & Hen1 & _ & Hdn1).
  destruct (out_interaction p2 _ Hen1) as (Hi2 & _ & _).
  rewrite Hdn1, Hst1 in Hi2.
  apply interaction_fields in Hi2 as (Hst2 & Hen2 & _ & Hdn2).
  destruct (over_interaction p3 _ Hen2) as (Hi3 & _ & _).
  fold back in Hi3. rewrite Hdn2, Hst2 in Hi3.
  split; [exact Hi3|].
  apply interaction_fields in Hi3 as (_ & Hen3 & Hin3 & _).
  destruct (release_interaction p4 back Hen3) as (Hi4 & Ht4 & _).
  rewrite Hin3 in Hi4, Ht4. now split.
Qed.

(** X9.  The pointer takes the focus away without a [blur]: when it enters
    or leaves an enabled, focused widget that is not pressed, the state
    becomes [hover] or [normal], no [blur] is emitted, a text box keeps the
    timer of its cursor, and the keys that follow are not delivered. *)
Theorem pointer_takes_focus_without_blur (p p' : P5 Num) (w : Widget Num) :
  Component._enabled (base w) = true ->
  Component._state (base w) = focused ->
  Component._mousePressed (base w) = false ->
  let entered := exec P5Component__handleMouseOver p w in
  let left := exec P5Component__handleMouseOut p w in
  Component._state (base entered) = hover
  /\ Component._state (base left) = normal
  /\ emits "blur" (trace P5Component__handleMouseOver p w) = false
  /\ emits "blur" (trace P5Component__handleMouseOut p w) = false
  /\ timers_cleared (trace P5Component__handleMouseOver p w) = 0%nat
  /\ timers_cleared (trace P5Component__handleMouseOut p w) = 0%nat
  /\ blinking entered = blinking w
  /\ blinking left = blinking w
  /\ p5_keyPressed p' entered = (tt, entered, [])
  /\ p5_keyTyped p' entered = (tt, entered, [])
  /\ p5_keyPressed p' left = (tt, left, [])
  /\ p5_keyTyped p' left = (tt, left, []).
Proof.
  intros Hen Hst Hdn entered left.
  destruct (over_interaction p w Hen) as (Hi1 & Ht1 & He1).
  destruct (out_interaction p w Hen) as (Hi2 & Ht2 & He2).
  fold entered in Hi1, He1. fold left in Hi2, He2.
  rewrite Hdn in Hi1, Hi2.
  apply interaction_fields in Hi1 as (Hst1 & _).
  apply interaction_fields in Hi2 as (Hst2 & _).
  rewrite Ht1, Ht2. unfold blinking. rewrite He1, He2.
  do 8 (split; [reflexivity || assumption|]).
  destruct (keys_need_focus p' entered) as [? ?]; [rewrite Hst1; discriminate|].
  destruct (keys_need_focus p' left) as [? ?]; [rewrite Hst2; discriminate|].
  auto.
Qed.

(** X10.  On an enabled text box that has been set up, [focus()] starts
    the timer of the cursor and [blur()] clears it: the focus starts one
    timer and keeps its handle, and the blur that follows clears one timer,
    drops the handle and leaves the state [normal]. *)
Theorem focus_and_blur_pair_the_timer (p p' : P5 Num) (w : Widget Num) :
  set_up_textbox w = true ->
  Component._enabled (base w) = true ->
  let w1 := exec focus p w in
  let w2 := exec blur p' w1 in
  emits "focus" (trace focus p w) = true
  /\ timers_started (trace focus p w) = 1%nat
  /\ timers_cleared (trace focus p w) = 0%nat
  /\ blinking w1 = true
  /\ Component._state (base w1) = focused
  /\ emits "blur" (trace blur p' w1) = true
  /\ timers_started (trace blur p' w1) = 0%nat
  /\ timers_cleared (trace blur p' w1) = 1%nat
  /\ blinking w2 = false
  /\ Component._state (base w2) = normal.
Proof.
  intros Hup Hen w1 w2.
  destruct (focus_interaction p w Hen) as (Hi & Hf & Hs & Hc & Hb & Hu).
  fold w1 in Hi, Hb, Hu. rewrite Hup in Hs, Hb, Hu. simpl in Hb.
  apply interaction_fields in Hi as (Hst & _).
  destruct (blur_interaction p' w1 Hst) as (Hst2 & Hbl & Hs2 & Hc2 & Hb2).
  fold w2 in Hst2, Hb2. rewrite Hu, Hb in Hc2, Hb2.
  repeat (split; [assumption|]). assumption.
Qed.

(** X11.  [focus()] starts a timer whether or not one is running: on a
    set-up text box that already holds a timer, [focus()] and a pointer press
    each start one more and clear none, and the [blur()] that follows clears
    a single one. *)
Theorem focus_again_starts_another_timer (p p' : P5 Num) (w : Widget Num) :
  set_up_textbox w = true ->
  editable_textbox w = true ->
  Component._enabled (base w) = true ->
  blinking w = true ->
  timers_started (trace focus p w) = 1%nat
  /\ timers_cleared (trace focus p w) = 0%nat
  /\ timers_started (trace _handleMousePressed p w) = 1%nat
  /\ timers_cleared (trace _handleMousePressed p w) = 0%nat
  /\ timers_cleared (trace focus p w ++ trace blur p' (exec focus p w)) = 1%nat
  /\ timers_cleared (trace _handleMousePressed p w
                     ++ trace blur p' (exec _handleMousePressed p w)) = 1%nat.
Proof.
  intros Hup Hed Hen Hbl.
  destruct (focus_interaction p w Hen) as (Hi & _ & Hs & Hc & Hb & Hu).
  destruct (press_timers p w Hen) as (Hst' & Hs' & Hc' & Hb' & Hu').
  rewrite Hup in Hs, Hb, Hu, Hs', Hb', Hu'. rewrite Hed in Hst', Hs', Hb'.
  simpl in Hb, Hs', Hb'.
  apply interaction_fields in Hi as (Hst & _).
  destruct (blur_interaction p' _ Hst) as (_ & _ & _ & Hc2 & _).
  destruct (blur_interaction p' _ Hst') as (_ & _ & _ & Hc2' & _).
  rewrite Hu, Hb in Hc2. rewrite Hu', Hb' in Hc2'.
  rewrite !timers_cleared_app, Hc, Hc2, Hc', Hc2'.
  repeat (split; [assumption || reflexivity|]). reflexivity.
Qed.

End Pointer.

Lemma disabled_widget_ignores_input_witness :
  _handleMousePressed p5_example button_disabled = (tt, button_disabled, []).
Proof.
  exact (proj1 (disabled_widget_ignores_input p5_example button_disabled eq_refl)).
Defined.

Lemma click_is_emitted_on_release_inside_witness :
  interaction
    (exec P5Component__handleMouseReleased p5_example
       (exec _handleMousePressed p5_click
          (exec P5Component__handleMouseOver p5_example textbox_abc)))
  = (hover, true, true, false).
Proof.
  exact (proj1 (proj2 (proj2 (proj2
           (click_is_emitted_on_release_inside p5_example p5_click p5_example
              p5_example textbox_abc eq_refl))))).
Defined.

Lemma drag_out_and_back_clicks_witness :
  interaction
    (exec P5Component__handleMouseOver p5_example
       (dragged_out p5_example p5_example textbox_abc))
  = (focused, true, true, true).
Proof.
  exact (proj1 (drag_out_and_back_clicks p5_example p5_example p5_example
                  p5_example textbox_abc eq_refl)).
Defined.

Lemma pointer_takes_focus_without_blur_witness :
  Component._state (base (exec P5Component__handleMouseOver p5_example textbox_ab))
  = hover.
Proof.
  exact (proj1 (pointer_takes_focus_without_blur p5_example p5_example
                  textbox_ab eq_refl eq_refl eq_refl)).
Defined.

Lemma focus_and_blur_pair_the_timer_witness :
  emits "focus" (trace focus p5_example textbox_set_up) = true
  /\ timers_started (trace focus p5_example textbox_set_up) = 1%nat.
Proof.
  pose proof (focus_and_blur_pair_the_timer p5_example p5_example
                textbox_set_up eq_refl eq_refl) as (H1 & H2 & _).
  exact (conj H1 H2).
Defined.

Lemma focus_again_starts_another_timer_witness :
  timers_started (trace focus p5_example textbox_blinking) = 1%nat
  /\ timers_cleared (trace focus p5_example textbox_blinking) = 0%nat.
Proof.
  pose proof (focus_again_starts_another_timer p5_example p5_example
                textbox_blinking eq_refl eq_refl eq_refl eq_refl) as (H1 & H2 & _).
  exact (conj H1 H2).
Defined.

(* ===================================================================== *)
(** * Assignment by key, [fromJSON] and what they leave alone *)
(* ===================================================================== *)

Section Assignment.
Context {Num : Type} {NumOps : JsNumber Num}.

(** A method leaves a part of the widget alone: run it along every branch
    and compare. *)
Ltac frame :=
  unfold frames, interaction, construction_only, value_and_cursor,
    cursorPosition;
  let q := fresh "q" in
  let b := fresh "b" in
  let e := fresh "e" in
  let o := fresh "o" in
  intros q [b e o];
  unfold P5Component_set_name, P5Component_set_text,
    P5Component_set_left, P5Component_set_top, P5Component_set_width,
    P5Component_set_height, P5Component_set_enabled, P5Component_set_visible,
    P5Component_set_backColor,
    P5Component_set_foreColor, P5Component_set_fontSize,
    P5Component_set_fontFamily, P5Component_set_borderColor,
    P5Component_set_borderWidth, P5Button_set_hoverColor,
    P5Button_set_activeColor, P5Button_set_disabledColor,
    P5Button_set_cornerRadius, P5TextBox_set_placeholder,
    P5TextBox_set_maxLength, P5TextBox_set_readOnly,
    P5TextBox_set_passwordChar, P5TextBox_set_multiline,
    P5TextBox_set_textAlign, P5Label_set_textAlign,
    P5Label_set_verticalAlign, P5Label_set_autoSize,
    P5Label_set_wordWrap, P5Label_set_fontStyle,
    P5Label_set_underline, P5Label_set_strikethrough,
    P5Label_set_text, P5Label__adjustSize, _updatePosition,
    _resizeCanvas, _handleMousePressed, P5TextBox__handleMousePressed,
    P5Component__handleMousePressed, P5Component__handleMouseOut,
    P5Component__handleMouseOver, P5Component__handleMouseReleased,
    p5_setup, setup, P5TextBox_setup, P5Label_setup, blinkTick,
    enable, disable, show, hide, setValue, set_text, clear, selectAll;
  autounfold with methods; destruct e; split_ifs; reflexivity.

Lemma typed_frames {X A} (f : Widget Num -> X)
    (coerce : JsValue Num -> option A) (set : A -> M Num unit) :
  (forall a, frames f (set a)) -> accessor_frames f (typed coerce set).
Proof.
  intros Hset v m. simpl. destruct (coerce v); [|discriminate].
  intros [= <-]. apply Hset.
Qed.

(** What [this[key] = ...] resolves to is the accessor registered under
    that very key, if any. *)
Lemma keyed_Forall (P : string -> @Accessor Num -> Prop)
    (table : list (string * Accessor)) (key : string) :
  Forall (fun e => P (fst e) (snd e)) table ->
  P key NoAccessor ->
  P key (keyed table key).
Proof.
  intros Hall Hnone. unfold keyed.
  destruct (List.find _ table) as [e|] eqn:E; [|exact Hnone].
  apply find_some in E as [Hin Heq]. apply String.eqb_eq in Heq. subst key.
  rewrite Forall_forall in Hall. apply Hall. now apply list_elem_of_In.
Qed.

Ltac setter_frame :=
  cbv beta; cbn [fst snd]; split; [|split];
  [ first [ exact I | apply typed_frames; intros ?; frame ]
  | intros Hkey; first [ congruence | exact I | apply typed_frames; intros ?; frame ]
  | intros Hkey; first [ congruence | exact I | apply typed_frames; intros ?; frame ] ].

Lemma accessors_frame (k : Kind) :
  Forall (fun e => setter_frames (fst e) (snd e)) (accessors k).
Proof.
  destruct k; unfold accessors, P5Component_accessors, P5Button_accessors,
    P5TextBox_accessors, P5Label_accessors; cbn [app];
    repeat (apply Forall_cons; split; [setter_frame|]);
    apply Forall_nil; exact I.
Qed.

Lemma keyed_frames (k : Kind) (key : string) :
  setter_frames key (keyed (accessors k) key).
Proof.
  apply (keyed_Forall setter_frames); [apply accessors_frame|].
  repeat split; intros; exact I.
Qed.

Lemma assign_frames (key : string) (v : JsValue Num) (p : P5 Num)
    (w w' : Widget Num) (t : list (Effect Num)) :
  assign key v p w = Some (w', t) ->
  construction_only w' = construction_only w
  /\ (key <> "enabled"%string -> interaction w' = interaction w)
  /\ (key <> "text"%string -> value_and_cursor w' = value_and_cursor w).
Proof.
  unfold assign.
  pose proof (keyed_frames (kind w) key) as (Hc & Hi & Hv).
  destruct (keyed _ key) as [set| |]; simpl in Hc, Hi, Hv.
  - destruct (set v) as [m|] eqn:E; [|discriminate].
    intros [= <- <-]. split; [now apply (Hc v m E)|].
    split; intros Hkey; [now apply (Hi Hkey v m E) | now apply (Hv Hkey v m E)].
  - discriminate.
  - destruct (internal _ key); [discriminate|].
    intros [= <- <-]. destruct w as [b [ | | | ] o]; repeat split.
Qed.


Lemma fromJSON_frames (json : Json Num) (p : P5 Num) :
  forall (w w' : Widget Num) (t : list (Effect Num)),
    fromJSON json p w = Some (w', t) ->
    construction_only w' = construction_only w
    /\ (~ In "enabled"%string (List.map fst json) -> interaction w' = interaction w)
    /\ (~ In "text"%string (List.map fst json) ->
        value_and_cursor w' = value_and_cursor w).
Proof.
  induction json as [|[key v] rest IH]; intros w w' t; simpl.
  - intros [= <- <-]. repeat split.
  - destruct (negb _ && _).
    + destruct (assign key v p w) as [[w1 t1]|] eqn:E; [|discriminate].
      destruct (fromJSON rest p w1) as [[w2 t2]|] eqn:E2; [|discriminate].
      intros [= <- <-].
      destruct (assign_frames _ _ _ _ _ _ E) as (Hc & Hi & Hv).
      destruct (IH _ _ _ E2) as (Hc2 & Hi2 & Hv2).
      split; [congruence|].
      split; intros Hin; [rewrite Hi2, Hi | rewrite Hv2, Hv]; intuition.
    + intros E. destruct (IH _ _ _ E) as (Hc2 & Hi2 & Hv2).
      split; [exact Hc2|]. split; intros Hin; intuition.
Qed.

(** The cursor lies within the value: the same, said of the value and the
    cursor. *)
Lemma cursor_in_range_iff (w : Widget Num) :
  cursor_in_range w
  <-> 0 <= snd (value_and_cursor w)
      <= Z.of_nat (String.length (fst (value_and_cursor w))).
Proof.
  destruct w as [b [ | bt | t | l] o];
    unfold cursor_in_range, value_and_cursor, cursorPosition, text_length;
    simpl; intuition lia.
Qed.

Lemma frames_cursor_in_range {A} (m : M Num A) (p : P5 Num) (w : Widget Num) :
  frames value_and_cursor m -> cursor_in_range w -> cursor_in_range (exec m p w).
Proof. intros Hf. rewrite !cursor_in_range_iff. now rewrite Hf. Qed.

Ltac by_frame :=
  match goal with
  | |- ?f (exec ?m ?p ?w) = ?f ?w => revert p w; change (frames f m); frame
  | |- frames _ _ => frame
  end.

Lemma press_cursor_in_range (p : P5 Num) (w : Widget Num) :
  cursor_in_range w -> cursor_in_range (exec _handleMousePressed p w).
Proof.
  destruct w as [b [ | bt | t | l] o];
    unfold cursor_in_range, text_length, _handleMousePressed,
      P5TextBox__handleMousePressed, P5Component__handleMousePressed;
    autounfold with methods; cbn; intros Hin; split_ifs;
    try exact I; try assumption; lia.
Qed.

Lemma keys_cursor_in_range (p : P5 Num) (w : Widget Num) :
  cursor_in_range w ->
  cursor_in_range (exec p5_keyPressed p w)
  /\ cursor_in_range (exec p5_keyTyped p w).
Proof.
  intros Hin.
  pose proof (handleKeyPressed_cursor_in_range p w Hin) as H1.
  pose proof (handleKeyTyped_cursor_in_range p w Hin) as H2.
  unfold p5_keyPressed, p5_keyTyped, exec, bind, this, ret in *.
  destruct (state_eqb _ focused); cbn [fst snd]; [|now split].
  destruct (handleKeyPressed p w) as [[r1 w1] t1].
  destruct (handleKeyTyped p w) as [[r2 w2] t2]. now split.
Qed.

Lemma step_construction_only (op : Op Num) (p : P5 Num) (w w' : Widget Num)
    (t : list (Effect Num)) :
  step op p w = Some (w', t) -> construction_only w' = construction_only w.
Proof.
  destruct op; unfold step, run;
    try (intros [= <- <-]; by_frame).
  - intros E. now apply assign_frames in E.
  - intros E. now apply fromJSON_frames in E.
  - destruct (kind w); try discriminate. intros [= <- <-]. by_frame.
  - destruct (kind w); try discriminate. intros [= <- <-]. by_frame.
Qed.

Lemma step_cursor_in_range (op : Op Num) (p : P5 Num) (w w' : Widget Num)
    (t : list (Effect Num)) :
  keeps_text_setter_away op -> cursor_in_range w ->
  step op p w = Some (w', t) -> cursor_in_range w'.
Proof.
  intros Hop Hin.
  destruct op; simpl in Hop; unfold step, run;
    try (intros [= <- <-];
         first [ now apply press_cursor_in_range
               | now apply keys_cursor_in_range
               | now apply clear_cursor_in_range
               | apply frames_cursor_in_range; [by_frame | exact Hin] ]).
  - intros E. apply assign_frames in E as (_ & _ & Hv).
    apply cursor_in_range_iff. rewrite (Hv Hop). now apply cursor_in_range_iff.
  - intros E. apply fromJSON_frames in E as (_ & _ & Hv).
    apply cursor_in_range_iff. rewrite (Hv Hop). now apply cursor_in_range_iff.
  - contradiction.
  - destruct (kind w); try discriminate. intros [= <- <-].
    apply clear_cursor_in_range.
  - destruct (kind w); try discriminate. intros [= <- <-].
    apply frames_cursor_in_range; [by_frame | exact Hin].
Qed.

(** X12.  Of the properties of a widget only [enabled] moves the state
    machine: assigning any other property, and restoring a record without
    the key [enabled], leaves the state, the enabled flag and the two pointer
    flags as they were.  The four fields themselves are internals of the
    widget: an assignment to the name of one of them is not the assignment
    of a property, and is not followed. *)
Theorem only_enabled_moves_the_state_machine
    (key : string) (v : JsValue Num) (json : Json Num) (p : P5 Num)
    (w : Widget Num) :
  key <> "enabled"%string ->
  ~ In "enabled"%string (List.map fst json) ->
  (forall w' t, assign key v p w = Some (w', t) -> interaction w' = interaction w)
  /\ (forall w' t, fromJSON json p w = Some (w', t) ->
                   interaction w' = interaction w)
  /\ Forall (fun field => internal (kind w) field = true
                          /\ assign field v p w = None)
            ["_state"; "_enabled"; "_mouseInside"; "_mousePressed"]%string.
Proof.
  intros Hkey Hjson. split; [|split].
  - intros w' t E. apply assign_frames in E as (_ & Hi & _). now apply Hi.
  - intros w' t E. apply fromJSON_frames in E as (_ & Hi & _). now apply Hi.
  - destruct w as [b [ | | | ] o];
      repeat (apply Forall_cons; split; [split; reflexivity|]);
      apply Forall_nil; exact I.
Qed.

(** X13.  The properties that have no setter keep the value the
    constructor gave them, whatever is done to the widget through its
    methods and properties: no pointer or key event, timer tick, method
    call, assignment of a property or [fromJSON] changes [tabIndex], the
    button's [disabledTextColor], the text box's [placeholderColor] and
    [focusBorderColor], or the [padding] of a text box or label.  (Only an
    assignment to the name of the field itself, [_tabIndex] and the like,
    which writes the internals of the widget and is not followed, could.) *)
Theorem properties_without_setter_never_change
    (ops : list (Op Num * P5 Num)) :
  forall (w w' : Widget Num) (t : list (Effect Num)),
    steps ops w = Some (w', t) ->
    construction_only w' = construction_only w.
Proof.
  induction ops as [|[op p] rest IH]; intros w w' t; simpl.
  - now intros [= <- <-].
  - destruct (step op p w) as [[w1 t1]|] eqn:E; [|discriminate].
    destruct (steps rest w1) as [[w2 t2]|] eqn:E2; [|discriminate].
    intros [= <- <-]. rewrite (IH _ _ _ E2). now apply step_construction_only in E.
Qed.

(** X14.  Of the methods and properties of a text box only the [text]
    setter can put the cursor out of the value: from a widget whose cursor is
    in range, any run of pointer and key events, timer ticks, method calls
    other than [setValue], assignments of properties other than [text] and
    restorations of records without [text] ends with the cursor in range.
    (Assignments to the names of the fields [_text] and [_cursorPosition]
    write the internals of the widget and are not followed.) *)
Theorem cursor_stays_in_range_without_text_setter
    (ops : list (Op Num * P5 Num)) :
  forall (w w' : Widget Num) (t : list (Effect Num)),
    Forall (fun o => keeps_text_setter_away (fst o)) ops ->
    cursor_in_range w ->
    steps ops w = Some (w', t) ->
    cursor_in_range w'.
Proof.
  induction ops as [|[op p] rest IH]; intros w w' t Hops Hin; simpl.
  - now intros [= <- <-].
  - apply Forall_cons in Hops as [Hop Hrest]. simpl in Hop.
    destruct (step op p w) as [[w1 t1]|] eqn:E; [|discriminate].
    destruct (steps rest w1) as [[w2 t2]|] eqn:E2; [|discriminate].
    intros [= <- <-]. apply (IH w1 w2 t2 Hrest); [|exact E2].
    eapply step_cursor_in_range; eauto.
Qed.

(** X30.  The state is [disabled] exactly when the widget is not
    enabled, in every state reached through its methods and properties from
    a widget that was built enabled, and in every state so reached after an
    assignment of [enabled], whatever the widget was before.  (Assignments
    to the names of the fields [_state] and [_enabled] write the internals
    of the widget and are not followed.) *)
Theorem state_invariant_holds_after_construction
    (k : Kind) (now : string) (o : Options.t Num)
    (ops : list (Op Num * P5 Num)) (w' : Widget Num) (t : list (Effect Num)) :
  Component._enabled (base (construct k now o)) = true ->
  steps ops (construct k now o) = Some (w', t) ->
  disabled_iff_not_enabled w'
  /\ forall (w0 : Widget Num) (v : bool) (p : P5 Num)
            (ops2 : list (Op Num * P5 Num)) (w2 : Widget Num)
            (t2 : list (Effect Num)),
       steps ((Assign "enabled" (JBool v), p) :: ops2) w0 = Some (w2, t2) ->
       disabled_iff_not_enabled w2.
Proof.
  intros Hen Hsteps. split.
  - eapply reached_keeps_invariant; [|exact Hsteps].
    now apply constructed_enabled_invariant.
  - intros w0 v p ops2 w2 t2. cbn [steps step].
    assert (E : assign "enabled" (JBool v) p w0
                = Some (exec (P5Component_set_enabled v) p w0,
                        trace (P5Component_set_enabled v) p w0))
      by (destruct w0 as [b [ | | | ] o']; reflexivity).
    rewrite E.
    destruct (steps ops2 _) as [[w3 t3]|] eqn:E2; [|discriminate].
    intros [= <- <-]. eapply reached_keeps_invariant; [|exact E2].
    apply set_enabled_establishes.
Qed.

End Assignment.

Lemma only_enabled_moves_the_state_machine_witness :
  interaction (exec (P5Component_set_text "xyz") p5_example textbox_ab)
  = interaction textbox_ab.
Proof.
  refine (proj1 (only_enabled_moves_the_state_machine "text" (JStr "xyz")
                   [("width", JNum 300)] p5_example textbox_ab _ _)
            _ (trace (P5Component_set_text "xyz") p5_example textbox_ab)
            eq_refl).
  - discriminate.
  - simpl. intros [H|[]]. discriminate H.
Defined.

Lemma properties_without_setter_never_change_witness :
  exists w' t,
    steps [(Assign "tabIndex" (JInt 7), p5_example);
           (FromJSON [("padding", JNum 9); ("text", JStr "x")], p5_example);
           (MousePressed, p5_click)] textbox_abc = Some (w', t)
    /\ construction_only w' = construction_only textbox_abc.
Proof.
  eexists; eexists. split; [vm_compute; reflexivity|].
  refine (properties_without_setter_never_change
            [(Assign "tabIndex" (JInt 7), p5_example);
             (FromJSON [("padding", JNum 9); ("text", JStr "x")], p5_example);
             (MousePressed, p5_click)] textbox_abc _ _ _).
  vm_compute. reflexivity.
Defined.

Lemma cursor_stays_in_range_without_text_setter_witness :
  exists w' t,
    steps [(MousePressed, p5_click);
           (KeyTyped, pressing "x" 120 p5_example);
           (Assign "maxLength" (JInt 2), p5_example);
           (Clear, p5_example)] textbox_abc = Some (w', t)
    /\ cursor_in_range w'.
Proof.
  eexists; eexists. split; [vm_compute; reflexivity|].
  refine (cursor_stays_in_range_without_text_setter
            [(MousePressed, p5_click);
             (KeyTyped, pressing "x" 120 p5_example);
             (Assign "maxLength" (JInt 2), p5_example);
             (Clear, p5_example)] textbox_abc _ _ _ _ _).
  - repeat constructor. simpl. discriminate.
  - vm_compute. split; discriminate.
  - vm_compute. reflexivity.
Defined.

Lemma state_invariant_holds_after_construction_witness :
  exists w' t,
    steps [(MousePressed, p5_click); (Disable, p5_example);
           (MouseOver, p5_example); (Enable, p5_example)]
          (construct KTextBox "0" Options.empty) = Some (w', t)
    /\ disabled_iff_not_enabled w'.
Proof.
  eexists; eexists. split; [vm_compute; reflexivity|].
  refine (proj1 (state_invariant_holds_after_construction KTextBox "0"
                   Options.empty
                   [(MousePressed, p5_click); (Disable, p5_example);
                    (MouseOver, p5_example); (Enable, p5_example)]
                   _ _ eq_refl _)).
  vm_compute. reflexivity.
Defined.

Section Serialized.
Context {Num : Type} {NumOps : JsNumber Num}.

(** Run a setter on a widget given by its fields and read the record. *)
Ltac serialized :=
  cbv beta; cbn [fst snd];
  first
    [ exact I
    | let v := fresh "v" in
      let m := fresh "m" in
      intros v m; cbn; destruct v; try discriminate; intros [= <-];
      unfold P5Component_set_name, P5Component_set_text,
        P5Component_set_left, P5Component_set_top, P5Component_set_width,
        P5Component_set_height, P5Component_set_enabled,
        P5Component_set_visible, P5Component_set_backColor,
        P5Component_set_foreColor, P5Component_set_fontSize,
        P5Component_set_fontFamily, P5Component_set_borderColor,
        P5Component_set_borderWidth, P5Button_set_hoverColor,
        P5Button_set_activeColor, P5Button_set_disabledColor,
        P5Button_set_cornerRadius, P5TextBox_set_placeholder,
        P5TextBox_set_maxLength, P5TextBox_set_readOnly,
        P5TextBox_set_passwordChar, P5TextBox_set_multiline,
        P5TextBox_set_textAlign, P5Label_set_textAlign,
        P5Label_set_verticalAlign, P5Label_set_autoSize,
        P5Label_set_wordWrap, P5Label_set_fontStyle,
        P5Label_set_underline, P5Label_set_strikethrough,
        P5Label_set_text, P5Label__adjustSize, _updatePosition,
        _resizeCanvas;
      autounfold with methods; split_ifs; reflexivity ].

Lemma accessors_serialized (p : P5 Num) (w : Widget Num) :
  Forall (fun e => setter_is_serialized p w (fst e) (snd e))
         (accessors (kind w)).
Proof.
  destruct w as [b e o]; destruct e;
    unfold kind, accessors, P5Component_accessors, P5Button_accessors,
      P5TextBox_accessors, P5Label_accessors, setter_is_serialized;
    cbn [ext app];
    repeat (apply Forall_cons; split; [serialized|]);
    apply Forall_nil; exact I.
Qed.

(** X15.  An assignment to a property either goes through a setter, and
    then [toJSON] reports the value assigned under that key, or, the key
    naming neither an accessor nor a field nor a member of the widget, it
    creates a plain property that [toJSON] does not read and that changes no
    field.  The second is what happens to [tabIndex], which has a field
    [_tabIndex] and no accessor.  (An assignment to the name of a field or
    of a member writes the internals of the widget and is not followed.) *)
Theorem assigned_property_is_serialized
    (key : string) (v : JsValue Num) (p : P5 Num) (w w' : Widget Num)
    (t : list (Effect Num)) :
  assign key v p w = Some (w', t) ->
  match keyed (accessors (kind w)) key with
  | NoAccessor =>
      internal (kind w) key = false
      /\ toJSON w' = toJSON w /\ base w' = base w /\ ext w' = ext w
      /\ own w' !! key = Some v /\ t = []
  | _ => json_lookup key (toJSON w') = Some v
  end
  /\ keyed (accessors (kind w)) "tabIndex" = NoAccessor
  /\ internal (kind w) "tabIndex" = false.
Proof.
  intros E.
  split; [|split; destruct w as [b [ | | | ] o]; reflexivity].
  unfold assign in E.
  pose proof (keyed_Forall (setter_is_serialized p w) (accessors (kind w)) key
                (accessors_serialized p w) I) as Hk.
  destruct (keyed _ key) as [set| |]; simpl in Hk.
  - destruct (set v) as [m|] eqn:Em; [|discriminate].
    injection E as <- <-. now apply Hk.
  - discriminate.
  - destruct (internal _ key); [discriminate|].
    injection E as <- <-. split; [reflexivity|].
    split; [destruct w as [b [ | | | ] o]; reflexivity|].
    split; [reflexivity|]. split; [reflexivity|].
    split; [apply lookup_insert_eq | reflexivity].
Qed.

(** [hasOwnProperty('_state')] holds on every widget, and [state] has a
    getter only. *)
Lemma state_is_read_only (w : Widget Num) :
  hasOwnProperty w ("_" +:+ "state") = true
  /\ keyed (accessors (kind w)) "state" = GetterOnly.
Proof. destruct w as [b [ | | | ] o]; split; reflexivity. Qed.

(** X16.  [fromJSON] skips the key [type] and every key whose underscored
    name is not a field of the widget: a record made of such keys only leaves
    the widget as it was and has no effect. *)
Theorem fromJSON_skips_unknown_keys
    (json : Json Num) (p : P5 Num) (w : Widget Num) :
  Forall (fun e => fst e = "type"%string
                   \/ hasOwnProperty w ("_" +:+ fst e) = false) json ->
  fromJSON json p w = Some (w, []).
Proof.
  induction json as [|[key v] rest IH]; intros Hall; simpl; [reflexivity|].
  apply Forall_cons in Hall as [Hkey Hrest]. simpl in Hkey.
  replace (negb (String.eqb key "type") && hasOwnProperty w ("_" +:+ key))
    with false; [now apply IH|].
  destruct Hkey as [-> | ->]; [reflexivity | now rewrite andb_false_r].
Qed.

(** X17.  A record that holds the key [state] cannot be restored: [state]
    is a field of every widget and a property with a getter only, so the
    assignment [fromJSON] makes for it throws, if no earlier one has. *)
Theorem fromJSON_throws_on_state (json : Json Num) (p : P5 Num) :
  forall w : Widget Num,
    In "state"%string (List.map fst json) ->
    fromJSON json p w = None
    /\ forall v, assign "state" v p w = None.
Proof.
  assert (Hassign : forall (w : Widget Num) v, assign "state" v p w = None).
  { intros w v. unfold assign.
    now rewrite (proj2 (state_is_read_only w)). }
  induction json as [|[key v] rest IH]; intros w Hin; simpl in Hin;
    [contradiction|].
  split; [|apply Hassign]. cbn [fromJSON].
  destruct (String.eqb_spec key "state") as [->|Hne].
  - rewrite (proj1 (state_is_read_only w)). cbn [String.eqb Ascii.eqb Bool.eqb negb andb].
    now rewrite Hassign.
  - destruct Hin as [Heq|Hin]; [congruence|].
    destruct (negb _ && _).
    + destruct (assign key v p w) as [[w1 t1]|]; [|reflexivity].
      now rewrite (proj1 (IH w1 Hin)).
    + exact (proj1 (IH w Hin)).
Qed.

End Serialized.

Lemma assigned_property_is_serialized_witness :
  json_lookup "width"
    (toJSON (exec (P5Component_set_width 300) p5_example textbox_abc))
  = Some (JNum 300).
Proof.
  exact (proj1 (assigned_property_is_serialized "width" (JNum 300) p5_example
                  textbox_abc
                  (exec (P5Component_set_width 300) p5_example textbox_abc)
                  (trace (P5Component_set_width 300) p5_example textbox_abc)
                  eq_refl)).
Defined.

Lemma fromJSON_skips_unknown_keys_witness :
  fromJSON [("type", JStr "P5Button"); ("colour", JStr "red")] p5_example
           textbox_abc
  = Some (textbox_abc, []).
Proof.
  apply (fromJSON_skips_unknown_keys
           [("type", JStr "P5Button"); ("colour", JStr "red")] p5_example
           textbox_abc).
  constructor; [left; reflexivity|].
  constructor; [right; vm_compute; reflexivity | constructor].
Defined.

Lemma fromJSON_throws_on_state_witness :
  fromJSON [("name", JStr "field"); ("state", JStr "hover")] p5_example
           textbox_abc
  = None.
Proof.
  refine (proj1 (fromJSON_throws_on_state
                   [("name", JStr "field"); ("state", JStr "hover")]
                   p5_example textbox_abc _)).
  simpl. right. left. reflexivity.
Defined.

(* ===================================================================== *)
(** * More of the text box: delete, navigation, Enter, read-only, selection *)
(* ===================================================================== *)

Section TextBoxKeys.
Context {Num : Type} {NumOps : JsNumber Num}.

(** The key codes that are pairwise distinct are told apart by the tests
    of [handleKeyPressed]. *)
Lemma key_constants_distinct (p : P5 Num) :
  NoDup (key_constants p) ->
  (DELETE p =? BACKSPACE p) = false
  /\ ((LEFT_ARROW p =? BACKSPACE p) = false
      /\ (LEFT_ARROW p =? DELETE p) = false)
  /\ ((RIGHT_ARROW p =? BACKSPACE p) = false
      /\ (RIGHT_ARROW p =? DELETE p) = false
      /\ (RIGHT_ARROW p =? LEFT_ARROW p) = false)
  /\ ((HOME p =? BACKSPACE p) = false
      /\ (HOME p =? DELETE p) = false
      /\ (HOME p =? LEFT_ARROW p) = false
      /\ (HOME p =? RIGHT_ARROW p) = false)
  /\ ((END_ p =? BACKSPACE p) = false
      /\ (END_ p =? DELETE p) = false
      /\ (END_ p =? LEFT_ARROW p) = false
      /\ (END_ p =? RIGHT_ARROW p) = false
      /\ (END_ p =? HOME p) = false)
  /\ ((ENTER p =? BACKSPACE p) = false
      /\ (ENTER p =? DELETE p) = false
      /\ (ENTER p =? LEFT_ARROW p) = false
      /\ (ENTER p =? RIGHT_ARROW p) = false
      /\ (ENTER p =? HOME p) = false
      /\ (ENTER p =? END_ p) = false).
Proof.
  unfold key_constants. rewrite !NoDup_cons, !not_elem_of_cons.
  intros H. rewrite !Z.eqb_neq. intuition congruence.
Qed.

Lemma set_cursorPosition_same (t : TextBox.Fields Num) :
  TextBox.set_cursorPosition (TextBox._cursorPosition t) t = t.
Proof. now destruct t. Qed.

(** X18.  Delete in a text input does nothing when the input is read-only
    or the cursor is at or beyond the end of the value; otherwise it removes
    the character at the cursor, leaves the cursor where it is and emits
    [change] before [keyPress].  With the cursor within the value, the value
    loses exactly the character that followed the cursor. *)
Theorem delete_removes_at_cursor
    (p : P5 Num) (w : Widget Num) (t : TextBox.Fields Num) :
  ext w = ETextBox t ->
  keyCode p = DELETE p ->
  DELETE p <> BACKSPACE p ->
  let value := Component._text (base w) in
  let cursor := TextBox._cursorPosition t in
  (TextBox._readOnly t = true \/ text_length w <= cursor ->
   exec handleKeyPressed p w = w /\ trace handleKeyPressed p w = [])
  /\ (TextBox._readOnly t = false -> cursor < text_length w ->
      handleKeyPressed p w =
        (Some false,
         with_text_and_cursor (removed_at cursor value) cursor w,
         [Emit "change" [PStr (removed_at cursor value)];
          Emit "keyPress" [PKey "Delete" (keyCode p)];
          Redraw])
      /\ (0 <= cursor ->
          exists before c after,
            value = before +:+ String c after
            /\ Z.of_nat (String.length before) = cursor
            /\ removed_at cursor value = before +:+ after)).
Proof.
  destruct w as [b e o]. intros Hext Hk Hne; simpl in Hext; subst e.
  apply Z.eqb_neq in Hne. cbv zeta. cbn [base ext own]. split.
  - intros [Hro | Hend].
    + autounfold with methods. crunch. split; reflexivity.
    + apply Z.ltb_ge in Hend. unfold text_length in Hend; simpl in Hend.
      autounfold with methods. crunch.
      destruct (TextBox._readOnly t); cbn; [split; reflexivity|].
      rewrite ?Hne, ?Z.eqb_refl. cbn. rewrite ?Hend. split; reflexivity.
  - intros Hro Hlt. unfold text_length in Hlt; simpl in Hlt. split.
    + apply Z.ltb_lt in Hlt.
      autounfold with methods. crunch. rewrite ?Hne, ?Z.eqb_refl. crunch.
      unfold with_text_and_cursor, removed_at; cbn.
      rewrite substring_prefix, substring_suffix, set_cursorPosition_same.
      reflexivity.
    + intros Hpos.
      destruct (str_drop_cons (Z.to_nat (TextBox._cursorPosition t))
                  (Component._text b)) as [c Hc]; [lia|].
      exists (str_take (Z.to_nat (TextBox._cursorPosition t)) (Component._text b)),
        c, (str_drop (Z.to_nat (TextBox._cursorPosition t + 1)) (Component._text b)).
      replace (Z.to_nat (TextBox._cursorPosition t + 1))
        with (S (Z.to_nat (TextBox._cursorPosition t))) by lia.
      rewrite <- Hc, str_take_drop, length_str_take.
      split; [reflexivity|]. split; [lia|].
      unfold removed_at. do 2 f_equal. lia.
Qed.

(** X19.  The navigation keys move only the cursor.  In a text input that
    is not read-only, on a p5 instance whose seven key codes differ from one
    another, Left moves the cursor one to the left and redraws unless the
    cursor is at 0 or below, and Right moves it one to the right and redraws
    unless it is at or beyond the end of the value: there they do nothing at
    all.  Home puts the cursor at 0 and End at the length of the value, and
    both redraw whether the cursor moves or not.  None of the four changes
    the value or emits an event. *)
Theorem navigation_keys_move_only_the_cursor
    (p : P5 Num) (w : Widget Num) (t : TextBox.Fields Num) :
  ext w = ETextBox t ->
  TextBox._readOnly t = false ->
  NoDup (key_constants p) ->
  let cursor := TextBox._cursorPosition t in
  (keyCode p = LEFT_ARROW p ->
   handleKeyPressed p w
   = if 0 <? cursor then (Some false, with_cursor (cursor - 1) w, [Redraw])
     else (Some false, w, []))
  /\ (keyCode p = RIGHT_ARROW p ->
      handleKeyPressed p w
      = if cursor <? text_length w
        then (Some false, with_cursor (cursor + 1) w, [Redraw])
        else (Some false, w, []))
  /\ (keyCode p = HOME p ->
      handleKeyPressed p w = (Some false, with_cursor 0 w, [Redraw]))
  /\ (keyCode p = END_ p ->
      handleKeyPressed p w
      = (Some false, with_cursor (text_length w) w, [Redraw])).
Proof.
  destruct w as [b e o]. intros Hext Hro Hkeys; simpl in Hext; subst e.
  destruct (key_constants_distinct p Hkeys)
    as (_ & (L1 & L2) & (R1 & R2 & R3) & (H1 & H2 & H3 & H4)
        & (E1 & E2 & E3 & E4 & E5) & _).
  cbv zeta. unfold with_cursor, text_length. cbn [base ext own].
  split; [|split; [|split]]; intros Hk;
    autounfold with methods; cbn; rewrite Hro, Hk; cbn;
    rewrite ?L1, ?L2, ?R1, ?R2, ?R3, ?H1, ?H2, ?H3, ?H4, ?E1, ?E2, ?E3, ?E4,
      ?E5, ?Z.eqb_refl; cbn;
    try match goal with
        | |- context [if ?c then _ else _] => destruct c
        end; reflexivity.
Qed.

(** X20.  Backspace and Delete are the only keys whose press changes the
    value: for every other key code [handleKeyPressed] leaves the value as it
    was and emits neither [change] nor [keyPress]. *)
Theorem other_keys_leave_the_value (p : P5 Num) (w : Widget Num) :
  keyCode p <> BACKSPACE p ->
  keyCode p <> DELETE p ->
  Component._text (base (exec handleKeyPressed p w)) = Component._text (base w)
  /\ emits "change" (trace handleKeyPressed p w) = false
  /\ emits "keyPress" (trace handleKeyPressed p w) = false.
Proof.
  intros H1 H2. apply Z.eqb_neq in H1, H2.
  destruct w as [b [ | bt | t | l] o]; autounfold with methods; cbn;
    try (repeat split; reflexivity).
  destruct (TextBox._readOnly t); cbn; [repeat split; reflexivity|].
  rewrite H1, H2. split_ifs; repeat split; reflexivity.
Qed.

(** X21.  A read-only text input ignores the keyboard: every key press,
    Enter included, and every key typed leaves it as it was and emits
    nothing.  A pointer press does not focus it and does not move its
    cursor.  [clear()] is not guarded: it empties a read-only text input
    too. *)
Theorem read_only_ignores_keys
    (p : P5 Num) (w : Widget Num) (t : TextBox.Fields Num) :
  ext w = ETextBox t ->
  TextBox._readOnly t = true ->
  handleKeyPressed p w = (None, w, [])
  /\ handleKeyTyped p w = (tt, w, [])
  /\ value_and_cursor (exec _handleMousePressed p w) = value_and_cursor w
  /\ emits "focus" (trace _handleMousePressed p w) = false
  /\ Component._state (base (exec _handleMousePressed p w))
     = (if Component._enabled (base w) then active else Component._state (base w))
  /\ value_and_cursor (exec clear p w) = (EmptyString, 0).
Proof.
  destruct w as [b e o]. intros Hext Hro; simpl in Hext; subst e.
  destruct b as [? ? ? ? ? ? en ? ? ? ? ? ? ? ? st ? inside down].
  destruct t as [? ? ? ro ? ? al ? ? bi ? ? ? ? bl].
  simpl in Hro; subst ro.
  unfold value_and_cursor, cursorPosition, _handleMousePressed,
    P5TextBox__handleMousePressed, P5Component__handleMousePressed, clear.
  autounfold with methods. destruct en; cbn;
    repeat match goal with |- _ /\ _ => split end; reflexivity.
Qed.

(** X22.  Enter in a focused single-line text input submits and leaves the
    field: [submit] is emitted with the value, then [blur]; the state becomes
    [normal], the value and the cursor stay, and the keys that follow are not
    delivered.  In a multi-line text input Enter does nothing. *)
Theorem enter_submits_and_blurs
    (p p' : P5 Num) (w : Widget Num) (t : TextBox.Fields Num) :
  ext w = ETextBox t ->
  TextBox._readOnly t = false ->
  Component._state (base w) = focused ->
  keyCode p = ENTER p ->
  NoDup (key_constants p) ->
  let w' := exec p5_keyPressed p w in
  (TextBox._multiline t = false ->
   (exists rest,
      trace p5_keyPressed p w
      = Emit "submit" [PStr (Component._text (base w))] :: Emit "blur" [] :: rest
      /\ emits "change" rest = false)
   /\ Component._state (base w') = normal
   /\ value_and_cursor w' = value_and_cursor w
   /\ p5_keyPressed p' w' = (tt, w', [])
   /\ p5_keyTyped p' w' = (tt, w', []))
  /\ (TextBox._multiline t = true -> p5_keyPressed p w = (tt, w, [])).
Proof.
  destruct w as [b e o]. intros Hext Hro Hst Hk Hkeys; simpl in Hext, Hst; subst e.
  destruct b as [? ? ? ? ? ? en ? ? ? ? ? ? ? ? st ? inside down].
  destruct t as [? ? ? ro ? ml al ? ? bi ? ? ? ? bl].
  simpl in Hro, Hst; subst ro st.
  destruct (key_constants_distinct p Hkeys)
    as (_ & _ & _ & _ & _ & (N1 & N2 & N3 & N4 & N5 & N6)).
  cbv zeta. unfold exec, trace, value_and_cursor, cursorPosition.
  cbn [TextBox._multiline base ext Component._text TextBox._cursorPosition].
  match goal with
  | |- context [p5_keyPressed p ?w] =>
      remember (p5_keyPressed p w) as r eqn:E
  end.
  autounfold with methods in E. cbn in E.
  rewrite Hk, N1, N2, N3, N4, N5, N6, Z.eqb_refl in E.
  destruct ml, bl, bi; cbn in E; subst r; cbn [fst snd];
    (split; [intros Hml; try discriminate Hml
            | intros Hml; try discriminate Hml; try reflexivity]);
    (split; [eexists; split; reflexivity|]);
    (split; [reflexivity|]); (split; [reflexivity|]);
    apply keys_need_focus; cbn; discriminate.
Qed.

(** X23.  [selectAll()] followed by [getSelectedText()] gives the whole
    value of a text box, whatever was selected before, and changes neither
    the value nor the cursor; a text box that has just been built has
    nothing selected. *)
Theorem selectAll_selects_the_value
    (p : P5 Num) (w : Widget Num) (now : string) (o : Options.t Num) :
  getSelectedText (exec selectAll p w)
  = match ext w with
    | ETextBox _ => Component._text (base w)
    | _ => EmptyString
    end
  /\ value_and_cursor (exec selectAll p w) = value_and_cursor w
  /\ getSelectedText (new_P5TextBox now o) = EmptyString.
Proof.
  split; [|split; [|reflexivity]].
  - destruct w as [b [ | bt | t | l] o']; unfold selectAll, getSelectedText;
      autounfold with methods; cbn; try reflexivity.
    assert (H : 0 <= Z.of_nat (String.length (Component._text b))) by lia.
    apply Z.leb_le in H. rewrite H. cbn.
    rewrite Z.min_l, Z.max_r by lia.
    rewrite substring_prefix, Nat2Z.id. apply str_take_all. lia.
  - destruct w as [b [ | bt | t | l] o']; reflexivity.
Qed.

Lemma edit_within_max_length (op : EditOp) (p : P5 Num) (w : Widget Num)
    (max : Z) :
  within_max_length max w -> within_max_length max (edit op p w).
Proof.
  unfold within_max_length, maxLength, text_length.
  destruct w as [b [ | bt | t | l] o]; destruct op; unfold edit;
    autounfold with methods; cbn; intros [Hlen Hmax]; split_ifs;
    try (split; assumption); bool_facts;
    rewrite ?substring_prefix, ?substring_suffix, ?length_append,
      ?length_str_take, ?length_str_drop;
    (split; [|assumption]); cbn [String.length] in *; lia.
Qed.

(** X24.  Editing never makes the value longer than [maxLength]: from a
    text input whose value is within [maxLength], every state that a sequence
    of insert, backspace and delete operations goes through has its value
    within the same [maxLength]. *)
Theorem edits_stay_within_max_length
    (ops : list (EditOp * P5 Num)) (w : Widget Num) (max : Z) :
  within_max_length max w ->
  Forall (within_max_length max) (edits ops w).
Proof.
  revert w; induction ops as [|[op p] ops IH]; intros w Hin; simpl.
  - constructor.
  - constructor; [now apply edit_within_max_length|].
    apply IH. now apply edit_within_max_length.
Qed.

End TextBoxKeys.

Lemma delete_removes_at_cursor_witness :
  handleKeyPressed p5_delete textbox_ab_at_1
  = (Some false, with_text_and_cursor "a" 1 textbox_ab_at_1,
     [Emit "change" [PStr "a"]; Emit "keyPress" [PKey "Delete" 46]; Redraw]).
Proof.
  refine (proj1 (proj2 (delete_removes_at_cursor p5_delete textbox_ab_at_1
                          textbox_ab_at_1_fields _ _ _) _ _));
    vm_compute; try reflexivity; discriminate.
Defined.

Lemma navigation_keys_move_only_the_cursor_witness :
  handleKeyPressed p5_left textbox_ab
  = (Some false, with_cursor 1 textbox_ab, [Redraw]).
Proof.
  refine (proj1 (navigation_keys_move_only_the_cursor p5_left textbox_ab
                   textbox_ab_fields _ _ _) _);
    try reflexivity.
  apply (bool_decide_unpack _). vm_compute. exact I.
Defined.

Lemma other_keys_leave_the_value_witness :
  Component._text (base (exec handleKeyPressed p5_left textbox_ab)) = "ab"%string.
Proof.
  refine (proj1 (other_keys_leave_the_value p5_left textbox_ab _ _));
    vm_compute; discriminate.
Defined.

Lemma read_only_ignores_keys_witness :
  handleKeyPressed p5_enter textbox_read_only = (None, textbox_read_only, []).
Proof.
  exact (proj1 (read_only_ignores_keys p5_enter textbox_read_only
                  textbox_read_only_fields eq_refl eq_refl)).
Defined.

Lemma enter_submits_and_blurs_witness :
  Component._state (base (exec p5_keyPressed p5_enter textbox_ab)) = normal.
Proof.
  refine (proj1 (proj2 (proj1 (enter_submits_and_blurs p5_enter p5_example
                                 textbox_ab textbox_ab_fields _ _ _ _ _) _)));
    try reflexivity.
  apply (bool_decide_unpack _). vm_compute. exact I.
Defined.

Lemma edits_stay_within_max_length_witness :
  within_max_length 3 textbox_max3
  /\ Forall (within_max_length 3)
       (edits [(Insert "a", p5_example); (Insert "b", p5_example);
               (Insert "c", p5_example); (Insert "d", p5_example);
               (Backspace, p5_example)]
              textbox_max3).
Proof.
  assert (H : within_max_length 3 textbox_max3)
    by (split; [vm_compute; discriminate | reflexivity]).
  split; [exact H|].
  apply (edits_stay_within_max_length _ textbox_max3 3 H).
Defined.

(* ===================================================================== *)
(** * The label that sizes itself, and what the text box draws *)
(* ===================================================================== *)

Section Rendering.
Context {Num : Type} {NumOps : JsNumber Num}.

(** X25.  A label that sizes itself follows its text: setting [autoSize]
    to true gives the label the width of its text plus twice the padding and
    the height of its font plus twice the padding, and on a label that sizes
    itself so do the [text] setter, for the new text, and [setup]. *)
Theorem autosize_label_follows_its_text
    (p : P5 Num) (w : Widget Num) (l : Label.Fields Num) (value : string) :
  ext w = ELabel l ->
  let sized := exec (P5Label_set_autoSize true) p w in
  autosizing sized = true
  /\ sized_to_text p sized
  /\ Component._text (base (exec (set_text value) p sized)) = value
  /\ sized_to_text p (exec (set_text value) p sized)
  /\ sized_to_text p (exec p5_setup p sized)
  /\ (Label._autoSize l = true ->
      sized_to_text p (exec (set_text value) p w)
      /\ sized_to_text p (exec p5_setup p w)).
Proof.
  destruct w as [b e o]. intros Hext; simpl in Hext; subst e.
  destruct l as [? ? auto ? ? ? ? ?].
  cbv zeta.
  unfold autosizing, sized_to_text, P5Label_set_autoSize, set_text,
    P5Label_set_text, p5_setup, setup, P5Label_setup, P5Label__adjustSize,
    _resizeCanvas.
  autounfold with methods. cbn.
  split; [reflexivity|]. split; [split; reflexivity|].
  split; [reflexivity|]. split; [split; reflexivity|].
  split; [split; reflexivity|].
  intros ->. cbn. split; split; reflexivity.
Qed.

(** The loop of [draw] leaves the longest suffix that fits. *)
Lemma truncate_longest_suffix (p : P5 Num) (maxTextWidth : Num) (s : string) :
  exists n : nat,
    (n <= String.length s)%nat
    /\ truncate p maxTextWidth s = str_drop n s
    /\ (fits p maxTextWidth (truncate p maxTextWidth s) = true
        \/ n = String.length s)
    /\ forall m : nat, (m < n)%nat -> fits p maxTextWidth (str_drop m s) = false.
Proof.
  induction s as [|c s IH].
  - exists 0%nat. simpl. split; [lia|]. split; [reflexivity|].
    split; [now right|]. intros m Hm. lia.
  - simpl truncate. destruct (num_gt (textWidth p (String c s)) maxTextWidth) eqn:E.
    + destruct IH as (n & Hn & Hdrop & Hfit & Hlonger).
      exists (S n). simpl. split; [lia|]. split; [exact Hdrop|].
      split; [destruct Hfit as [Hfit | ->]; [now left | now right]|].
      intros [|m] Hm.
      * unfold fits. simpl. now rewrite E.
      * simpl. apply Hlonger. lia.
    + exists 0%nat. simpl. split; [lia|]. split; [reflexivity|].
      split; [left; unfold fits; now rewrite E|]. intros m Hm. lia.
Qed.

Lemma truncate_is_suffix (p : P5 Num) (maxTextWidth : Num) (s : string) :
  exists n : nat,
    (n <= String.length s)%nat /\ truncate p maxTextWidth s = str_drop n s.
Proof.
  destruct (truncate_longest_suffix p maxTextWidth s) as (n & Hn & Hdrop & _).
  now exists n.
Qed.

(** X26.  The text box shows the end of a text that is too wide: what it
    draws, when it does not draw the placeholder, is the display text without
    its first [n] characters, where every shorter cut is wider than the width
    of the box less twice the padding, and the text drawn fits that width or
    is empty. *)
Theorem truncate_keeps_longest_fitting_suffix
    (p : P5 Num) (w : Widget Num) (t : TextBox.Fields Num) (d : TextDrawn Num) :
  ext w = ETextBox t ->
  P5TextBox_draw p w = Some d ->
  drawn_placeholder d = false ->
  let p1 := textSize (Component._fontSize (base w))
              (textFont (Component._fontFamily (base w)) p) in
  let maxTextWidth :=
    num_sub (Component._width (base w))
            (num_mul (TextBox._padding t) (num_of_Z 2)) in
  exists n : nat,
    (n <= String.length (displayText w))%nat
    /\ drawn_text d = str_drop n (displayText w)
    /\ (fits p1 maxTextWidth (drawn_text d) = true
        \/ drawn_text d = EmptyString)
    /\ forall m : nat,
         (m < n)%nat -> fits p1 maxTextWidth (str_drop m (displayText w)) = false.
Proof.
  destruct w as [b e o]. intros Hext; simpl in Hext; subst e.
  unfold P5TextBox_draw. cbn [ext base].
  destruct ((String.length (Component._text b) =? 0)%nat
            && str_truthy (TextBox._placeholder t)
            && negb (state_eqb (Component._state b) focused));
    [intros [= <-]; discriminate|].
  intros [= <-] _. cbn [drawn_text]. cbv zeta.
  match goal with
  | |- context [truncate ?q ?m ?s] =>
      destruct (truncate_longest_suffix q m s) as (n & Hn & E & Hfit & Hlonger)
  end.
  exists n. split; [exact Hn|]. split; [exact E|].
  split; [|exact Hlonger].
  destruct Hfit as [Hfit | ->]; [now left|].
  right. rewrite E. clear.
  induction (displayText _) as [|c s IH]; [reflexivity | exact IH].
Qed.

Lemma repeat_string_S (c : ascii) (n : nat) :
  repeat_string (String c EmptyString) (S n)
  = String c (repeat_string (String c EmptyString) n).
Proof. reflexivity. Qed.

Lemma length_repeat_string (c : ascii) (n : nat) :
  String.length (repeat_string (String c EmptyString) n) = n.
Proof.
  induction n as [|n IH]; [reflexivity|].
  rewrite repeat_string_S. simpl. now rewrite IH.
Qed.

Lemma str_drop_repeat_string (c : ascii) (n k : nat) :
  (k <= n)%nat ->
  str_drop k (repeat_string (String c EmptyString) n)
  = repeat_string (String c EmptyString) (n - k).
Proof.
  revert k; induction n as [|n IH]; intros [|k] Hk; try reflexivity; try lia.
  rewrite repeat_string_S. simpl. apply IH. lia.
Qed.

(** X27.  A password field never draws a character of its value.  With a
    one-character [passwordChar] the text box draws either its placeholder,
    and then its value is empty, or a run of that character no longer than
    the value. *)
Theorem password_field_draws_only_the_mask
    (p : P5 Num) (w : Widget Num) (t : TextBox.Fields Num) (c : ascii)
    (d : TextDrawn Num) :
  ext w = ETextBox t ->
  TextBox._passwordChar t = Some (String c EmptyString) ->
  P5TextBox_draw p w = Some d ->
  if drawn_placeholder d
  then Component._text (base w) = EmptyString
       /\ drawn_text d = TextBox._placeholder t
  else exists k : nat,
         (k <= String.length (Component._text (base w)))%nat
         /\ drawn_text d = repeat_string (String c EmptyString) k.
Proof.
  destruct w as [b e o]. intros Hext Hpc; simpl in Hext; subst e.
  unfold P5TextBox_draw, displayText. cbn [ext base]. rewrite Hpc.
  cbn [str_truthy String.length Nat.eqb negb].
  destruct ((String.length (Component._text b) =? 0)%nat) eqn:Elen;
    cbn [andb].
  1: destruct (str_truthy (TextBox._placeholder t)
               && negb (state_eqb (Component._state b) focused)).
  1: { intros [= <-]. cbn. apply Nat.eqb_eq in Elen.
       split; [|reflexivity]. now destruct (Component._text b). }
  all: intros [= <-]; cbn [drawn_placeholder drawn_text];
    match goal with
    | |- context [truncate ?q ?m ?s] =>
        destruct (truncate_is_suffix q m s) as (n & Hn & ->)
    end;
    rewrite length_repeat_string in Hn;
    exists (String.length (Component._text b) - n)%nat;
    (split; [lia | now apply str_drop_repeat_string]).
Qed.

(** X28.  The cursor line is placed within the text as truncated, not as
    typed.  In a left-aligned text box that draws its cursor, the text drawn
    is the display text without its first [n] characters, and the cursor
    line stands after the first [cursorPosition] characters of the text
    drawn, that is after character [n + cursorPosition] of the display text;
    once [cursorPosition] reaches the length of the text drawn, the line
    stands at its end. *)
Theorem cursor_is_drawn_in_the_truncated_text
    (p : P5 Num) (w : Widget Num) (t : TextBox.Fields Num)
    (d : TextDrawn Num) (x : Num) :
  ext w = ETextBox t ->
  TextBox._textAlign t = "left"%string ->
  P5TextBox_draw p w = Some d ->
  drawn_cursor d = Some x ->
  let p1 := textSize (Component._fontSize (base w))
              (textFont (Component._fontFamily (base w)) p) in
  let cursor := Z.to_nat (TextBox._cursorPosition t) in
  exists n : nat,
    (n <= String.length (displayText w))%nat
    /\ drawn_text d = str_drop n (displayText w)
    /\ drawn_x d = TextBox._padding t
    /\ x = num_add (TextBox._padding t)
                   (textWidth p1 (str_take cursor (str_drop n (displayText w))))
    /\ ((String.length (drawn_text d) <= cursor)%nat ->
        x = num_add (TextBox._padding t) (textWidth p1 (drawn_text d))).
Proof.
  destruct w as [b e o]. intros Hext Hal; simpl in Hext; subst e.
  unfold P5TextBox_draw, P5TextBox__drawCursor. cbn [ext base]. rewrite Hal.
  cbn [String.eqb Ascii.eqb Bool.eqb].
  destruct ((String.length (Component._text b) =? 0)%nat
            && str_truthy (TextBox._placeholder t)
            && negb (state_eqb (Component._state b) focused));
    [intros [= <-]; discriminate|].
  intros [= <-]. cbn [drawn_cursor drawn_text drawn_x].
  destruct (state_eqb (Component._state b) focused
            && TextBox._cursorVisible t && negb (TextBox._readOnly t));
    [|discriminate].
  intros [= <-]. cbv zeta.
  match goal with
  | |- context [truncate ?q ?m ?s] =>
      destruct (truncate_is_suffix q m s) as (n & Hn & E)
  end.
  exists n. rewrite E, substring_prefix.
  split; [exact Hn|]. split; [reflexivity|]. split; [reflexivity|].
  split; [reflexivity|].
  intros Hend. now rewrite str_take_all.
Qed.

End Rendering.

Lemma autosize_label_follows_its_text_witness :
  sized_to_text p5_example
    (exec (set_text "Hello") p5_example
       (exec (P5Label_set_autoSize true) p5_example label_autosize)).
Proof.
  exact (proj1 (proj2 (proj2 (proj2
           (autosize_label_follows_its_text p5_example label_autosize
              label_autosize_fields "Hello" eq_refl))))).
Defined.

Lemma password_field_draws_only_the_mask_witness :
  exists k : nat,
    (k <= 3)%nat
    /\ drawn_text (mkTextDrawn "***" 5 false None)
       = repeat_string "*" k.
Proof.
  exact (password_field_draws_only_the_mask p5_example textbox_password
           textbox_password_fields "*"%char (mkTextDrawn "***" 5 false None)
           eq_refl eq_refl eq_refl).
Defined.

Lemma cursor_is_drawn_in_the_truncated_text_witness :
  exists n : nat,
    (n <= 2)%nat
    /\ drawn_text (mkTextDrawn "ab" 5 false (Some 21)) = str_drop n "ab"
    /\ drawn_x (mkTextDrawn "ab" 5 false (Some 21)) = 5
    /\ 21 = 5 + 8 * Z.of_nat (String.length (str_take 2 (str_drop n "ab")))
    /\ ((String.length (drawn_text (mkTextDrawn "ab" 5 false (Some 21))) <= 2)%nat ->
        21 = 5 + 16).
Proof.
  exact (cursor_is_drawn_in_the_truncated_text p5_example textbox_ab
           textbox_ab_fields (mkTextDrawn "ab" 5 false (Some 21)) 21
           eq_refl eq_refl eq_refl eq_refl).
Defined.

Lemma truncate_keeps_longest_fitting_suffix_witness :
  exists n : nat,
    (n <= 3)%nat
    /\ drawn_text (mkTextDrawn "***" 5 false None) = str_drop n "***"
    /\ (fits p5_example 190 (drawn_text (mkTextDrawn "***" 5 false None)) = true
        \/ drawn_text (mkTextDrawn "***" 5 false None) = EmptyString)
    /\ forall m : nat,
         (m < n)%nat -> fits p5_example 190 (str_drop m "***") = false.
Proof.
  exact (truncate_keeps_longest_fitting_suffix p5_example textbox_password
           textbox_password_fields (mkTextDrawn "***" 5 false None)
           eq_refl eq_refl eq_refl).
Defined.

(** A text box 30 wide holding "abcdef" in glyphs 8 wide: 20 are
    available, and it shows "ef", with the cursor line at its end. *)
Lemma narrow_textbox_shows_the_end :
  P5TextBox_draw p5_example
    (exec focus p5_example
       (new_P5TextBox "0"
          (Options.with_width 30 (Options.with_text "abcdef" Options.empty))))
  = Some (mkTextDrawn "ef" 5 false (Some 21)).
Proof. vm_compute. reflexivity. Qed.

(* ===================================================================== *)
(** * The lines of a label that wraps its text *)
(* ===================================================================== *)

Section WordWrap.
Context {Num : Type} {NumOps : JsNumber Num}.

Lemma str_append_empty_r (s : string) : s +:+ EmptyString = s.
Proof. induction s as [|c s IH]; [reflexivity|]. now rewrite append_cons, IH. Qed.

Lemma str_append_assoc (a b c : string) : (a +:+ b) +:+ c = a +:+ (b +:+ c).
Proof. induction a as [|x a IH]; [reflexivity|]. now rewrite !append_cons, IH. Qed.

Lemma non_spaces_append (a b : string) :
  non_spaces (a +:+ b) = non_spaces a +:+ non_spaces b.
Proof.
  induction a as [|c a IH]; [reflexivity|].
  rewrite append_cons. simpl. destruct (Ascii.eqb c " "); [exact IH|].
  now rewrite append_cons, IH.
Qed.

Lemma joined_app (a b : list string) : joined (a ++ b) = joined a +:+ joined b.
Proof.
  induction a as [|x a IH]; [reflexivity|].
  simpl. now rewrite IH, str_append_assoc.
Qed.

Lemma not_truthy_empty (s : string) : str_truthy s = false -> s = EmptyString.
Proof. now destruct s. Qed.

Lemma truthy_not_empty (s : string) : str_truthy s = true -> s <> EmptyString.
Proof. now destruct s. Qed.

Lemma split_spaces_not_nil (s : string) : split_spaces s <> [].
Proof.
  induction s as [|c s IH]; simpl; [discriminate|].
  destruct (Ascii.eqb c " "); [discriminate|].
  destruct (split_spaces s); discriminate.
Qed.

(** Splitting at the spaces loses the spaces only. *)
Lemma non_spaces_split (s : string) :
  non_spaces (joined (split_spaces s)) = non_spaces s.
Proof.
  induction s as [|c s IH]; [reflexivity|].
  simpl. destruct (Ascii.eqb c " ") eqn:E; [exact IH|].
  pose proof (split_spaces_not_nil s) as Hne.
  destruct (split_spaces s) as [|word words]; [congruence|].
  simpl joined in *. rewrite append_cons. simpl. now rewrite E, IH.
Qed.

(** What the loop keeps true of the lines pushed and of the line being
    filled. *)
Lemma wrap_loop_spec (p : P5 Num) (maxWidth : Num) (all : list string) :
  forall (words lines : list string) (currentLine : string),
    (forall word, In word words -> In word all) ->
    Forall (fun line => line <> EmptyString) lines ->
    Forall (fits_or_single_word p maxWidth all) lines ->
    (currentLine = EmptyString
     \/ fits_or_single_word p maxWidth all currentLine) ->
    let result := wrap_loop p maxWidth words lines currentLine in
    Forall (fun line => line <> EmptyString) (fst result)
    /\ Forall (fits_or_single_word p maxWidth all) (fst result)
    /\ (snd result = EmptyString
        \/ fits_or_single_word p maxWidth all (snd result))
    /\ non_spaces (joined (fst result) +:+ snd result)
       = non_spaces (joined lines +:+ currentLine +:+ joined words).
Proof.
  induction words as [|word rest IH]; intros lines cur Hin Hne Hfit Hcur.
  - simpl. repeat split; try assumption. now rewrite str_append_empty_r.
  - cbn [wrap_loop]. cbv zeta.
    assert (Hrest : forall x, In x rest -> In x all)
      by (intros x Hx; apply Hin; now right).
    assert (Hword : In word all) by (apply Hin; now left).
    destruct (num_gt _ maxWidth && str_truthy cur) eqn:E.
    + apply andb_prop in E as [_ Htruthy].
      destruct (IH (lines ++ [cur]) word Hrest) as (H1 & H2 & H3 & H4).
      * apply Forall_app; split; [exact Hne|].
        constructor; [now apply truthy_not_empty | constructor].
      * apply Forall_app; split; [exact Hfit|].
        constructor; [|constructor].
        destruct Hcur as [-> | Hcur]; [discriminate Htruthy | exact Hcur].
      * right. now right.
      * split; [exact H1|]. split; [exact H2|]. split; [exact H3|].
        rewrite H4, joined_app. simpl joined.
        now rewrite str_append_empty_r, !str_append_assoc.
    + destruct (IH lines
                  (cur +:+ (if str_truthy cur then " " else "") +:+ word)
                  Hrest Hne Hfit) as (H1 & H2 & H3 & H4).
      * right. apply andb_false_iff in E as [E | E].
        -- left. unfold fits. now rewrite E.
        -- right. rewrite E. apply not_truthy_empty in E. now subst cur.
      * split; [exact H1|]. split; [exact H2|]. split; [exact H3|].
        rewrite H4. simpl joined. rewrite !non_spaces_append.
        f_equal. rewrite !str_append_assoc. f_equal.
        destruct (str_truthy cur); reflexivity.
Qed.

(** X29.  The lines of a label that wraps its text: no line is empty;
    every line fits the width of the label less its padding, or is a single
    word of the text, which is drawn however wide it is; and put end to end
    the lines hold the characters of the text in their order, less spaces. *)
Theorem wrapped_lines_hold_the_text
    (p : P5 Num) (w : Widget Num) (l : Label.Fields Num) :
  ext w = ELabel l ->
  let c := base w in
  let p1 := textSize (Component._fontSize c)
              (textFont (Component._fontFamily c) p) in
  let maxWidth :=
    num_sub (Component._width c) (num_mul (Label._padding l) (num_of_Z 2)) in
  let lines := P5Label__drawWrappedText p w in
  Forall (fun line => line <> EmptyString) lines
  /\ Forall (fits_or_single_word p1 maxWidth (split_spaces (Component._text c)))
            lines
  /\ non_spaces (joined lines) = non_spaces (Component._text c).
Proof.
  destruct w as [b e o]. intros Hext; simpl in Hext; subst e.
  cbv zeta. unfold P5Label__drawWrappedText. cbn [ext base].
  set (p1 := textSize (Component._fontSize b)
               (textFont (Component._fontFamily b) p)).
  set (maxWidth := num_sub (Component._width b)
                     (num_mul (Label._padding l) (num_of_Z 2))).
  set (words := split_spaces (Component._text b)).
  destruct (wrap_loop_spec p1 maxWidth words words [] EmptyString)
    as (H1 & H2 & H3 & H4); [auto | constructor | constructor | now left |].
  destruct (wrap_loop p1 maxWidth words [] EmptyString) as [lines cur].
  cbn [fst snd] in *. simpl joined in H4.
  change (EmptyString +:+ EmptyString +:+ joined words) with (joined words) in H4.
  unfold words in H4 at 1. rewrite non_spaces_split in H4.
  destruct (str_truthy cur) eqn:E.
  - split; [|split].
    + apply Forall_app; split; [exact H1|].
      constructor; [now apply truthy_not_empty | constructor].
    + apply Forall_app; split; [exact H2|].
      constructor; [|constructor].
      destruct H3 as [-> | H3]; [discriminate E | exact H3].
    + rewrite joined_app. simpl joined. now rewrite str_append_empty_r.
  - apply not_truthy_empty in E. subst cur. rewrite str_append_empty_r in H4.
    split; [exact H1|]. split; [exact H2 | exact H4].
Qed.

End WordWrap.

Lemma wrapped_lines_hold_the_text_witness :
  Forall (fun line => line <> EmptyString)
         (P5Label__drawWrappedText p5_example label_autosize).
Proof.
  exact (proj1 (wrapped_lines_hold_the_text p5_example label_autosize
                  label_autosize_fields eq_refl)).
Defined.
